(** * Authentication service: register / verify / login / logout / password reset

    A shallow embedding of the Express handlers of [routes/auth.js], the
    guard [middleware/auth.js] and the mailer [mail/mailer.js].

    - JavaScript values that arrive in a request body are the type [JsValue];
      strings are sequences of 8-bit code units, the numbers of a body are
      integers.
    - The numbers the code computes are binary64: a rational, [NaN] or an
      infinity, every operation yielding the double nearest to its exact
      result ([Binary64]).
    - The relational store, the key-value store and the mail transport are
      fields of a [World]; every call that the handlers [await] is an
      operation of the monad [M], which threads the world, appends an [Event]
      to a trace when the call is issued and may throw according to the
      per-request fault plan [Faults].
    - A key of the key-value store is held with the instant at which it
      expires; a read at or after that instant finds nothing.
    - [try_catch] is the handlers' [try { } catch (err) { }].
    - [PUT /password] runs behind the guard; [config.js], the reconnection
      strategy of [redis.js] and the CORS middleware of [index.js] are pure
      functions of the process environment and of their arguments. *)

From Stdlib Require Import ZArith QArith Qround Qabs Qpower Ascii String Bool List Lia Lqa.
From stdpp Require Import gmap strings list.

Local Open Scope Z_scope.
Local Open Scope string_scope.

(** ** Strings as the handlers use them *)

Module JsString.

(** White space of [String.prototype.trim] and of the regex class [\s],
    for code units below 256: TAB, LF, VT, FF, CR, SP and NBSP. *)
Definition is_ws (c : ascii) : bool :=
  let n := N_of_ascii c in
  ((9 <=? n) && (n <=? 13) || (n =? 32) || (n =? 160))%N.

Definition is_digit (c : ascii) : bool :=
  let n := N_of_ascii c in ((48 <=? n) && (n <=? 57))%N.

Definition is_at (c : ascii) : bool := (N_of_ascii c =? 64)%N.
Definition is_dot (c : ascii) : bool := (N_of_ascii c =? 46)%N.

(** [String.prototype.toLowerCase] on one code unit: A-Z and the
    Latin-1 capitals (0xC0-0xDE without the multiplication sign 0xD7). *)
Definition lower_char (c : ascii) : ascii :=
  let n := N_of_ascii c in
  if ((65 <=? n) && (n <=? 90))%N then ascii_of_N (n + 32)
  else if ((192 <=? n) && (n <=? 222) && negb (n =? 215))%N
       then ascii_of_N (n + 32)
       else c.

Fixpoint toLowerCase (s : string) : string :=
  match s with
  | EmptyString => EmptyString
  | String c r => String (lower_char c) (toLowerCase r)
  end.

Fixpoint trimStart (s : string) : string :=
  match s with
  | EmptyString => EmptyString
  | String c r => if is_ws c then trimStart r else s
  end.

(** Drops the trailing white space: a character is kept when it is not
    white space or when something is kept after it. *)
Fixpoint trimEnd (s : string) : string :=
  match s with
  | EmptyString => EmptyString
  | String c r =>
      match trimEnd r with
      | EmptyString => if is_ws c then EmptyString else String c EmptyString
      | r' => String c r'
      end
  end.

Definition trim (s : string) : string := trimEnd (trimStart s).

(** [s.split(sep)[0]]: what comes before the first separator. *)
Fixpoint split_head (sep : ascii -> bool) (s : string) : string :=
  match s with
  | EmptyString => EmptyString
  | String c r => if sep c then EmptyString else String c (split_head sep r)
  end.

Definition len (s : string) : Z := Z.of_nat (String.length s).

Fixpoint startsWith (p s : string) : bool :=
match p, s with
| EmptyString, _ => true
| String _ _, EmptyString => false
| String a p', String b s' => Ascii.eqb a b && startsWith p' s'
end.

(** [s.slice(n)] for [0 <= n]. *)
Fixpoint slice (n : nat) (s : string) : string :=
  match n, s with
  | O, _ => s
  | S k, EmptyString => EmptyString
  | S k, String _ r => slice k r
  end.

End JsString.

(** ** Regular expressions: the two patterns of the handlers *)

Module Regex.

Inductive t : Type :=
| Void
| Eps
| Cls (p : ascii -> bool)
| Seq (a b : t)
| Alt (a b : t)
| Star (a : t).

Definition Plus (a : t) : t := Seq a (Star a).

Fixpoint nullable (r : t) : bool :=
  match r with
  | Void => false
  | Eps => true
  | Cls _ => false
  | Seq a b => nullable a && nullable b
  | Alt a b => nullable a || nullable b
  | Star _ => true
  end.

(** Brzozowski derivative. *)
Fixpoint deriv (c : ascii) (r : t) : t :=
  match r with
  | Void => Void
  | Eps => Void
  | Cls p => if p c then Eps else Void
  | Seq a b =>
      if nullable a then Alt (Seq (deriv c a) b) (deriv c b)
      else Seq (deriv c a) b
  | Alt a b => Alt (deriv c a) (deriv c b)
  | Star a => Seq (deriv c a) (Star a)
  end.

(** [/^r$/.test(s)]: the whole string matches. *)
Fixpoint test (r : t) (s : string) : bool :=
  match s with
  | EmptyString => nullable r
  | String c s' => test (deriv c r) s'
  end.

(** The language of a pattern, to state what [test] decides. *)
Inductive matches : t -> string -> Prop :=
| m_eps : matches Eps EmptyString
| m_cls p c : p c = true -> matches (Cls p) (String c EmptyString)
| m_seq a b s1 s2 : matches a s1 -> matches b s2 -> matches (Seq a b) (s1 +:+ s2)
| m_alt_l a b s : matches a s -> matches (Alt a b) s
| m_alt_r a b s : matches b s -> matches (Alt a b) s
| m_star_nil a : matches (Star a) EmptyString
| m_star_cons a s1 s2 :
    matches a s1 -> matches (Star a) s2 -> matches (Star a) (s1 +:+ s2).

Definition not_ws_at (c : ascii) : bool :=
  negb (JsString.is_ws c) && negb (JsString.is_at c).

(** [/^[^\s@]+@[^\s@]+\.[^\s@]+$/] *)
Definition emailRegex : t :=
  Seq (Plus (Cls not_ws_at))
    (Seq (Cls JsString.is_at)
       (Seq (Plus (Cls not_ws_at))
          (Seq (Cls JsString.is_dot) (Plus (Cls not_ws_at))))).

(** [/^\d{6}$/] *)
Definition codeRegex : t :=
  let d := Cls JsString.is_digit in
  Seq d (Seq d (Seq d (Seq d (Seq d d)))).

End Regex.

(** ** Binary64: the numbers of JavaScript *)

Module Binary64.

(** [floor (log2 x)] for [0 < x]: the difference of the bit lengths of the
    numerator and the denominator, or one less. *)
Definition ilog2 (x : Q) : Z :=
  let k := Z.log2 (Qnum x) - Z.log2 (Z.pos (Qden x)) in
  if Qle_bool (2 ^ k) x then k else k - 1.

(** The nearest integer, a tie going to the even one. *)
Definition rne (x : Q) : Z :=
  let f := Qfloor x in
  match (x - inject_Z f ?= 1 # 2)%Q with
  | Lt => f
  | Gt => f + 1
  | Eq => if Z.even f then f else f + 1
  end.

(** The doubles around [x] are the multiples of [2 ^ grid x]: 53
    significant bits, and no exponent below -1074 (the subnormal numbers). *)
Definition grid (x : Q) : Z := Z.max (ilog2 (Qabs x) - 52) (-1074).

(** Round to nearest, ties to even, with the exponent unbounded above. *)
Definition round (x : Q) : Q :=
  if Qeq_bool x 0 then 0%Q
  else let e := grid x in Qred (inject_Z (rne (x / 2 ^ e)) * 2 ^ e).

(** [Number.MAX_VALUE] *)
Definition max_value : Q := inject_Z ((2 ^ 53 - 1) * 2 ^ 971).

(** [x] is a finite double. *)
Definition is_double (x : Q) : bool :=
  Qeq_bool (round x) x && Qle_bool (Qabs x) max_value.

(** A value of type Number; the two zeros are not told apart. *)
Inductive t : Type :=
| NaN
| Inf (negative : bool)
| Fin (x : Q).

(** The Number for the real [x]: the nearest double, an infinity when that
    is beyond [max_value]. *)
Definition ofQ (x : Q) : t :=
  let y := round x in
  if Qle_bool (Qabs y) max_value then Fin y else Inf (negb (Qle_bool 0 x)).

(** [x] is [m * 2^e] for a significand [m] of at most 53 bits and an
    exponent [e] that is not below -1074. *)
Definition representable (x : Q) : Prop :=
  exists m e : Z, -1074 <= e /\ Z.abs m < 2 ^ 53 /\ (x == inject_Z m * 2 ^ e)%Q.

End Binary64.

(** ** Numbers and strings: [Number.prototype.toString] on integers, and
    [StringToNumber] *)

Module JsNumber.

Definition digit_char (d : Z) : ascii := ascii_of_N (48 + Z.to_N d).

(** Most significant digit first; [fuel] bounds the number of digits.
    (From [10^21] on JavaScript prints an exponent instead; the handlers
    print six-digit codes.) *)
Fixpoint digits (fuel : nat) (n : Z) (acc : string) : string :=
  let acc' := String (digit_char (n mod 10)) acc in
  match fuel with
  | O => acc'
  | S f => if (n / 10 =? 0)%Z then acc' else digits f (n / 10) acc'
  end.

Definition toString (n : Z) : string :=
  if (n <? 0)%Z then String "-" (digits (Z.to_nat (Z.log2 (- n))) (- n) EmptyString)
  else digits (Z.to_nat (Z.log2 n)) n EmptyString.

Definition digit_val (c : ascii) : Z := Z.of_N (N_of_ascii c) - 48.

Fixpoint parse_digits (s : string) (acc : Z) : option Z :=
  match s with
  | EmptyString => Some acc
  | String c r =>
      if JsString.is_digit c then parse_digits r (10 * acc + digit_val c)
      else None
  end.

(** The longest prefix whose code units satisfy [p], and what follows. *)
Fixpoint span (p : ascii -> bool) (s : string) : string * string :=
  match s with
  | EmptyString => (EmptyString, EmptyString)
  | String c r =>
      if p c then let '(a, b) := span p r in (String c a, b)
      else (EmptyString, s)
  end.

(** The value of a run of decimal digits; 0 for the empty run. *)
Definition digits_value (s : string) : Z := default 0 (parse_digits s 0).

(** A digit of a radix up to 36: [0-9], then the letters in either case. *)
Definition radix_digit (c : ascii) : option Z :=
  let n := Z.of_N (N_of_ascii c) in
  if ((48 <=? n) && (n <=? 57))%Z then Some (n - 48)
  else if ((97 <=? n) && (n <=? 122))%Z then Some (n - 87)
  else if ((65 <=? n) && (n <=? 90))%Z then Some (n - 55)
  else None.

Fixpoint parse_radix (radix : Z) (s : string) (acc : Z) : option Z :=
  match s with
  | EmptyString => Some acc
  | String c r =>
      match radix_digit c with
      | Some d => if (d <? radix)%Z then parse_radix radix r (radix * acc + d) else None
      | None => None
      end
  end.

(** [NonDecimalIntegerLiteral]: [0x], [0o] or [0b] in either case, then at
    least one digit of the radix. *)
Definition non_decimal (s : string) : option Z :=
  match s with
  | String z (String x r) =>
      if Ascii.eqb z "0" && negb (String.eqb r "") then
        if Ascii.eqb x "x" || Ascii.eqb x "X" then parse_radix 16 r 0
        else if Ascii.eqb x "o" || Ascii.eqb x "O" then parse_radix 8 r 0
        else if Ascii.eqb x "b" || Ascii.eqb x "B" then parse_radix 2 r 0
        else None
      else None
  | _ => None
  end.

(** An optional [ExponentPart] that ends the literal: [e] or [E], an
    optional sign, at least one digit.  Without it the exponent is 0. *)
Definition exponent_part (s : string) : option Z :=
  match s with
  | EmptyString => Some 0
  | String c r =>
      if Ascii.eqb c "e" || Ascii.eqb c "E" then
        let '(negative, ds) :=
          match r with
          | String c' r' =>
              if Ascii.eqb c' "-" then (true, r')
              else if Ascii.eqb c' "+" then (false, r')
              else (false, r)
          | EmptyString => (false, r)
          end in
        match ds with
        | EmptyString => None
        | _ => (fun n => if negative then - n else n) <$> parse_digits ds 0
        end
      else None
  end.

(** The mathematical value of a [StrUnsignedDecimalLiteral] other than
    [Infinity]: digits, an optional fraction, an optional exponent, with a
    digit before or after the dot. *)
Definition unsigned_decimal (s : string) : option Q :=
  let '(ip, r1) := span JsString.is_digit s in
  let '(fp, r2) :=
    match r1 with
    | String c r => if Ascii.eqb c "." then span JsString.is_digit r else (EmptyString, r1)
    | EmptyString => (EmptyString, r1)
    end in
  if String.eqb ip "" && String.eqb fp "" then None
  else
    match exponent_part r2 with
    | Some e =>
        Some ((inject_Z (digits_value ip)
               + inject_Z (digits_value fp) / 10 ^ JsString.len fp) * 10 ^ e)%Q
    | None => None
    end.

(** [StringToNumber]: white space around the literal is dropped and the
    empty string is 0; a sign may precede a decimal literal or [Infinity],
    not a literal of another radix; anything else is [NaN].  The value of
    the literal is rounded to the nearest double. *)
Definition ofString (s : string) : Binary64.t :=
  match JsString.trim s with
  | EmptyString => Binary64.Fin 0
  | String c r =>
      let '(signed, negative, lit) :=
        if Ascii.eqb c "-" then (true, true, r)
        else if Ascii.eqb c "+" then (true, false, r)
        else (false, false, String c r) in
      if String.eqb lit "Infinity" then Binary64.Inf negative
      else
        match (if signed then None else non_decimal lit) with
        | Some n => Binary64.ofQ (inject_Z n)
        | None =>
            match unsigned_decimal lit with
            | Some q => Binary64.ofQ (if negative then - q else q)
            | None => Binary64.NaN
            end
        end
  end.

End JsNumber.

(** ** Values of a parsed JSON body *)

Set Warnings "-register-all".

Inductive JsValue : Type :=
| JUndefined
| JNull
| JBool (b : bool)
| JNum (n : Z)
| JStr (s : string)
| JArr (l : list JsValue)
| JObj (l : list (string * JsValue)).

(** [!!v]: the falsy values are [undefined], [null], [false], [0] and [""]. *)
Definition truthy (v : JsValue) : bool :=
  match v with
  | JUndefined | JNull => false
  | JBool b => b
  | JNum n => negb (n =? 0)%Z
  | JStr s => negb (String.eqb s "")
  | JArr _ | JObj _ => true
  end.

Definition is_string (v : JsValue) : bool :=
  match v with JStr _ => true | _ => false end.

(** A request body after [bodyParser.json()]: field name to value; a field
    that is absent destructures to [undefined]. *)
Definition field (body : gmap string JsValue) (k : string) : JsValue :=
  default JUndefined (body !! k).

(** Own property lookup of an object literal; a repeated key keeps its last
    value, as [JSON.parse] does. *)
Fixpoint obj_get (k : string) (kv : list (string * JsValue)) : option JsValue :=
  match kv with
  | [] => None
  | (k', v) :: r =>
      match obj_get k r with
      | Some w => Some w
      | None => if String.eqb k k' then Some v else None
      end
  end.

(** ** Exceptions *)

Inductive Exn : Type :=
| TypeError
| SequelizeUniqueConstraintError
| SequelizeDatabaseError
| RedisError
| MailError
| BcryptError
| JsonWebTokenError
| TokenExpiredError.

(** [err.name] *)
Definition exn_name (e : Exn) : string :=
  match e with
  | TypeError => "TypeError"
  | SequelizeUniqueConstraintError => "SequelizeUniqueConstraintError"
  | SequelizeDatabaseError => "SequelizeDatabaseError"
  | JsonWebTokenError => "JsonWebTokenError"
  | TokenExpiredError => "TokenExpiredError"
  | RedisError | MailError | BcryptError => "Error"
  end.

Inductive Res (A : Type) : Type :=
| Ret (a : A)
| Throw (e : Exn).
Arguments Ret {A} a.
Arguments Throw {A} e.

(** [String(v)].  An array joins its elements with commas, [null] and
    [undefined] elements printing as the empty string; a plain object prints
    as [[object Object]] unless an own [toString] property (never callable
    in parsed JSON) shadows the inherited method, which is a [TypeError]. *)
Fixpoint js_toString (v : JsValue) : Res string :=
  match v with
  | JUndefined => Ret "undefined"
  | JNull => Ret "null"
  | JBool true => Ret "true"
  | JBool false => Ret "false"
  | JNum n => Ret (JsNumber.toString n)
  | JStr s => Ret s
  | JArr l =>
      (fix join (l : list JsValue) : Res string :=
         match l with
         | [] => Ret ""
         | x :: r =>
             let sx := match x with
                       | JUndefined | JNull => Ret ""
                       | _ => js_toString x
                       end in
             match sx, r with
             | Throw e, _ => Throw e
             | Ret s, [] => Ret s
             | Ret s, _ =>
                 match join r with
                 | Ret t => Ret (s +:+ "," +:+ t)
                 | Throw e => Throw e
                 end
             end
         end) l
  | JObj kv =>
      match obj_get "toString" kv with
      | Some _ => Throw TypeError
      | None => Ret "[object Object]"
      end
  end.

(** [Number(v)]: an array or an object is converted to a string first. *)
Definition js_toNumber (v : JsValue) : Res Binary64.t :=
  match v with
  | JUndefined => Ret Binary64.NaN
  | JNull => Ret (Binary64.Fin 0)
  | JBool b => Ret (Binary64.Fin (if b then 1 else 0))
  | JNum n => Ret (Binary64.Fin (inject_Z n))
  | JStr s => Ret (JsNumber.ofString s)
  | JArr _ | JObj _ =>
      match js_toString v with
      | Ret s => Ret (JsNumber.ofString s)
      | Throw e => Throw e
      end
  end.

(** [v.length] for a [v] that is neither [undefined] nor [null]. *)
Definition js_length (v : JsValue) : JsValue :=
  match v with
  | JStr s => JNum (JsString.len s)
  | JArr l => JNum (Z.of_nat (length l))
  | JObj kv => default JUndefined (obj_get "length" kv)
  | _ => JUndefined
  end.

(** [v >= k] for an integer [k]: false when [v] converts to [NaN]. *)
Definition js_ge (v : JsValue) (k : Z) : Res bool :=
  match js_toNumber v with
  | Ret (Binary64.Fin x) => Ret (Qle_bool (inject_Z k) x)
  | Ret (Binary64.Inf negative) => Ret (negb negative)
  | Ret Binary64.NaN => Ret false
  | Throw e => Throw e
  end.

Example trim_ex : JsString.trim "  A@b.Com " = "A@b.Com".
Proof. reflexivity. Qed.

Example email_ex1 : Regex.test Regex.emailRegex "a@b.com" = true.
Proof. reflexivity. Qed.

Example email_ex2 : Regex.test Regex.emailRegex "a@b" = false.
Proof. reflexivity. Qed.

Example email_ex3 : Regex.test Regex.emailRegex "a@b@c.d" = false.
Proof. reflexivity. Qed.

Example code_ex1 : Regex.test Regex.codeRegex "012345" = true.
Proof. reflexivity. Qed.

Example code_ex2 : Regex.test Regex.codeRegex "12345" = false.
Proof. reflexivity. Qed.

Example tostring_ex : JsNumber.toString 100000 = "100000" /\ JsNumber.toString 0 = "0"
  /\ JsNumber.toString (-45) = "-45" /\ JsNumber.toString 999999 = "999999".
Proof. repeat split; reflexivity. Qed.

Example tonum_ex : js_toNumber (JArr [JArr [JNum 7]]) = Ret (Binary64.Fin 7)
  /\ js_toNumber (JStr " 12 ") = Ret (Binary64.Fin 12)
  /\ js_toNumber (JObj []) = Ret Binary64.NaN
  /\ js_toNumber (JArr [JNum 1; JNum 2]) = Ret Binary64.NaN.
Proof. vm_compute. repeat split. Qed.

Example ofString_ex :
  JsNumber.ofString "1e1" = Binary64.Fin 10
  /\ JsNumber.ofString " -6.5 " = Binary64.Fin (- (13 # 2))
  /\ JsNumber.ofString ".5e+1" = Binary64.Fin 5
  /\ JsNumber.ofString "7." = Binary64.Fin 7
  /\ JsNumber.ofString "0x1F" = Binary64.Fin 31
  /\ JsNumber.ofString "0b101" = Binary64.Fin 5
  /\ JsNumber.ofString "-Infinity" = Binary64.Inf true
  /\ JsNumber.ofString "1e400" = Binary64.Inf false
  /\ JsNumber.ofString "0.1" = Binary64.Fin (3602879701896397 # 36028797018963968)
  /\ JsNumber.ofString "" = Binary64.Fin 0
  /\ JsNumber.ofString "-0x10" = Binary64.NaN
  /\ JsNumber.ofString "1e" = Binary64.NaN
  /\ JsNumber.ofString "." = Binary64.NaN
  /\ JsNumber.ofString "12px" = Binary64.NaN
  /\ JsNumber.ofString "infinity" = Binary64.NaN.
Proof. vm_compute. repeat split. Qed.

Example round_ex :
  Binary64.round (1 # 3) = (6004799503160661 # 18014398509481984)%Q
  /\ Binary64.round (9007199254740993 # 1) = (9007199254740992 # 1)%Q
  /\ Binary64.round (9007199254740995 # 1) = (9007199254740996 # 1)%Q
  /\ Binary64.is_double (1 # 2) = true
  /\ Binary64.is_double (1 # 3) = false
  /\ Binary64.ofQ (- (10 ^ 309)) = Binary64.Inf true.
Proof. vm_compute. repeat split. Qed.

(** ** The stores *)

(** A row of table [users] ([models/user.js]; [id] is Sequelize's key). *)
Record User : Type := mkUser {
  id : Z;
  email : string;
  password_hash : string;
  verified : bool }.

Record Mail : Type := mkMail {
  mail_to : string;
  mail_subject : string;
  mail_code : string }.

(** The rows of [users] by email (the unique column) and the next key. *)
Record Table : Type := mkTable {
  rows : gmap string User;
  next_id : Z }.

Record World : Type := mkWorld {
  users : Table;                      (* committed *)
  tx : option Table;                  (* the open transaction's view *)
  redis : gmap string (Z * string);   (* key to (instant of expiry, value) *)
  outbox : list Mail;                 (* mails the transport accepted *)
  transporterVerified : bool }.

(** What the handlers call, in the order they call it. *)
Inductive Event : Type :=
| EvTransaction
| EvFindOne (e : string)
| EvCreate (e : string)
| EvSave (e : string)
| EvCommit
| EvRollback
| EvSetEx (key : string) (ttl : Z) (value : string)
| EvGet (key : string)
| EvDel (key : string)
| EvSendMail (m : Mail)
| EvBcryptHash
| EvBcryptCompare
| EvConsoleError (msg : string).

Inductive CreateFault : Type := CreateOk | CreateDuplicate | CreateError.

(** Which of the calls of one request fail.  A call fails when the plan
    says so; besides, an insert fails on an email that is taken, and a
    commit or rollback without an open transaction fails.  Only an insert
    can fail on the unique index. *)
Record Faults : Type := mkFaults {
  transaction_fails : bool;
  findOne_fails : bool;
  create_fault : CreateFault;
  save_fails : bool;
  commit_fails : bool;
  rollback_fails : bool;
  get_fails : bool;
  setEx_fails : bool;
  del_fails : bool;
  sendMail_fails : bool }.

Definition no_faults : Faults :=
  mkFaults false false CreateOk false false false false false false false.

(** What one request reads from its environment: the fault plan, the clock
    [Math.floor(Date.now() / 1000)], which is also the clock of the
    key-value store, the value of [Math.random()], the identifier
    [uuidv4()] and the salt bcrypt draws. *)
Record Env : Type := mkEnv {
  faults : Faults;
  now : Z;
  random : Q;
  uuid : string;
  salt : string }.

Record St : Type := mkSt {
  world : World;
  trace : list Event }.

(** ** The monad of the handlers *)

Definition M (A : Type) : Type := Env -> St -> Res A * St.

Definition ret {A} (a : A) : M A := fun _ st => (Ret a, st).
Definition throw {A} (e : Exn) : M A := fun _ st => (Throw e, st).
Definition bind {A B} (m : M A) (k : A -> M B) : M B :=
  fun env st =>
    match m env st with
    | (Ret a, st') => k a env st'
    | (Throw e, st') => (Throw e, st')
    end.

Notation "'let*' x ':=' m 'in' k" := (bind m (fun x => k))
  (at level 10, x name, m at level 100, k at level 200).
Notation "m '>>' k" := (bind m (fun _ => k))
  (at level 100, k at level 200, right associativity).

(** [try { m } catch (err) { h err }] *)
Definition try_catch {A} (m : M A) (h : Exn -> M A) : M A :=
  fun env st =>
    match m env st with
    | (Ret a, st') => (Ret a, st')
    | (Throw e, st') => h e env st'
    end.

Definition lift {A} (r : Res A) : M A := fun _ st => (r, st).
Definition ask : M Env := fun env st => (Ret env, st).
Definition get_world : M World := fun _ st => (Ret (world st), st).
Definition put_world (w : World) : M unit :=
  fun _ st => (Ret tt, mkSt w (trace st)).
Definition emit (ev : Event) : M unit :=
  fun _ st => (Ret tt, mkSt (world st) (trace st ++ [ev])).

Definition console_error (msg : string) : M unit := emit (EvConsoleError msg).

Definition set_tx (t : option Table) (w : World) : World :=
  mkWorld (users w) t (redis w) (outbox w) (transporterVerified w).
Definition set_users (u : Table) (w : World) : World :=
  mkWorld u (tx w) (redis w) (outbox w) (transporterVerified w).
Definition set_redis (r : gmap string (Z * string)) (w : World) : World :=
  mkWorld (users w) (tx w) r (outbox w) (transporterVerified w).
Definition set_outbox (o : list Mail) (w : World) : World :=
  mkWorld (users w) (tx w) (redis w) o (transporterVerified w).

(** ** The relational store: [sequelize] and the model [User] *)

(** The table a call sees and writes: the open transaction's when the call
    passes [{ transaction }], the committed one otherwise. *)
Definition view (in_tx : bool) (w : World) : Table :=
  if in_tx then default (users w) (tx w) else users w.

Definition write_table (in_tx : bool) (t : Table) (w : World) : World :=
  if in_tx then set_tx (Some t) w else set_users t w.

(** [sequelize.transaction()] *)
Definition sequelize_transaction : M unit :=
  emit EvTransaction >>
  let* env := ask in
  if transaction_fails (faults env) then throw SequelizeDatabaseError
  else let* w := get_world in put_world (set_tx (Some (users w)) w).

(** [transaction.commit()] *)
Definition transaction_commit : M unit :=
  emit EvCommit >>
  let* env := ask in
  if commit_fails (faults env) then throw SequelizeDatabaseError
  else
    let* w := get_world in
    match tx w with
    | Some t => put_world (set_tx None (set_users t w))
    | None => throw SequelizeDatabaseError
    end.

(** [transaction.rollback()] *)
Definition transaction_rollback : M unit :=
  emit EvRollback >>
  let* env := ask in
  if rollback_fails (faults env) then throw SequelizeDatabaseError
  else
    let* w := get_world in
    match tx w with
    | Some _ => put_world (set_tx None w)
    | None => throw SequelizeDatabaseError
    end.

(** [User.findOne({ where: { email } })] *)
Definition User_findOne (e : string) (in_tx : bool) : M (option User) :=
  emit (EvFindOne e) >>
  let* env := ask in
  if findOne_fails (faults env) then throw SequelizeDatabaseError
  else let* w := get_world in ret (rows (view in_tx w) !! e).

(** [User.create({ email, password_hash, verified })] *)
Definition User_create (e hash : string) (v : bool) (in_tx : bool) : M User :=
  emit (EvCreate e) >>
  let* env := ask in
  match create_fault (faults env) with
  | CreateDuplicate => throw SequelizeUniqueConstraintError
  | CreateError => throw SequelizeDatabaseError
  | CreateOk =>
      let* w := get_world in
      let t := view in_tx w in
      match rows t !! e with
      | Some _ => throw SequelizeUniqueConstraintError
      | None =>
          let u := mkUser (next_id t) e hash v in
          put_world (write_table in_tx (mkTable (<[e := u]> (rows t)) (next_id t + 1)) w) >>
          ret u
      end
  end.

(** [user.save()]: the row of [u] is overwritten. *)
Definition User_save (u : User) (in_tx : bool) : M unit :=
  emit (EvSave (email u)) >>
  let* env := ask in
  if save_fails (faults env) then throw SequelizeDatabaseError
  else
    let* w := get_world in
    let t := view in_tx w in
    match rows t !! email u with
    | Some _ =>
        put_world
          (write_table in_tx (mkTable (<[email u := u]> (rows t)) (next_id t)) w)
    | None => ret tt
    end.

(** ** The key-value store: [redisClient] *)

(** What the store returns for [key] at the instant [now_s], in seconds:
    the value, unless the key is absent or has reached its expiry;
    [None] is [null]. *)
Definition redis_read (now_s : Z) (r : gmap string (Z * string)) (key : string)
  : option string :=
  match r !! key with
  | Some (expiry, value) => if (now_s <? expiry)%Z then Some value else None
  | None => None
  end.

(** [setEx(key, ttl, value)]: the key expires [ttl] seconds from now.  (The
    store refuses a [ttl] that is not positive; that is a plan in which the
    write fails.) *)
Definition redis_setEx (key : string) (ttl : Z) (value : string) : M unit :=
  emit (EvSetEx key ttl value) >>
  let* env := ask in
  if setEx_fails (faults env) then throw RedisError
  else
    let* w := get_world in
    put_world (set_redis (<[key := (now env + ttl, value)]> (redis w)) w).

Definition redis_get (key : string) : M (option string) :=
  emit (EvGet key) >>
  let* env := ask in
  if get_fails (faults env) then throw RedisError
  else let* w := get_world in ret (redis_read (now env) (redis w) key).

Definition redis_del (key : string) : M unit :=
  emit (EvDel key) >>
  let* env := ask in
  if del_fails (faults env) then throw RedisError
  else let* w := get_world in put_world (set_redis (delete key (redis w)) w).

(** ** The mailer ([mail/mailer.js]) *)

Module Mailer.

Definition isValidEmail (e : string) : bool := Regex.test Regex.emailRegex e.

(** [transporter.sendMail] *)
Definition sendMail (m : Mail) : M unit :=
  emit (EvSendMail m) >>
  let* env := ask in
  if sendMail_fails (faults env) then throw MailError
  else let* w := get_world in put_world (set_outbox (outbox w ++ [m]) w).

Definition send (subject errmsg toEmail code : string) : M unit :=
  if negb (isValidEmail toEmail) then throw MailError
  else
    let* w := get_world in
    if negb (transporterVerified w) then throw MailError
    else
      try_catch (sendMail (mkMail toEmail subject code))
        (fun err => console_error errmsg >> throw err).

Definition sendVerificationCode : string -> string -> M unit :=
  send "Your verification code" "SMTP: Failed to send verification code:".

Definition sendResetCode : string -> string -> M unit :=
  send "Your password reset code" "SMTP: Failed to send reset code:".

End Mailer.

(** ** Configuration, hashing and tokens *)

Record Config : Type := mkConfig {
  jwtSecret : string;
  jwtExpiresIn : Z;        (* the configured lifetime, in seconds *)
  verifTtl : Z;
  resetTtl : Z;
  tokenTtlSeconds : Z }.

(** The claims of a session token. *)
Record Payload : Type := mkPayload {
  sub : Z;
  claim_email : string;
  jti : option string;
  iat : option Z;
  exp : option Z }.

(** The primitives of [bcrypt] and [jsonwebtoken], as functions:
    [jwt_decode secret token] is the claims of a well-formed token whose
    signature is valid under [secret]. *)
Record Crypto : Type := mkCrypto {
  bcrypt_hash_fn : string -> Z -> string -> string;
  bcrypt_compare_fn : string -> string -> bool;
  jwt_encode : string -> Payload -> string;
  jwt_decode : string -> string -> option Payload }.

(** ** Responses *)

Record Response : Type := mkResponse {
  status : Z;
  body : JsValue }.

(** [res.status(statusCode).json({ error: message })] *)
Definition errorResponse (statusCode : Z) (message : string) : Response :=
  mkResponse statusCode (JObj [("error", JStr message)]).

(** [res.json(v)] *)
Definition res_json (v : JsValue) : Response := mkResponse 200 v.

(** ** Input validation ([routes/auth.js]) *)

(** [v.trim()]: a [TypeError] for anything but a string. *)
Definition js_trim (v : JsValue) : Res string :=
  match v with
  | JStr s => Ret (JsString.trim s)
  | _ => Throw TypeError
  end.

Definition isValidEmail (email : JsValue) : bool :=
  match email with
  | JStr s =>
      if negb (truthy email) then false
      else if negb (Regex.test Regex.emailRegex s) then false
      else if (JsString.len s >? 254)%Z then false
      else
        let localPart := JsString.split_head JsString.is_at s in
        if (JsString.len localPart >? 64)%Z then false else true
  | _ => false
  end.

(** [password && password.length >= 6], as the condition it is used for. *)
Definition isValidPassword (password : JsValue) : Res bool :=
  if truthy password then js_ge (js_length password) 6 else Ret false.

(** [genCode(len)] on the value [r] of [Math.random()].  Each operation
    yields the double nearest to its exact result; [Math.floor] is exact.
    (The handlers call it with 6, where the powers, [max] and
    [max - min + 1] are exact.) *)
Definition genCode_value (len : Z) (r : Q) : Z :=
  let min := Binary64.round (10 ^ (len - 1)) in
  let max := Binary64.round (Binary64.round (10 ^ len) - 1) in
  let span := Binary64.round (Binary64.round (max - min) + 1) in
  Qfloor (Binary64.round (min + Binary64.round (r * span))).

Definition genCode_of (len : Z) (r : Q) : string :=
  JsNumber.toString (genCode_value len r).

(** The double 0.3333333333333333, just below one third: the product
    299999.99999999998... rounds to 300000. *)
Example genCode_ex :
  genCode_of 6 (1 # 2) = "550000"
  /\ genCode_of 6 0 = "100000"
  /\ genCode_of 6 (9007199254740991 # 9007199254740992) = "999999"
  /\ genCode_of 6 (6004799503160661 # 18014398509481984) = "400000".
Proof. vm_compute. repeat split. Qed.

Definition genCode (len : Z) : M string :=
  let* env := ask in ret (genCode_of len (random env)).

Definition ok_body : JsValue := JObj [("ok", JBool true)].

Definition ok_message (msg : string) : JsValue :=
  JObj [("ok", JBool true); ("message", JStr msg)].

(** [!saved] for a value read from the key-value store. *)
Definition falsy_str (o : option string) : bool :=
  match o with
  | None => true
  | Some s => String.eqb s ""
  end.

Section Handlers.

Variable cfg : Config.
Variable cr : Crypto.

(** [bcrypt.hash(data, rounds)].  The library rejects data that is neither
    a string nor a buffer ("data must be a string or Buffer ..."). *)
Definition bcrypt_hash (data : JsValue) (rounds : Z) : M string :=
  emit EvBcryptHash >>
  match data with
  | JStr s => let* env := ask in ret (bcrypt_hash_fn cr s rounds (salt env))
  | _ => throw BcryptError
  end.

(** [bcrypt.compare(data, hash)].  The library rejects data that is neither
    a string nor a buffer ("data and hash must be strings"); on strings it
    resolves to the outcome of the comparison. *)
Definition bcrypt_compare (data : JsValue) (hash : string) : M bool :=
  emit EvBcryptCompare >>
  match data with
  | JStr s => ret (bcrypt_compare_fn cr s hash)
  | _ => throw BcryptError
  end.

(** [jwt.sign(payload, config.jwtSecret, { expiresIn })] *)
Definition jwt_sign (user_id : Z) (user_email tid : string) : M string :=
  let* env := ask in
  ret (jwt_encode cr (jwtSecret cfg)
         (mkPayload user_id user_email (Some tid) (Some (now env))
            (Some (now env + jwtExpiresIn cfg)))).

(** [jwt.verify(token, config.jwtSecret, { ignoreExpiration })]: a
    [JsonWebTokenError] for a malformed token or a bad signature, a
    [TokenExpiredError] when the clock has reached [exp] and the expiry is
    not ignored. *)
Definition jwt_verify (token : string) (ignoreExpiration : bool) : M Payload :=
  let* env := ask in
  match jwt_decode cr (jwtSecret cfg) token with
  | None => throw JsonWebTokenError
  | Some p =>
      match exp p with
      | Some e =>
          if negb ignoreExpiration && (e <=? now env)%Z then throw TokenExpiredError
          else ret p
      | None => ret p
      end
  end.

(** [POST /register/request] *)
Definition registerRequest (req_body : gmap string JsValue) : M Response :=
  try_catch
    (let password := field req_body "password" in
     if negb (truthy (field req_body "email")) || negb (truthy password)
     then ret (errorResponse 400 "email and password required")
     else
     let* trimmed := lift (js_trim (field req_body "email")) in
     let normalizedEmail := JsString.toLowerCase trimmed in
     if negb (isValidEmail (JStr normalizedEmail))
     then ret (errorResponse 400 "invalid email format")
     else
     let* strong := lift (isValidPassword password) in
     if negb strong
     then ret (errorResponse 400 "password must be at least 6 characters")
     else
     sequelize_transaction >>
     try_catch
       (let* existing := User_findOne normalizedEmail true in
        match existing with
        | Some _ =>
            transaction_rollback >>
            ret (errorResponse 400 "email already registered")
        | None =>
            let* hash := bcrypt_hash password 12 in
            let* user := User_create normalizedEmail hash false true in
            let* code := genCode 6 in
            let key := "verif_" +:+ normalizedEmail in
            let* early :=
              try_catch
                (redis_setEx key (verifTtl cfg) code >> ret None)
                (fun redisErr =>
                   transaction_rollback >>
                   console_error "Redis error in register request:" >>
                   ret (Some (errorResponse 500 "Failed to store verification code"))) in
            match early with
            | Some r => ret r
            | None =>
                transaction_commit >>
                try_catch
                  (Mailer.sendVerificationCode normalizedEmail code)
                  (fun err => console_error "SMTP: Failed to send verification code:") >>
                ret (res_json (ok_message "verification code sent to email"))
            end
        end)
       (fun err => transaction_rollback >> throw err))
    (fun err =>
       if String.eqb (exn_name err) "SequelizeUniqueConstraintError"
       then ret (errorResponse 400 "email already registered")
       else
         console_error "Register request error:" >>
         ret (errorResponse 500 "internal server error")).

(** [POST /register/verify] *)
Definition registerVerify (req_body : gmap string JsValue) : M Response :=
  try_catch
    (let code := field req_body "code" in
     if negb (truthy (field req_body "email")) || negb (truthy code)
     then ret (errorResponse 400 "email and code required")
     else
     let* trimmed := lift (js_trim (field req_body "email")) in
     let normalizedEmail := JsString.toLowerCase trimmed in
     if negb (isValidEmail (JStr normalizedEmail))
     then ret (errorResponse 400 "invalid email format")
     else
     let* trimmedCode := lift (js_trim code) in
     if negb (Regex.test Regex.codeRegex trimmedCode)
     then ret (errorResponse 400 "invalid code format")
     else
     let key := "verif_" +:+ normalizedEmail in
     let* got :=
       try_catch
         (let* saved := redis_get key in ret (inl saved))
         (fun redisErr =>
            console_error "Redis error in register verify:" >>
            ret (inr (errorResponse 500 "Failed to verify code"))) in
     match got with
     | inr r => ret r
     | inl saved =>
         if falsy_str saved
         then ret (errorResponse 400 "code expired or not found")
         else
         if negb (bool_decide (saved = Some trimmedCode))
         then ret (errorResponse 400 "invalid code")
         else
         let* found := User_findOne normalizedEmail false in
         match found with
         | None => ret (errorResponse 404 "user not found")
         | Some user =>
             if verified user
             then
               try_catch (redis_del key) (fun redisErr => ret tt) >>
               ret (res_json ok_body)
             else
               sequelize_transaction >>
               try_catch
                 (User_save
                    (mkUser (id user) (email user) (password_hash user) true) true >>
                  try_catch (redis_del key)
                    (fun redisErr =>
                       console_error "Redis error deleting verification code:") >>
                  transaction_commit >>
                  ret (res_json ok_body))
                 (fun err => transaction_rollback >> throw err)
         end
     end)
    (fun err =>
       console_error "Register verify error:" >>
       ret (errorResponse 500 "internal server error")).

(** [POST /login] *)
Definition login (req_body : gmap string JsValue) : M Response :=
  try_catch
    (let password := field req_body "password" in
     if negb (truthy (field req_body "email")) || negb (truthy password)
     then ret (errorResponse 400 "email and password required")
     else
     let* trimmed := lift (js_trim (field req_body "email")) in
     let normalizedEmail := JsString.toLowerCase trimmed in
     if negb (isValidEmail (JStr normalizedEmail))
     then ret (errorResponse 400 "invalid email format")
     else
     let* found := User_findOne normalizedEmail false in
     match found with
     | None => ret (errorResponse 400 "invalid credentials")
     | Some user =>
         if negb (verified user)
         then ret (errorResponse 403 "email not verified")
         else
         let* matched := bcrypt_compare password (password_hash user) in
         if negb matched
         then ret (errorResponse 400 "invalid credentials")
         else
         let* env := ask in
         let* token := jwt_sign (id user) (email user) (uuid env) in
         ret (res_json (JObj [("token", JStr token)]))
     end)
    (fun err =>
       console_error "Login error:" >>
       ret (errorResponse 500 "internal server error")).

(** The marker's lifetime: what is left of the token's, or the default. *)
Definition blacklist_ttl (payload : Payload) (now_s : Z) : Z :=
  let ttl := tokenTtlSeconds cfg in
  match exp payload with
  | Some e =>
      if negb (e =? 0)%Z then
        let remaining := e - now_s in
        if (remaining >? 0)%Z then remaining else ttl
      else ttl
  | None => ttl
  end.

(** [POST /logout]; the argument is [req.headers.authorization]. *)
Definition logout (authorization : option string) : M Response :=
  try_catch
    (match authorization with
     | None => ret (errorResponse 401 "Unauthorized")
     | Some auth =>
         if String.eqb auth "" || negb (JsString.startsWith "Bearer " auth)
         then ret (errorResponse 401 "Unauthorized")
         else
         let token := JsString.slice 7 auth in
         if String.eqb token ""
         then ret (errorResponse 401 "Token required")
         else
         let* got :=
           try_catch
             (let* p := jwt_verify token true in ret (inl p))
             (fun err =>
                if String.eqb (exn_name err) "JsonWebTokenError"
                   || String.eqb (exn_name err) "TokenExpiredError"
                then ret (inr (errorResponse 401 "invalid or expired token"))
                else throw err) in
         match got with
         | inr r => ret r
         | inl payload =>
             if falsy_str (jti payload)
             then ret (errorResponse 400 "invalid token")
             else
             let* env := ask in
             let ttl := blacklist_ttl payload (now env) in
             let key := "black_" +:+ default "" (jti payload) in
             try_catch (redis_setEx key ttl "1")
               (fun redisErr => console_error "Redis error in logout:") >>
             ret (res_json ok_body)
         end
     end)
    (fun err =>
       console_error "Logout error:" >>
       ret (errorResponse 500 "internal server error")).

(** [POST /password/forgot] *)
Definition forgotPassword (req_body : gmap string JsValue) : M Response :=
  try_catch
    (if negb (truthy (field req_body "email"))
     then ret (errorResponse 400 "email required")
     else
     let* trimmed := lift (js_trim (field req_body "email")) in
     let normalizedEmail := JsString.toLowerCase trimmed in
     if negb (isValidEmail (JStr normalizedEmail))
     then ret (errorResponse 400 "invalid email format")
     else
     let* found := User_findOne normalizedEmail false in
     match found with
     | Some user =>
         let* code := genCode 6 in
         let key := "reset_" +:+ normalizedEmail in
         try_catch (redis_setEx key (resetTtl cfg) code)
           (fun redisErr => console_error "Redis error in forgot password:") >>
         try_catch (Mailer.sendResetCode normalizedEmail code)
           (fun err => console_error "SMTP: Failed to send reset code:")
     | None => ret tt
     end >>
     ret (res_json (ok_message "reset code sent if email exists")))
    (fun err =>
       console_error "Forgot password error:" >>
       ret (errorResponse 500 "internal server error")).

(** [POST /password/reset] *)
Definition resetPassword (req_body : gmap string JsValue) : M Response :=
  try_catch
    (let code := field req_body "code" in
     let newPassword := field req_body "newPassword" in
     if negb (truthy (field req_body "email")) || negb (truthy code)
        || negb (truthy newPassword)
     then ret (errorResponse 400 "email, code and newPassword required")
     else
     let* trimmed := lift (js_trim (field req_body "email")) in
     let normalizedEmail := JsString.toLowerCase trimmed in
     if negb (isValidEmail (JStr normalizedEmail))
     then ret (errorResponse 400 "invalid email format")
     else
     let* strong := lift (isValidPassword newPassword) in
     if negb strong
     then ret (errorResponse 400 "password must be at least 6 characters")
     else
     let* trimmedCode := lift (js_trim code) in
     if negb (Regex.test Regex.codeRegex trimmedCode)
     then ret (errorResponse 400 "invalid code format")
     else
     let key := "reset_" +:+ normalizedEmail in
     let* got :=
       try_catch
         (let* saved := redis_get key in ret (inl saved))
         (fun redisErr =>
            console_error "Redis error in reset password:" >>
            ret (inr (errorResponse 500 "Failed to verify reset code"))) in
     match got with
     | inr r => ret r
     | inl saved =>
         if falsy_str saved
         then ret (errorResponse 400 "code expired or not found")
         else
         if negb (bool_decide (saved = Some trimmedCode))
         then ret (errorResponse 400 "invalid code")
         else
         let* found := User_findOne normalizedEmail false in
         match found with
         | None => ret (errorResponse 404 "user not found")
         | Some user =>
             sequelize_transaction >>
             try_catch
               (let* hash := bcrypt_hash newPassword 12 in
                User_save (mkUser (id user) (email user) hash (verified user)) true >>
                try_catch (redis_del key)
                  (fun redisErr => console_error "Redis error deleting reset code:") >>
                transaction_commit >>
                ret (res_json ok_body))
               (fun err => transaction_rollback >> throw err)
         end
     end)
    (fun err =>
       console_error "Reset password error:" >>
       ret (errorResponse 500 "internal server error")).

(** ** The guard ([middleware/auth.js]) *)

(** What the middleware does with a request: answer it, or set
    [req.user] and call [next()]. *)
Inductive Guard : Type :=
| Respond (r : Response)
| Next (user : Payload).

Definition authMiddleware (authorization : option string) : M Guard :=
  try_catch
    (match authorization with
     | None => ret (Respond (errorResponse 401 "Unauthorized"))
     | Some auth =>
         if String.eqb auth "" || negb (JsString.startsWith "Bearer " auth)
         then ret (Respond (errorResponse 401 "Unauthorized"))
         else
         let token := JsString.slice 7 auth in
         if String.eqb token ""
         then ret (Respond (errorResponse 401 "Token required"))
         else
         let* got :=
           try_catch
             (let* p := jwt_verify token false in ret (inl p))
             (fun err =>
                if String.eqb (exn_name err) "TokenExpiredError"
                then ret (inr (errorResponse 401 "Token expired"))
                else if String.eqb (exn_name err) "JsonWebTokenError"
                then ret (inr (errorResponse 401 "Invalid token"))
                else throw err) in
         match got with
         | inr r => ret (Respond r)
         | inl payload =>
             if falsy_str (jti payload)
             then ret (Respond (errorResponse 401 "Malformed token"))
             else
             let* revoked :=
               try_catch
                 (let blackKey := "black_" +:+ default "" (jti payload) in
                  let* isBlack := redis_get blackKey in
                  if negb (falsy_str isBlack)
                  then ret (Some (errorResponse 401 "Token revoked"))
                  else ret None)
                 (fun err =>
                    console_error "Redis error in auth middleware:" >>
                    ret None) in
             match revoked with
             | Some r => ret (Respond r)
             | None => ret (Next payload)
             end
         end
     end)
    (fun err =>
       console_error "Auth middleware error:" >>
       ret (Respond (errorResponse 500 "Internal server error"))).

End Handlers.

(** ** The router of [routes/auth.js]: the POST routes *)

Inductive Request : Type :=
| PostRegisterRequest (req_body : gmap string JsValue)
| PostRegisterVerify (req_body : gmap string JsValue)
| PostLogin (req_body : gmap string JsValue)
| PostLogout (authorization : option string)
| PostPasswordForgot (req_body : gmap string JsValue)
| PostPasswordReset (req_body : gmap string JsValue).

Definition route (cfg : Config) (cr : Crypto) (rq : Request) : M Response :=
  match rq with
  | PostRegisterRequest b => registerRequest cfg cr b
  | PostRegisterVerify b => registerVerify b
  | PostLogin b => login cfg cr b
  | PostLogout a => logout cfg cr a
  | PostPasswordForgot b => forgotPassword cfg b
  | PostPasswordReset b => resetPassword cr b
  end.

(** Requests served one after the other, each with its own environment. *)
Fixpoint serve (cfg : Config) (cr : Crypto) (reqs : list (Request * Env))
    (st : St) : St :=
  match reqs with
  | [] => st
  | (rq, env) :: rest => serve cfg cr rest (snd (route cfg cr rq env st))
  end.

(** Every row of the table sits under its own email. *)
Definition keyed_by_email (t : Table) : Prop :=
  forall k u, rows t !! k = Some u -> email u = k.

(** The account of [ne] exists, is unverified and has no stored code. *)
Definition stuck (ne : string) (w : World) : Prop :=
  keyed_by_email (users w)
  /\ (exists u, rows (users w) !! ne = Some u /\ verified u = false)
  /\ redis w !! ("verif_" +:+ ne) = None.

Example normalize_ex :
  JsString.toLowerCase (JsString.trim "  Ann.Lee@Example.COM ") = "ann.lee@example.com"
  /\ JsString.trim " a b  " = "a b".
Proof. split; reflexivity. Qed.

Example isValidEmail_ex :
  isValidEmail (JStr "a@b.com") = true
  /\ isValidEmail (JStr "a@b") = false
  /\ isValidEmail (JStr "a b@c.de") = false
  /\ isValidEmail (JStr "") = false
  /\ isValidEmail (JNum 5) = false.
Proof. repeat split; reflexivity. Qed.

Example isValidPassword_ex :
  isValidPassword (JStr "secret1") = Ret true
  /\ isValidPassword (JStr "short") = Ret false
  /\ isValidPassword (JNum 1234567) = Ret false
  /\ isValidPassword (JArr [JNum 1; JNum 2; JNum 3; JNum 4; JNum 5; JNum 6]) = Ret true
  /\ isValidPassword (JObj [("length", JStr "7")]) = Ret true
  /\ isValidPassword (JObj [("length", JStr "1e1")]) = Ret true
  /\ isValidPassword (JObj [("length", JStr "0x10")]) = Ret true
  /\ isValidPassword (JObj [("length", JStr "5.9")]) = Ret false
  /\ isValidPassword (JObj [("length", JArr [JStr "Infinity"])]) = Ret true
  /\ isValidPassword (JObj [("length", JObj [("toString", JNum 1)])]) = Throw TypeError
  /\ isValidPassword (JObj []) = Ret false.
Proof. vm_compute. repeat split. Qed.

(** ** A concrete instance, to run the handlers *)

Module Demo.

Definition cfg : Config := mkConfig "change_this_secret" 86400 600 900 86400.

(** A stand-in for bcrypt and for signed tokens: the hash is the salt, the
    cost and the password side by side; a token is its claims' identifier
    behind the secret, and only the ones issued below decode. *)
Definition hash_fn (pw : string) (rounds : Z) (slt : string) : string :=
  "$2b$" +:+ JsNumber.toString rounds +:+ "$" +:+ slt +:+ "$" +:+ pw.

Definition compare_fn (pw h : string) : bool :=
  JsString.startsWith "$2b$12$" h
  && String.eqb (JsString.slice 15 h) ("$" +:+ pw).

Definition encode (secret : string) (p : Payload) : string :=
  secret +:+ "." +:+ default "" (jti p).

Definition alice_claims : Payload :=
  mkPayload 1 "a@b.com" (Some "jti-1") (Some 1000) (Some 87400).

Definition decode (secret token : string) : option Payload :=
  if String.eqb token (encode secret alice_claims) then Some alice_claims else None.

Definition cr : Crypto := mkCrypto hash_fn compare_fn encode decode.

Definition w0 : World := mkWorld (mkTable ∅ 1) None ∅ [] true.

Definition env0 : Env := mkEnv no_faults 1000 (1 # 2) "jti-1" "saltsalt".

(** One call fails, the others succeed. *)
Definition commit_down : Faults :=
  {| transaction_fails := false; findOne_fails := false; create_fault := CreateOk;
     save_fails := false; commit_fails := true; rollback_fails := false;
     get_fails := false; setEx_fails := false; del_fails := false;
     sendMail_fails := false |}.

Definition get_down : Faults :=
  {| transaction_fails := false; findOne_fails := false; create_fault := CreateOk;
     save_fails := false; commit_fails := false; rollback_fails := false;
     get_fails := true; setEx_fails := false; del_fails := false;
     sendMail_fails := false |}.

Definition setEx_down : Faults :=
  {| transaction_fails := false; findOne_fails := false; create_fault := CreateOk;
     save_fails := false; commit_fails := false; rollback_fails := false;
     get_fails := false; setEx_fails := true; del_fails := false;
     sendMail_fails := false |}.

Definition body2 (k1 : string) (v1 : JsValue) (k2 : string) (v2 : JsValue)
  : gmap string JsValue := <[k1 := v1]> (<[k2 := v2]> ∅).

Definition run {A} (m : M A) (env : Env) (w : World) : Res A * St :=
  m env (mkSt w []).

Definition alice (v : bool) : User :=
  mkUser 1 "a@b.com" "$2b$12$saltsalt$secret1" v.

Definition alice_mail : Mail :=
  mkMail "a@b.com" "Your verification code" "550000".

(** After alice's registration request: unverified, her code stored and
    mailed. *)
Definition w_registered : World :=
  mkWorld (mkTable {["a@b.com" := alice false]} 2) None
    {["verif_a@b.com" := (1600, "550000")]} [alice_mail] true.

(** After her verification: verified, the code deleted. *)
Definition w_verified : World :=
  mkWorld (mkTable {["a@b.com" := alice true]} 2) None ∅ [alice_mail] true.

End Demo.

(** The normalized email of a request: [email.trim().toLowerCase()]. *)
Definition normalize (e : string) : string :=
  JsString.toLowerCase (JsString.trim e).

(** The six decimal digits of [n], most significant first. *)
Definition six (n : Z) : string :=
  String (JsNumber.digit_char (n / 100000 mod 10))
    (String (JsNumber.digit_char (n / 10000 mod 10))
       (String (JsNumber.digit_char (n / 1000 mod 10))
          (String (JsNumber.digit_char (n / 100 mod 10))
             (String (JsNumber.digit_char (n / 10 mod 10))
                (String (JsNumber.digit_char (n mod 10)) EmptyString))))).

(** ** [PUT /password] and the whole router ([routes/auth.js]) *)

(** [a === b] for two fields of one parsed body: primitives compare by
    value; two arrays or objects that [JSON.parse] built are never the same
    object. *)
Definition js_strict_eq (a b : JsValue) : bool :=
  match a, b with
  | JUndefined, JUndefined => true
  | JNull, JNull => true
  | JBool x, JBool y => Bool.eqb x y
  | JNum x, JNum y => (x =? y)%Z
  | JStr x, JStr y => String.eqb x y
  | _, _ => false
  end.

(** The row whose key [id] is [uid]. *)
Definition find_by_id (uid : Z) (t : gmap string User) : option User :=
  snd <$> List.find (fun kv => (id (snd kv) =? uid)%Z) (map_to_list t).

(** [User.findByPk(uid)]: a read of the committed table.  It is the one
    lookup of its request, so the plan's lookup flag says whether it fails;
    the trace, which lists the calls of the POST routes, gets no entry. *)
Definition User_findByPk (uid : Z) : M (option User) :=
  let* env := ask in
  if findOne_fails (faults env) then throw SequelizeDatabaseError
  else let* w := get_world in ret (find_by_id uid (rows (users w))).

Section Authenticated.

Variable cfg : Config.
Variable cr : Crypto.

(** The handler of [PUT /password], behind the guard; [user] is [req.user]. *)
Definition changePasswordHandler (user : Payload)
    (req_body : gmap string JsValue) : M Response :=
  try_catch
    (let oldPassword := field req_body "oldPassword" in
     let newPassword := field req_body "newPassword" in
     if negb (truthy oldPassword) || negb (truthy newPassword)
     then ret (errorResponse 400 "oldPassword and newPassword required")
     else
     let* strong := lift (isValidPassword newPassword) in
     if negb strong
     then ret (errorResponse 400 "password must be at least 6 characters")
     else
     if js_strict_eq oldPassword newPassword
     then ret (errorResponse 400 "new password must be different from old password")
     else
     let uid := sub user in
     let* found := User_findByPk uid in
     match found with
     | None => ret (errorResponse 404 "user not found")
     | Some u =>
         let* matched := bcrypt_compare cr oldPassword (password_hash u) in
         if negb matched
         then ret (errorResponse 400 "old password incorrect")
         else
         sequelize_transaction >>
         try_catch
           (let* hash := bcrypt_hash cr newPassword 12 in
            User_save (mkUser (id u) (email u) hash (verified u)) true >>
            transaction_commit >>
            ret (res_json ok_body))
           (fun err => transaction_rollback >> throw err)
     end)
    (fun err =>
       console_error "Change password error:" >>
       ret (errorResponse 500 "internal server error")).

(** [router.put('/password', authMiddleware, handler)] *)
Definition changePassword (authorization : option string)
    (req_body : gmap string JsValue) : M Response :=
  let* g := authMiddleware cfg cr authorization in
  match g with
  | Respond r => ret r
  | Next user => changePasswordHandler user req_body
  end.

End Authenticated.

(** The router of [routes/auth.js], all seven routes. *)
Inductive ApiRequest : Type :=
| Post (rq : Request)
| PutPassword (authorization : option string) (req_body : gmap string JsValue).

Definition api_route (cfg : Config) (cr : Crypto) (rq : ApiRequest) : M Response :=
  match rq with
  | Post p => route cfg cr p
  | PutPassword a b => changePassword cfg cr a b
  end.

Fixpoint api_serve (cfg : Config) (cr : Crypto) (reqs : list (ApiRequest * Env))
    (st : St) : St :=
  match reqs with
  | [] => st
  | (rq, env) :: rest => api_serve cfg cr rest (snd (api_route cfg cr rq env st))
  end.

Example changePassword_ex :
  let out := Demo.run (changePassword Demo.cfg Demo.cr
                         (Some "Bearer change_this_secret.jti-1")
                         (Demo.body2 "oldPassword" (JStr "secret1")
                            "newPassword" (JStr "secret2")))
               Demo.env0 Demo.w_verified in
  fst out = Ret (res_json ok_body)
  /\ rows (users (world (snd out))) !! "a@b.com"
     = Some (mkUser 1 "a@b.com" "$2b$12$saltsalt$secret2" true).
Proof. vm_compute. split; reflexivity. Qed.

(** ** Well-formed tables *)

(** No two rows share a key [id]. *)
Definition unique_ids (t : Table) : Prop :=
  forall k1 k2 u1 u2,
    rows t !! k1 = Some u1 -> rows t !! k2 = Some u2 -> id u1 = id u2 -> k1 = k2.

(** Every row sits under its own email, which is a valid address in
    normal form; keys are below the next key and no two rows share one. *)
Definition accounts_ok (t : Table) : Prop :=
  (forall k u,
      rows t !! k = Some u ->
      email u = k /\ normalize k = k /\ isValidEmail (JStr k) = true
      /\ id u < next_id t)
  /\ unique_ids t.

(** ** Shapes of strings *)

(** Every code unit of [s] satisfies [p]. *)
Fixpoint all_chars (p : ascii -> bool) (s : string) : bool :=
  match s with
  | EmptyString => true
  | String c r => p c && all_chars p r
  end.

(** A non-empty run of code units that are neither white space nor [@]:
    what [[^\s@]+] matches. *)
Definition plain (s : string) : Prop :=
  s <> "" /\ all_chars Regex.not_ws_at s = true.

(** ** Configuration from the environment ([config.js]) *)

(** The longest prefix of decimal digits. *)
Fixpoint take_digits (s : string) : string :=
  match s with
  | EmptyString => EmptyString
  | String c r =>
      if JsString.is_digit c then String c (take_digits r) else EmptyString
  end.

(** [parseInt(s, 10)]; [None] is [NaN].  Leading white space is skipped, a
    sign is read, then the longest run of digits; what follows is ignored.
    (The value is exact here; JavaScript rounds it to a double from
    [2^53] on.) *)
Definition parseInt10 (s : string) : option Z :=
  let t := JsString.trimStart s in
  let '(sign, digits) :=
    match t with
    | String c r =>
        if Ascii.eqb c "-" then (-1, r)
        else if Ascii.eqb c "+" then (1, r)
        else (1, t)
    | EmptyString => (1, t)
    end in
  match take_digits digits with
  | EmptyString => None
  | ds => Z.mul sign <$> JsNumber.parse_digits ds 0
  end.

(** What may follow the digits [parseInt] reads: nothing, or something
    that does not start with a digit. *)
Definition no_digit_ahead (junk : string) : Prop :=
  match junk with
  | EmptyString => True
  | String c _ => JsString.is_digit c = false
  end.

Module ConfigJs.

(** [!process.env[key]]: the variable is unset or empty. *)
Definition unset (env : gmap string string) (key : string) : bool :=
  match env !! key with
  | Some s => String.eqb s ""
  | None => true
  end.

(** [process.env[key] || fallback] *)
Definition get_or (env : gmap string string) (key fallback : string) : string :=
  if unset env key then fallback else default fallback (env !! key).

(** [process.env[key] === value] *)
Definition equals (env : gmap string string) (key value : string) : bool :=
  match env !! key with
  | Some s => String.eqb s value
  | None => false
  end.

Definition required : list string :=
  ["DB_HOST"; "DB_NAME"; "DB_USER"; "DB_PASS"; "REDIS_HOST"; "SMTP_HOST";
   "SMTP_USER"; "SMTP_PASS"].

(** [l.join(sep)] *)
Fixpoint join (sep : string) (l : list string) : string :=
  match l with
  | [] => ""
  | [x] => x
  | x :: r => x +:+ sep +:+ join sep r
  end.

(** [validateConfig()]: [Some msg] is [throw new Error(msg)]. *)
Definition validateConfig (env : gmap string string) : option string :=
  let missing := List.filter (unset env) required in
  if (Z.of_nat (length missing) >? 0)%Z
  then Some ("Missing required environment variables: " +:+ join ", " missing)
  else if equals env "NODE_ENV" "production"
          && (unset env "JWT_SECRET" || equals env "JWT_SECRET" "change_this_secret")
  then Some "JWT_SECRET must be set in production environment"
  else None.

Record Db : Type := mkDb {
  db_host : option string;
  db_port : option Z;
  db_name : option string;
  db_user : option string;
  db_pass : option string }.

Record Redis : Type := mkRedis {
  redis_host : option string;
  redis_port : option Z;
  redis_pass : option string }.

Record Smtp : Type := mkSmtp {
  smtp_host : option string;
  smtp_port : option Z;
  smtp_secure : bool;
  smtp_user : option string;
  smtp_pass : option string }.

(** [module.exports]; a number that is [None] is [NaN], a string that is
    [None] is [undefined]. *)
Record t : Type := mk {
  port : option Z;
  jwtSecret : string;
  jwtExpiresIn : string;
  db : Db;
  redis : Redis;
  smtp : Smtp;
  verifTtl : option Z;
  resetTtl : option Z;
  tokenTtlSeconds : option Z }.

Definition exports (env : gmap string string) : t :=
  mk (parseInt10 (get_or env "PORT" "3000"))
     (get_or env "JWT_SECRET" "change_this_secret")
     (get_or env "JWT_EXPIRES_IN" "1d")
     (mkDb (env !! "DB_HOST") (parseInt10 (get_or env "DB_PORT" "3306"))
        (env !! "DB_NAME") (env !! "DB_USER") (env !! "DB_PASS"))
     (mkRedis (env !! "REDIS_HOST") (parseInt10 (get_or env "REDIS_PORT" "6379"))
        (env !! "REDIS_PASS"))
     (mkSmtp (env !! "SMTP_HOST") (parseInt10 (get_or env "SMTP_PORT" "465"))
        (equals env "SMTP_SECURE" "true" || equals env "SMTP_SECURE" "1")
        (env !! "SMTP_USER") (env !! "SMTP_PASS"))
     (parseInt10 (get_or env "VERIFICATION_CODE_TTL_SECONDS" "600"))
     (parseInt10 (get_or env "RESET_CODE_TTL_SECONDS" "900"))
     (parseInt10 (get_or env "TOKEN_TTL_SECONDS" "86400")).

(** Loading the module: the validation runs unless [NODE_ENV] is [test];
    [inl msg] is the error thrown at load. *)
Definition load (env : gmap string string) : string + t :=
  if negb (equals env "NODE_ENV" "test")
  then match validateConfig env with
       | Some msg => inl msg
       | None => inr (exports env)
       end
  else inr (exports env).

End ConfigJs.

(** ** The key-value client ([redis.js]) *)

Module RedisJs.

(** [`${n}`] for a number that may be [NaN]. *)
Definition number_text (n : option Z) : string :=
  match n with
  | Some v => JsNumber.toString v
  | None => "NaN"
  end.

(** [`${s}`] for a string that may be [undefined]. *)
Definition string_text (s : option string) : string := default "undefined" s.

Definition redisUrl (c : ConfigJs.t) : string :=
  let r := ConfigJs.redis c in
  match ConfigJs.redis_pass r with
  | Some p =>
      if String.eqb p ""
      then "redis://" +:+ string_text (ConfigJs.redis_host r) +:+ ":"
           +:+ number_text (ConfigJs.redis_port r)
      else "redis://:" +:+ p +:+ "@" +:+ string_text (ConfigJs.redis_host r) +:+ ":"
           +:+ number_text (ConfigJs.redis_port r)
  | None =>
      "redis://" +:+ string_text (ConfigJs.redis_host r) +:+ ":"
      +:+ number_text (ConfigJs.redis_port r)
  end.

(** [reconnectStrategy(retries)]: [inl msg] is the [Error] that ends the
    reconnection, [inr ms] the delay before the next attempt.  (The log
    line before the error is left out.) *)
Definition reconnectStrategy (retries : Z) : string + Z :=
  if (retries >? 10)%Z then inl "Max reconnection attempts reached"
  else inr (Z.min (retries * 100) 3000).

End RedisJs.

Example parseInt_ex :
  parseInt10 "3000" = Some 3000 /\ parseInt10 "  42px" = Some 42
  /\ parseInt10 "-7" = Some (-7) /\ parseInt10 "abc" = None
  /\ parseInt10 "" = None /\ parseInt10 "+" = None /\ parseInt10 "1e3" = Some 1.
Proof. repeat split; reflexivity. Qed.

Example config_ex :
  let env : gmap string string :=
    list_to_map [("DB_HOST", "db"); ("DB_NAME", "auth"); ("DB_USER", "u");
                 ("DB_PASS", "p"); ("REDIS_HOST", "cache"); ("SMTP_HOST", "mail");
                 ("SMTP_USER", "noreply@x.io"); ("SMTP_PASS", "s");
                 ("NODE_ENV", "production")] in
  ConfigJs.load env = inl "JWT_SECRET must be set in production environment"
  /\ ConfigJs.load (delete "DB_PASS" (delete "SMTP_HOST" env))
     = inl "Missing required environment variables: DB_PASS, SMTP_HOST"
  /\ RedisJs.redisUrl (ConfigJs.exports env) = "redis://cache:6379"
  /\ ConfigJs.verifTtl
       (ConfigJs.exports (<["VERIFICATION_CODE_TTL_SECONDS" := "10m"]> env))
     = Some 10.
Proof. vm_compute. repeat split. Qed.

(** A production environment with every required variable set. *)
Definition demo_process_env : gmap string string :=
  list_to_map [("DB_HOST", "db"); ("DB_NAME", "auth"); ("DB_USER", "u");
               ("DB_PASS", "p"); ("REDIS_HOST", "cache"); ("SMTP_HOST", "mail");
               ("SMTP_USER", "noreply@x.io"); ("SMTP_PASS", "s");
               ("NODE_ENV", "production"); ("JWT_SECRET", "k3y")].

(** ** The application ([index.js]): the CORS middleware *)

Module App.

(** [s.split(',')]: the pieces between the commas, at least one. *)
Fixpoint split_comma (s : string) : list string :=
  match s with
  | EmptyString => [EmptyString]
  | String c r =>
      if Ascii.eqb c ","
      then EmptyString :: split_comma r
      else match split_comma r with
           | [] => [String c EmptyString]
           | x :: l => String c x :: l
           end
  end.

(** [l.includes(x)] *)
Definition includes (x : string) (l : list string) : bool :=
  existsb (String.eqb x) l.

Definition allowedOrigins (env : gmap string string) : list string :=
  if ConfigJs.unset env "ALLOWED_ORIGINS"
  then ["http://localhost:8080"; "http://localhost:3000"]
  else List.map JsString.trim (split_comma (default "" (env !! "ALLOWED_ORIGINS"))).

(** What the middleware does after setting headers: [res.sendStatus(200)]
    or [next()]. *)
Inductive Outcome : Type :=
| SendStatus (code : Z)
| CallNext.

Definition methods_headers : list (string * string) :=
  [("Access-Control-Allow-Methods", "GET, POST, PUT, DELETE, OPTIONS");
   ("Access-Control-Allow-Headers", "Content-Type, Authorization")].

(** The first middleware: [origin] is [req.headers.origin], [method] is
    [req.method]; the result is the headers set, in order, and what comes
    next. *)
Definition cors (env : gmap string string) (origin : option string)
    (method : string) : list (string * string) * Outcome :=
  let allowed := allowedOrigins env in
  let truthy_origin :=
    match origin with
    | Some o => negb (String.eqb o "")
    | None => false
    end in
  let o := default "" origin in
  let headers :=
    if truthy_origin && includes o allowed
    then ("Access-Control-Allow-Origin", o) :: methods_headers
         ++ [("Access-Control-Allow-Credentials", "true")]
    else if negb truthy_origin
    then ("Access-Control-Allow-Origin", "*") :: methods_headers
    else [] in
  (headers, if String.eqb method "OPTIONS" then SendStatus 200 else CallNext).

End App.

Example cors_ex :
  let env : gmap string string :=
    {["ALLOWED_ORIGINS" := "https://a.example, https://b.example"]} in
  App.allowedOrigins env = ["https://a.example"; "https://b.example"]
  /\ App.cors env (Some "https://b.example") "GET"
     = ([("Access-Control-Allow-Origin", "https://b.example");
         ("Access-Control-Allow-Methods", "GET, POST, PUT, DELETE, OPTIONS");
         ("Access-Control-Allow-Headers", "Content-Type, Authorization");
         ("Access-Control-Allow-Credentials", "true")], App.CallNext)
  /\ App.cors env (Some "https://evil.example") "OPTIONS" = ([], App.SendStatus 200)
  /\ fst (App.cors env None "POST")
     = [("Access-Control-Allow-Origin", "*");
        ("Access-Control-Allow-Methods", "GET, POST, PUT, DELETE, OPTIONS");
        ("Access-Control-Allow-Headers", "Content-Type, Authorization")]
  /\ App.split_comma "a,,b," = ["a"; ""; "b"; ""].
Proof. vm_compute. repeat split. Qed.

(** * Properties *)

(** ** The matcher *)

Lemma append_nil_inv s1 s2 : s1 +:+ s2 = "" -> s1 = "" /\ s2 = "".
Proof. destruct s1; [auto | discriminate]. Qed.

Lemma nullable_matches r : Regex.nullable r = true <-> Regex.matches r "".
Proof.
  split.
  - induction r; cbn [Regex.nullable]; intros H; try discriminate.
    + constructor.
    + apply andb_true_iff in H as [H1 H2].
      change "" with ("" +:+ ""). constructor; auto.
    + apply orb_true_iff in H as [H | H];
        [apply Regex.m_alt_l | apply Regex.m_alt_r]; auto.
    + constructor.
  - intros H. remember "" as s eqn:Hs.
    induction H; cbn [Regex.nullable]; try reflexivity; try discriminate.
    + apply append_nil_inv in Hs as [-> ->].
      rewrite IHmatches1, IHmatches2 by reflexivity. reflexivity.
    + rewrite IHmatches by assumption. reflexivity.
    + rewrite IHmatches by assumption. apply orb_true_r.
Qed.

Lemma deriv_sound c r :
  forall s, Regex.matches (Regex.deriv c r) s -> Regex.matches r (String c s).
Proof.
  induction r; cbn [Regex.deriv]; intros s H.
  - inversion H.
  - inversion H.
  - destruct (p c) eqn:Hp; inversion H; subst. constructor. exact Hp.
  - destruct (Regex.nullable r1) eqn:Hn.
    + inversion H; subst.
      * match goal with
        | Hs : Regex.matches (Regex.Seq _ _) _ |- _ => inversion Hs; subst
        end.
        change (String c (s1 +:+ s2)) with (String c s1 +:+ s2).
        constructor; auto.
      * change (String c s) with ("" +:+ String c s).
        constructor; [apply nullable_matches; exact Hn | auto].
    + inversion H; subst.
      change (String c (s1 +:+ s2)) with (String c s1 +:+ s2).
      constructor; auto.
  - inversion H; subst; [apply Regex.m_alt_l | apply Regex.m_alt_r]; auto.
  - inversion H; subst.
    change (String c (s1 +:+ s2)) with (String c s1 +:+ s2).
    constructor; auto.
Qed.

Lemma deriv_complete c r s0 :
  Regex.matches r s0 ->
  forall t, s0 = String c t -> Regex.matches (Regex.deriv c r) t.
Proof.
  induction 1 as [| p c0 Hp | a b s1 s2 Ha IHa Hb IHb | a b s Ha IHa
                  | a b s Hb IHb | a | a s1 s2 Ha IHa Hs IHs];
    intros t Ht; cbn [Regex.deriv].
  - discriminate.
  - injection Ht as -> <-. rewrite Hp. constructor.
  - destruct s1 as [| c1 s1'].
    + change (s2 = String c t) in Ht. subst s2.
      rewrite (proj2 (nullable_matches a) Ha). apply Regex.m_alt_r. auto.
    + change (String c1 (s1' +:+ s2) = String c t) in Ht. injection Ht as -> <-.
      specialize (IHa s1' eq_refl).
      destruct (Regex.nullable a); [apply Regex.m_alt_l |]; constructor; auto.
  - apply Regex.m_alt_l. auto.
  - apply Regex.m_alt_r. auto.
  - discriminate.
  - destruct s1 as [| c1 s1'].
    + change (s2 = String c t) in Ht. auto.
    + change (String c1 (s1' +:+ s2) = String c t) in Ht. injection Ht as -> <-.
      constructor; auto.
Qed.

(** [Regex.test] decides the language of the pattern. *)
Theorem test_matches r s : Regex.test r s = true <-> Regex.matches r s.
Proof.
  revert r. induction s as [| c s IH]; intros r.
  - change (Regex.test r "") with (Regex.nullable r). apply nullable_matches.
  - change (Regex.test r (String c s)) with (Regex.test (Regex.deriv c r) s).
    rewrite IH. split; [apply deriv_sound |].
    intros H. exact (deriv_complete c r _ H s eq_refl).
Qed.

(** ** The demo worlds are the ones the handlers produce *)

Example demo_scenario :
  let register := registerRequest Demo.cfg Demo.cr
                    (Demo.body2 "email" (JStr " A@b.com") "password" (JStr "secret1")) in
  let verify := registerVerify
                  (Demo.body2 "email" (JStr "a@b.com") "code" (JStr "550000")) in
  let signin := login Demo.cfg Demo.cr
                  (Demo.body2 "email" (JStr "a@b.com") "password" (JStr "secret1")) in
  let bearer := Some "Bearer change_this_secret.jti-1" in
  let st1 := Demo.run register Demo.env0 Demo.w0 in
  let st2 := Demo.run verify Demo.env0 (world (snd st1)) in
  let st3 := Demo.run signin Demo.env0 (world (snd st2)) in
  let st4 := Demo.run (logout Demo.cfg Demo.cr bearer) Demo.env0 (world (snd st3)) in
  let st5 := Demo.run (authMiddleware Demo.cfg Demo.cr bearer) Demo.env0
               (world (snd st4)) in
  fst st1 = Ret (res_json (ok_message "verification code sent to email"))
  /\ world (snd st1) = Demo.w_registered
  /\ fst st2 = Ret (res_json ok_body)
  /\ world (snd st2) = Demo.w_verified
  /\ fst st3 = Ret (res_json (JObj [("token", JStr "change_this_secret.jti-1")]))
  /\ jwt_decode Demo.cr (jwtSecret Demo.cfg) "change_this_secret.jti-1"
     = Some Demo.alice_claims
  /\ fst st4 = Ret (res_json ok_body)
  /\ fst st5 = Ret (Respond (errorResponse 401 "Token revoked")).
Proof. vm_compute. repeat split. Qed.

(** ** Running the handlers symbolically *)

Arguments isValidEmail : simpl never.
Arguments isValidPassword : simpl never.
Arguments JsString.trim : simpl never.
Arguments JsString.toLowerCase : simpl never.
Arguments Regex.test : simpl never.
Arguments genCode_of : simpl never.
Arguments genCode_value : simpl never.

(** Unfolds the monad and the store calls, then the record projections that
    meet a constructor. *)
Ltac mred :=
  cbv beta iota zeta delta
    [bind try_catch ret throw lift ask get_world put_world emit console_error
     User_findOne User_create User_save sequelize_transaction
     transaction_commit transaction_rollback redis_get redis_setEx redis_del
     view write_table set_tx set_users set_redis set_outbox
     genCode bcrypt_hash bcrypt_compare jwt_sign jwt_verify
     Mailer.send Mailer.sendMail Mailer.sendVerificationCode Mailer.sendResetCode
     js_trim negb orb andb falsy_str];
  cbn [world trace users tx redis outbox transporterVerified rows next_id
       fst snd status body default from_option Datatypes.id].

(** Decides [err.name === "..."] once the exception is known. *)
Ltac name_test :=
  repeat match goal with
    | |- context [String.eqb (exn_name ?e) ?s] =>
        let b := eval vm_compute in (String.eqb (exn_name e) s) in
        lazymatch b with
        | true => change (String.eqb (exn_name e) s) with true
        | false => change (String.eqb (exn_name e) s) with false
        end
    end.

(** Case split on the first condition that is still undetermined. *)
Ltac mcase :=
  match goal with
  | |- context [if ?c then _ else _] =>
      lazymatch c with
      | context [if _ then _ else _] => fail
      | _ => destruct c eqn:?
      end
  end; mred.

Lemma valid_email_truthy e :
  isValidEmail (JStr (normalize e)) = true -> truthy (JStr e) = true.
Proof. destruct e; [discriminate | reflexivity]. Qed.

(** Case split on the first scrutinee that is still undetermined, whatever
    its type. *)
Ltac mmatch :=
  match goal with
  | |- context [match ?c with _ => _ end] =>
      lazymatch c with
      | context [match _ with _ => _ end] => fail
      | _ => destruct c eqn:?
      end
  end; mred; name_test; mred.

(** Case splits on the conditions, one after the other, using [tac]
    whenever it makes progress (to rewrite with what is known about the
    stores before a condition is split). *)
Ltac mauto_with tac := mred; repeat first [progress tac | mcase].

(** ** Reading the key-value store *)

Lemma redis_read_None now_s (r : gmap string (Z * string)) k :
  r !! k = None -> redis_read now_s r k = None.
Proof. intros H. unfold redis_read. rewrite H. reflexivity. Qed.

Lemma redis_read_live now_s (r : gmap string (Z * string)) k t v :
  r !! k = Some (t, v) -> now_s < t -> redis_read now_s r k = Some v.
Proof.
  intros H Hlt. unfold redis_read. rewrite H.
  destruct (Z.ltb_spec now_s t); [reflexivity | lia].
Qed.

Lemma redis_read_expired now_s (r : gmap string (Z * string)) k t v :
  r !! k = Some (t, v) -> t <= now_s -> redis_read now_s r k = None.
Proof.
  intros H Hle. unfold redis_read. rewrite H.
  destruct (Z.ltb_spec now_s t); [lia | reflexivity].
Qed.

Lemma redis_read_Some now_s (r : gmap string (Z * string)) k v :
  redis_read now_s r k = Some v -> exists t, r !! k = Some (t, v) /\ now_s < t.
Proof.
  unfold redis_read. destruct (r !! k) as [[t v0] |]; [| discriminate].
  destruct (Z.ltb_spec now_s t); [| discriminate].
  intros [= <-]. eauto.
Qed.

Lemma redis_read_insert now_s (r : gmap string (Z * string)) k t v :
  redis_read now_s (<[k := (t, v)]> r) k = if (now_s <? t)%Z then Some v else None.
Proof. unfold redis_read. rewrite lookup_insert_eq. reflexivity. Qed.

Lemma redis_read_delete now_s (r : gmap string (Z * string)) k :
  redis_read now_s (delete k r) k = None.
Proof. apply redis_read_None. apply lookup_delete_eq. Qed.

(** ** Login *)

(** C4. A login that names an account whose [verified] flag is false never
    answers with a token, whatever the password and whatever fails: the
    answer is not a 200, the world is unchanged and [bcrypt.compare] is not
    among the calls issued.  When the request carries a password and the
    account lookup succeeds, the answer is 403 "email not verified" and the
    lookup is the only call. *)
Theorem login_unverified_rejected :
  forall cfg cr req_body env w tr e u,
    field req_body "email" = JStr e ->
    rows (users w) !! normalize e = Some u ->
    verified u = false ->
    let out := login cfg cr req_body env (mkSt w tr) in
    (exists r evs,
        fst out = Ret r /\ status r <> 200
        /\ (forall t, body r <> JObj [("token", t)])
        /\ world (snd out) = w
        /\ trace (snd out) = (tr ++ evs)%list /\ ~ In EvBcryptCompare evs)
    /\ (truthy (field req_body "password") = true ->
        isValidEmail (JStr (normalize e)) = true ->
        findOne_fails (faults env) = false ->
        out = (Ret (errorResponse 403 "email not verified"),
               mkSt w (tr ++ [EvFindOne (normalize e)]))).
Proof.
  intros cfg cr req_body env w tr e u He Hu Hver out. subst out.
  unfold login, normalize in *. rewrite He. split.
  - mred.
    destruct (truthy (JStr e)); mred;
      [destruct (truthy (field req_body "password")); mred |].
    + destruct (isValidEmail _); mred.
      * destruct (findOne_fails (faults env)); mred.
        -- eexists _, [_; _]. rewrite <- app_assoc.
           repeat split; try reflexivity; try discriminate.
           simpl; intuition discriminate.
        -- rewrite Hu. mred. rewrite Hver.
           eexists _, [_]. repeat split; try reflexivity; try discriminate.
           simpl; intuition discriminate.
      * eexists _, []. rewrite app_nil_r.
        repeat split; try reflexivity; try discriminate. simpl; tauto.
    + eexists _, []. rewrite app_nil_r.
      repeat split; try reflexivity; try discriminate. simpl; tauto.
    + eexists _, []. rewrite app_nil_r.
      repeat split; try reflexivity; try discriminate. simpl; tauto.
  - intros Hp Hv Hf.
    rewrite Hp, (valid_email_truthy _ Hv). mred.
    rewrite Hv. mred. rewrite Hf. mred. rewrite Hu. mred. rewrite Hver.
    reflexivity.
Qed.

(** A login that names no account: the generic 400. *)
Lemma login_no_such_user :
  forall cfg cr req_body env w tr e,
    field req_body "email" = JStr e ->
    truthy (field req_body "password") = true ->
    isValidEmail (JStr (normalize e)) = true ->
    findOne_fails (faults env) = false ->
    rows (users w) !! normalize e = None ->
    login cfg cr req_body env (mkSt w tr)
    = (Ret (errorResponse 400 "invalid credentials"),
       mkSt w (tr ++ [EvFindOne (normalize e)])).
Proof.
  intros cfg cr req_body env w tr e He Hp Hv Hf Hu.
  unfold login, normalize in *.
  rewrite He, Hp, (valid_email_truthy _ Hv). mred.
  rewrite Hv. mred. rewrite Hf. mred. rewrite Hu. reflexivity.
Qed.

(** A login that names a verified account with a string that
    [bcrypt.compare] reports as a mismatch: the same generic 400. *)
Lemma login_wrong_password :
  forall cfg cr req_body env w tr e pw u,
    field req_body "email" = JStr e ->
    field req_body "password" = JStr pw ->
    pw <> "" ->
    isValidEmail (JStr (normalize e)) = true ->
    findOne_fails (faults env) = false ->
    rows (users w) !! normalize e = Some u ->
    verified u = true ->
    bcrypt_compare_fn cr pw (password_hash u) = false ->
    login cfg cr req_body env (mkSt w tr)
    = (Ret (errorResponse 400 "invalid credentials"),
       mkSt w (tr ++ [EvFindOne (normalize e); EvBcryptCompare])).
Proof.
  intros cfg cr req_body env w tr e pw u He Hp Hne Hv Hf Hu Hver Hcmp.
  unfold login, normalize in *.
  rewrite He, Hp, (valid_email_truthy _ Hv).
  assert (Ht : truthy (JStr pw) = true).
  { destruct pw; [congruence | reflexivity]. }
  rewrite Ht. mred.
  rewrite Hv. mred. rewrite Hf. mred. rewrite Hu. mred. rewrite Hver. mred.
  rewrite Hcmp. rewrite <- app_assoc. reflexivity.
Qed.

(** The two failures above are the same response, status and body. *)
Lemma login_failures_identical_for_strings :
  forall cfg cr body1 body2 env1 env2 w1 w2 tr1 tr2 e1 e2 pw2 u,
    field body1 "email" = JStr e1 ->
    truthy (field body1 "password") = true ->
    isValidEmail (JStr (normalize e1)) = true ->
    findOne_fails (faults env1) = false ->
    rows (users w1) !! normalize e1 = None ->
    field body2 "email" = JStr e2 ->
    field body2 "password" = JStr pw2 ->
    pw2 <> "" ->
    isValidEmail (JStr (normalize e2)) = true ->
    findOne_fails (faults env2) = false ->
    rows (users w2) !! normalize e2 = Some u ->
    verified u = true ->
    bcrypt_compare_fn cr pw2 (password_hash u) = false ->
    fst (login cfg cr body1 env1 (mkSt w1 tr1))
    = fst (login cfg cr body2 env2 (mkSt w2 tr2))
    /\ fst (login cfg cr body2 env2 (mkSt w2 tr2))
       = Ret (errorResponse 400 "invalid credentials").
Proof.
  intros. erewrite login_no_such_user by eassumption.
  erewrite login_wrong_password by eassumption. split; reflexivity.
Qed.

(** A password that is present but not a string reaches [bcrypt.compare]
    only when the account exists and is verified; bcrypt rejects data that
    is not a string, and the rejection is answered by the catch-all 500. *)
Lemma login_nonstring_password :
  forall cfg cr req_body env w tr e u,
    field req_body "email" = JStr e ->
    truthy (field req_body "password") = true ->
    is_string (field req_body "password") = false ->
    isValidEmail (JStr (normalize e)) = true ->
    findOne_fails (faults env) = false ->
    rows (users w) !! normalize e = Some u ->
    verified u = true ->
    login cfg cr req_body env (mkSt w tr)
    = (Ret (errorResponse 500 "internal server error"),
       mkSt w (tr ++ [EvFindOne (normalize e); EvBcryptCompare;
                      EvConsoleError "Login error:"])).
Proof.
  intros cfg cr req_body env w tr e u He Hp Hs Hv Hf Hu Hver.
  unfold login, normalize in *.
  rewrite He, Hp, (valid_email_truthy _ Hv). mred.
  rewrite Hv. mred. rewrite Hf. mred. rewrite Hu. mred. rewrite Hver. mred.
  destruct (field req_body "password"); try discriminate;
    mred; rewrite <- !app_assoc; reflexivity.
Qed.

Lemma login_unverified_rejected_witness :
  Demo.run (login Demo.cfg Demo.cr
              (Demo.body2 "email" (JStr " A@b.com") "password" (JStr "secret1")))
    Demo.env0 Demo.w_registered
  = (Ret (errorResponse 403 "email not verified"),
     mkSt Demo.w_registered [EvFindOne "a@b.com"]).
Proof.
  apply (login_unverified_rejected Demo.cfg Demo.cr _ Demo.env0
           Demo.w_registered [] " A@b.com" (Demo.alice false));
    reflexivity.
Defined.

(** C3, at a password that is a JSON number.  With alice registered and
    verified, the request for an address without account is answered 400
    "invalid credentials", and the request for alice's address is answered
    500 "internal server error": the two failures differ. *)
Theorem login_number_password_distinguishes :
  fst (Demo.run (login Demo.cfg Demo.cr
                   (Demo.body2 "email" (JStr "nobody@b.com") "password" (JNum 123456)))
         Demo.env0 Demo.w_verified)
  = Ret (errorResponse 400 "invalid credentials")
  /\ fst (Demo.run (login Demo.cfg Demo.cr
                      (Demo.body2 "email" (JStr "a@b.com") "password" (JNum 123456)))
            Demo.env0 Demo.w_verified)
     = Ret (errorResponse 500 "internal server error").
Proof. split; reflexivity. Qed.

(** ** Forgot password *)

(** C7. A forgot-password request with an email of valid format, whose
    account lookup succeeds, is answered by the same 200 body whether or not
    the account exists and whatever else fails; when the account does not
    exist the lookup is the only call issued and the world is unchanged: no
    code is stored and no mail is handed to the transport. *)
Theorem forgotPassword_uniform :
  forall cfg req_body e env1 env2 w1 w2 tr1 tr2,
    field req_body "email" = JStr e ->
    isValidEmail (JStr (normalize e)) = true ->
    findOne_fails (faults env1) = false ->
    findOne_fails (faults env2) = false ->
    let out1 := forgotPassword cfg req_body env1 (mkSt w1 tr1) in
    let out2 := forgotPassword cfg req_body env2 (mkSt w2 tr2) in
    fst out1 = Ret (res_json (ok_message "reset code sent if email exists"))
    /\ fst out1 = fst out2
    /\ (rows (users w1) !! normalize e = None ->
        snd out1 = mkSt w1 (tr1 ++ [EvFindOne (normalize e)])).
Proof.
  intros cfg req_body e env1 env2 w1 w2 tr1 tr2 He Hv Hf1 Hf2 out1 out2.
  assert (Hany : forall env w tr,
             findOne_fails (faults env) = false ->
             fst (forgotPassword cfg req_body env (mkSt w tr))
             = Ret (res_json (ok_message "reset code sent if email exists"))).
  { intros env w tr Hf. unfold forgotPassword, normalize in *.
    rewrite He, (valid_email_truthy _ Hv). mred.
    rewrite Hv. mred. rewrite Hf. mred.
    destruct (rows (users w) !! _); mred; [| reflexivity].
    repeat (first [reflexivity | mcase]). }
  subst out1 out2. rewrite !Hany by assumption.
  repeat split.
  intros Hu. unfold forgotPassword, normalize in *.
  rewrite He, (valid_email_truthy _ Hv). mred.
  rewrite Hv. mred. rewrite Hf1. mred. rewrite Hu. reflexivity.
Qed.

Lemma forgotPassword_uniform_witness :
  fst (Demo.run (forgotPassword Demo.cfg (<["email" := JStr "a@b.com"]> ∅))
         Demo.env0 Demo.w_verified)
  = fst (Demo.run (forgotPassword Demo.cfg (<["email" := JStr "a@b.com"]> ∅))
           Demo.env0 Demo.w0).
Proof.
  apply (forgotPassword_uniform Demo.cfg (<["email" := JStr "a@b.com"]> ∅)
           "a@b.com" Demo.env0 Demo.env0 Demo.w_verified Demo.w0 [] []);
    reflexivity.
Defined.

(** ** Logout and the guard *)

Lemma bearer_prefix token :
  JsString.startsWith "Bearer " ("Bearer " +:+ token) = true
  /\ JsString.slice 7 ("Bearer " +:+ token) = token
  /\ String.eqb ("Bearer " +:+ token) "" = false.
Proof. repeat split; reflexivity. Qed.

Lemma eqb_empty_false s : s <> "" -> String.eqb s "" = false.
Proof. intros H. destruct s; [congruence | reflexivity]. Qed.

(** The lifetime the handler computes is the one of the specification:
    what is left of the token when that is positive, the default otherwise. *)
Lemma blacklist_ttl_spec cfg p now_s :
  0 <= now_s ->
  blacklist_ttl cfg p now_s
  = match exp p with
    | Some e => if (e - now_s >? 0)%Z then e - now_s else tokenTtlSeconds cfg
    | None => tokenTtlSeconds cfg
    end.
Proof.
  intros Hnow. unfold blacklist_ttl. destruct (exp p) as [e |]; [| reflexivity].
  destruct (Z.eqb_spec e 0) as [-> | Hne]; simpl; [| reflexivity].
  destruct (Z.gtb_spec (0 - now_s) 0); [lia | reflexivity].
Qed.

(** What logout does once the token has passed [jwt.verify], which ignores
    the expiry. *)
Lemma logout_verified_token :
  forall cfg cr env w tr token p j,
    token <> "" ->
    jwt_decode cr (jwtSecret cfg) token = Some p ->
    jti p = Some j ->
    j <> "" ->
    let ttl := blacklist_ttl cfg p (now env) in
    let key := "black_" +:+ j in
    logout cfg cr (Some ("Bearer " +:+ token)) env (mkSt w tr)
    = (Ret (res_json ok_body),
       if setEx_fails (faults env)
       then mkSt w (tr ++ [EvSetEx key ttl "1";
                           EvConsoleError "Redis error in logout:"])
       else mkSt (set_redis (<[key := (now env + ttl, "1")]> (redis w)) w)
              (tr ++ [EvSetEx key ttl "1"])).
Proof.
  intros cfg cr env w tr token p j Htok Hdec Hjti Hj ttl key. subst ttl key.
  unfold logout.
  destruct (bearer_prefix token) as (-> & -> & ->).
  rewrite (eqb_empty_false _ Htok). mred. rewrite Hdec.
  assert (Hv : forall st, (match exp p with
          | Some _ => fun (_ : Env) (st : St) => (Ret p, st)
          | None => fun (_ : Env) (st : St) => (Ret p, st)
          end) env st = (Ret p, st)) by (intros; destruct (exp p); reflexivity).
  rewrite Hv. mred. rewrite Hjti. rewrite (eqb_empty_false _ Hj). mred.
  destruct (setEx_fails (faults env)); mred; [| reflexivity].
  rewrite <- app_assoc. reflexivity.
Qed.

(** C5. A logout whose bearer token has a valid signature and a [jti] is
    answered 200 [{ok: true}] whether or not the token has expired and
    whether or not the marker write fails.  The first call issued is the
    write of ["1"] under [black_<jti>] with the lifetime [exp - now] when
    that is positive and [tokenTtlSeconds] otherwise; when the write
    succeeds the store holds the marker, which expires that many seconds
    from now, when it fails the world is unchanged and the failure is
    logged. *)
Theorem logout_blacklists :
  forall cfg cr env w tr token p j,
    token <> "" ->
    jwt_decode cr (jwtSecret cfg) token = Some p ->
    jti p = Some j ->
    j <> "" ->
    0 <= now env ->
    let ttl := match exp p with
               | Some e => if (e - now env >? 0)%Z then e - now env
                           else tokenTtlSeconds cfg
               | None => tokenTtlSeconds cfg
               end in
    let key := "black_" +:+ j in
    let out := logout cfg cr (Some ("Bearer " +:+ token)) env (mkSt w tr) in
    fst out = Ret (res_json ok_body)
    /\ (setEx_fails (faults env) = false ->
        snd out = mkSt (set_redis (<[key := (now env + ttl, "1")]> (redis w)) w)
                    (tr ++ [EvSetEx key ttl "1"]))
    /\ (setEx_fails (faults env) = true ->
        snd out = mkSt w (tr ++ [EvSetEx key ttl "1";
                                 EvConsoleError "Redis error in logout:"])).
Proof.
  intros cfg cr env w tr token p j Htok Hdec Hjti Hj Hnow ttl key out.
  subst ttl key out. rewrite <- (blacklist_ttl_spec cfg p (now env) Hnow).
  rewrite (logout_verified_token cfg cr env w tr token p j) by assumption.
  repeat split; intros ->; reflexivity.
Qed.

Lemma logout_blacklists_witness :
  Demo.run (logout Demo.cfg Demo.cr (Some "Bearer change_this_secret.jti-1"))
    (mkEnv no_faults 90000 (1 # 2) "jti-2" "saltsalt") Demo.w_verified
  = (Ret (res_json ok_body),
     mkSt (set_redis (<["black_jti-1" := (176400, "1")]> ∅) Demo.w_verified)
       [EvSetEx "black_jti-1" 86400 "1"]).
Proof.
  destruct (logout_blacklists Demo.cfg Demo.cr
              (mkEnv no_faults 90000 (1 # 2) "jti-2" "saltsalt")
              Demo.w_verified [] "change_this_secret.jti-1"
              Demo.alice_claims "jti-1"
              ltac:(discriminate) ltac:(reflexivity) ltac:(reflexivity)
              ltac:(discriminate) ltac:(simpl; lia)) as (H1 & H2 & _).
  apply injective_projections; [exact H1 | exact (H2 eq_refl)].
Defined.

(** What the guard does once the token has passed [jwt.verify]. *)
Lemma authMiddleware_verified_token :
  forall cfg cr env w tr token p j,
    token <> "" ->
    jwt_decode cr (jwtSecret cfg) token = Some p ->
    (forall e, exp p = Some e -> now env < e) ->
    jti p = Some j ->
    j <> "" ->
    authMiddleware cfg cr (Some ("Bearer " +:+ token)) env (mkSt w tr)
    = if get_fails (faults env)
      then (Ret (Next p),
            mkSt w (tr ++ [EvGet ("black_" +:+ j);
                           EvConsoleError "Redis error in auth middleware:"]))
      else
        (Ret (if negb (falsy_str (redis_read (now env) (redis w) ("black_" +:+ j)))
              then Respond (errorResponse 401 "Token revoked")
              else Next p),
         mkSt w (tr ++ [EvGet ("black_" +:+ j)])).
Proof.
  intros cfg cr env w tr token p j Htok Hdec Hexp Hjti Hj.
  unfold authMiddleware.
  destruct (bearer_prefix token) as (-> & -> & ->).
  rewrite (eqb_empty_false _ Htok). mred. rewrite Hdec.
  assert (Hv : forall st, (match exp p with
          | Some e => if (e <=? now env)%Z
                      then fun (_ : Env) (st : St) => (Throw TokenExpiredError, st)
                      else fun (_ : Env) (st : St) => (Ret p, st)
          | None => fun (_ : Env) (st : St) => (Ret p, st)
          end) env st = (Ret p, st)).
  { intros st. destruct (exp p) as [e |] eqn:He; [| reflexivity].
    specialize (Hexp e eq_refl).
    destruct (Z.leb_spec e (now env)); [lia | reflexivity]. }
  rewrite Hv. mred. rewrite Hjti. rewrite (eqb_empty_false _ Hj). mred.
  destruct (get_fails (faults env)); mred.
  - rewrite <- app_assoc. reflexivity.
  - cbn [default]. destruct (redis_read _ _ _) as [v |].
    + destruct (String.eqb v ""); reflexivity.
    + reflexivity.
Qed.

(** C6. For a bearer token whose signature is valid, that has not expired
    and that carries a [jti]: when the lookup of [black_<jti>] throws, the
    guard logs the error and calls [next()] with the decoded claims as
    [req.user]; when the lookup succeeds and finds a marker, one that is
    stored and has not reached its expiry, the guard answers 401 "Token
    revoked". *)
Theorem authMiddleware_fail_open_and_revoked :
  forall cfg cr env w tr token p j,
    token <> "" ->
    jwt_decode cr (jwtSecret cfg) token = Some p ->
    (forall e, exp p = Some e -> now env < e) ->
    jti p = Some j ->
    j <> "" ->
    let out := authMiddleware cfg cr (Some ("Bearer " +:+ token)) env (mkSt w tr) in
    (get_fails (faults env) = true ->
     fst out = Ret (Next p) /\ world (snd out) = w)
    /\ (get_fails (faults env) = false ->
        forall t v,
          redis w !! ("black_" +:+ j) = Some (t, v) ->
          now env < t ->
          v <> "" ->
          fst out = Ret (Respond (errorResponse 401 "Token revoked"))
          /\ world (snd out) = w).
Proof.
  intros cfg cr env w tr token p j Htok Hdec Hexp Hjti Hj out. subst out.
  rewrite (authMiddleware_verified_token cfg cr env w tr token p j) by assumption.
  split.
  - intros ->. split; reflexivity.
  - intros -> t v Hm Hlive Hv. rewrite (redis_read_live _ _ _ _ _ Hm Hlive).
    cbn [falsy_str]. rewrite (eqb_empty_false _ Hv). split; reflexivity.
Qed.

Lemma authMiddleware_fail_open_and_revoked_witness :
  fst (Demo.run (authMiddleware Demo.cfg Demo.cr (Some "Bearer change_this_secret.jti-1"))
         (mkEnv Demo.get_down
            2000 (1 # 2) "jti-2" "saltsalt")
         Demo.w_verified)
  = Ret (Next Demo.alice_claims).
Proof.
  destruct (authMiddleware_fail_open_and_revoked Demo.cfg Demo.cr
              (mkEnv Demo.get_down
                 2000 (1 # 2) "jti-2" "saltsalt")
              Demo.w_verified [] "change_this_secret.jti-1"
              Demo.alice_claims "jti-1"
              ltac:(discriminate) ltac:(reflexivity)
              ltac:(intros e [= <-]; simpl; lia)
              ltac:(reflexivity) ltac:(discriminate)) as (H1 & _).
  exact (proj1 (H1 eq_refl)).
Defined.

(** The marker of a token that carries an expiry outlives the token: it
    is written for what is left of the token's lifetime. *)
Lemma blacklist_covers_token cfg p e now1 now2 :
  exp p = Some e -> 0 <= now1 -> now1 <= now2 -> now2 < e ->
  now2 < now1 + blacklist_ttl cfg p now1.
Proof.
  intros He H0 H12 H2. unfold blacklist_ttl. rewrite He.
  destruct (Z.eqb_spec e 0) as [-> | Hne]; [lia |]. cbn [negb].
  destruct (Z.gtb_spec (e - now1) 0); lia.
Qed.

(** A logout whose marker write succeeds, then the guard on the same token
    while neither the token nor the marker has expired: 401 "Token
    revoked". *)
Lemma logout_then_guard_rejects :
  forall cfg cr env1 env2 w tr token p j,
    token <> "" ->
    jwt_decode cr (jwtSecret cfg) token = Some p ->
    jti p = Some j ->
    j <> "" ->
    setEx_fails (faults env1) = false ->
    get_fails (faults env2) = false ->
    (forall e, exp p = Some e -> now env2 < e) ->
    now env2 < now env1 + blacklist_ttl cfg p (now env1) ->
    let st1 := snd (logout cfg cr (Some ("Bearer " +:+ token)) env1 (mkSt w tr)) in
    authMiddleware cfg cr (Some ("Bearer " +:+ token)) env2 st1
    = (Ret (Respond (errorResponse 401 "Token revoked")),
       mkSt (world st1) (trace st1 ++ [EvGet ("black_" +:+ j)])).
Proof.
  intros cfg cr env1 env2 w tr token p j Htok Hdec Hjti Hj Hs Hg Hexp Hlive st1.
  subst st1.
  rewrite (logout_verified_token cfg cr env1 w tr token p j) by assumption.
  rewrite Hs. cbn [snd world trace].
  rewrite (authMiddleware_verified_token cfg cr env2 _ _ token p j) by assumption.
  rewrite Hg. unfold set_redis. cbn [redis]. rewrite redis_read_insert.
  destruct (Z.ltb_spec (now env2) (now env1 + blacklist_ttl cfg p (now env1)));
    [reflexivity | lia].
Qed.

(** ** Register: verify *)

Lemma code_nonempty s :
  Regex.test Regex.codeRegex s = true -> String.eqb s "" = false.
Proof. destruct s; [discriminate | reflexivity]. Qed.

Lemma code_truthy c :
  Regex.test Regex.codeRegex (JsString.trim c) = true -> truthy (JStr c) = true.
Proof. destruct c; [discriminate | reflexivity]. Qed.

(** When the store returns no code for the address (none is stored, or the
    stored one has expired) nothing happens: the answer is an error and the
    world is unchanged, whatever the request and the faults. *)
Lemma registerVerify_no_code :
  forall req_body env w tr e,
    field req_body "email" = JStr e ->
    redis_read (now env) (redis w) ("verif_" +:+ normalize e) = None ->
    let out := registerVerify req_body env (mkSt w tr) in
    exists r, fst out = Ret r /\ status r <> 200 /\ world (snd out) = w.
Proof.
  intros req_body env w tr e He Hnone out. subst out.
  unfold registerVerify, normalize in *. rewrite He.
  destruct (field req_body "code") eqn:Hc; cbn [truthy];
    mauto_with ltac:(rewrite Hnone; mred).
  all: eexists; repeat split; cbn [status errorResponse]; discriminate.
Qed.

(** The same for a well-formed request whose lookup succeeds: it is
    answered 400 "code expired or not found" after the lookup. *)
Lemma registerVerify_code_gone :
  forall req_body env w tr e c,
    field req_body "email" = JStr e ->
    field req_body "code" = JStr c ->
    isValidEmail (JStr (normalize e)) = true ->
    Regex.test Regex.codeRegex (JsString.trim c) = true ->
    get_fails (faults env) = false ->
    redis_read (now env) (redis w) ("verif_" +:+ normalize e) = None ->
    registerVerify req_body env (mkSt w tr)
    = (Ret (errorResponse 400 "code expired or not found"),
       mkSt w (tr ++ [EvGet ("verif_" +:+ normalize e)])).
Proof.
  intros req_body env w tr e c He Hc Hv Hre Hget Hnone.
  unfold registerVerify, normalize in *.
  rewrite He, Hc, (valid_email_truthy _ Hv), (code_truthy _ Hre). mred.
  rewrite Hv. mred. rewrite Hre. mred. rewrite Hget. mred.
  rewrite Hnone. reflexivity.
Qed.

Lemma saved_matches (o : option string) s :
  bool_decide (o = Some s) = true -> o = Some s.
Proof. intros H. apply bool_decide_eq_true in H. exact H. Qed.

(** Once the account is verified, a verify request for its address changes
    no user row, opens no transaction and sends nothing; at most it deletes
    the stored code.  It is answered [{ok: true}] only when the store still
    returns a code for the address and the submitted code, trimmed, equals
    it. *)
Lemma registerVerify_verified_user :
  forall req_body env w tr e u,
    field req_body "email" = JStr e ->
    rows (users w) !! normalize e = Some u ->
    verified u = true ->
    let key := "verif_" +:+ normalize e in
    let out := registerVerify req_body env (mkSt w tr) in
    (exists r, fst out = Ret r)
    /\ users (world (snd out)) = users w
    /\ tx (world (snd out)) = tx w
    /\ outbox (world (snd out)) = outbox w
    /\ (redis (world (snd out)) = redis w
        \/ redis (world (snd out)) = delete key (redis w))
    /\ (fst out = Ret (res_json ok_body) ->
        exists c,
          field req_body "code" = JStr c
          /\ redis_read (now env) (redis w) key = Some (JsString.trim c)).
Proof.
  intros req_body env w tr e u He Hu Hver key out. subst key out.
  unfold registerVerify, normalize in *. rewrite He.
  destruct (field req_body "code") as [| | b | n | c | l | l] eqn:Hc; cbn [truthy];
    mauto_with ltac:(first [rewrite Hu | rewrite Hver]; mred).
  all: repeat match goal with |- _ /\ _ => split end;
    eauto; try discriminate.
  all: intros _; match goal with
       | H : bool_decide _ = true |- _ =>
           pose proof (saved_matches _ _ H) as Hm; eauto
       end.
Qed.

(** The run of a verify request that presents the stored code for an
    unverified account, when the reads, the transaction start and the
    update succeed: the code deletion comes before the commit, and the
    outcome depends on the commit. *)
Lemma registerVerify_unverified_run :
  forall req_body env w tr e c u,
    field req_body "email" = JStr e ->
    field req_body "code" = JStr c ->
    isValidEmail (JStr (normalize e)) = true ->
    Regex.test Regex.codeRegex (JsString.trim c) = true ->
    redis_read (now env) (redis w) ("verif_" +:+ normalize e)
    = Some (JsString.trim c) ->
    rows (users w) !! normalize e = Some u ->
    email u = normalize e ->
    verified u = false ->
    get_fails (faults env) = false ->
    findOne_fails (faults env) = false ->
    transaction_fails (faults env) = false ->
    save_fails (faults env) = false ->
    let ne := normalize e in
    let key := "verif_" +:+ ne in
    let u' := mkUser (id u) (email u) (password_hash u) true in
    let t' := mkTable (<[ne := u']> (rows (users w))) (next_id (users w)) in
    let r' := if del_fails (faults env) then redis w else delete key (redis w) in
    let evs_del :=
      if del_fails (faults env)
      then [EvDel key; EvConsoleError "Redis error deleting verification code:"]
      else [EvDel key] in
    registerVerify req_body env (mkSt w tr)
    = if commit_fails (faults env)
      then
        (Ret (errorResponse 500 "internal server error"),
         mkSt (mkWorld (users w)
                 (if rollback_fails (faults env) then Some t' else None)
                 r' (outbox w) (transporterVerified w))
           (tr ++ [EvGet key; EvFindOne ne; EvTransaction; EvSave ne]
               ++ evs_del
               ++ [EvCommit; EvRollback; EvConsoleError "Register verify error:"]))
      else
        (Ret (res_json ok_body),
         mkSt (mkWorld t' None r' (outbox w) (transporterVerified w))
           (tr ++ [EvGet key; EvFindOne ne; EvTransaction; EvSave ne]
               ++ evs_del ++ [EvCommit])).
Proof.
  intros req_body env w tr e c u He Hc Hv Hre Hsaved Hu Hem Hver
    Hget Hfind Htx Hsave ne key u' t' r' evs_del.
  subst ne key u' t' r' evs_del.
  unfold registerVerify, normalize in *.
  rewrite He, Hc, (valid_email_truthy _ Hv), (code_truthy _ Hre). mred.
  rewrite Hv. mred. rewrite Hre. mred. rewrite Hget. mred.
  rewrite Hsaved. mred.
  rewrite (code_nonempty _ Hre). rewrite bool_decide_eq_true_2 by reflexivity.
  mred. rewrite Hfind. mred. rewrite Hu. mred. rewrite Hver. mred.
  rewrite Htx. mred. rewrite Hsave. mred.
  cbn [default from_option Datatypes.id email]. rewrite Hem, Hu.
  mred.
  destruct (del_fails (faults env)), (commit_fails (faults env)),
    (rollback_fails (faults env)); mred;
    rewrite <- ?app_assoc; reflexivity.
Qed.

(** C1, as amended.  A verify request that presents the stored code for an
    unverified account, with the store calls of the update succeeding, is
    answered [{ok: true}], sets [verified] to true and, unless the deletion
    fails, deletes the stored code.  In the state it leaves, every further
    verify request for the same address, with any code and under any
    faults, changes no user row; it is answered [{ok: true}] only when the
    first deletion had failed and the submitted code equals the stored one;
    when the code was deleted it is answered by an error and changes
    nothing, and the error is 400 "code expired or not found" when the
    request is well formed and its lookup succeeds.  More generally, in
    every world where the account is verified a verify request for its
    address changes no user row and is answered [{ok: true}] only when the
    store returns a code for the address and the submitted code, trimmed,
    equals it; when the store returns none, the answer is an error, 400
    "code expired or not found" for a well-formed request, and nothing
    changes. *)
Theorem registerVerify_once_then_code_gated :
  (forall req_body env w tr e c u,
      field req_body "email" = JStr e ->
      field req_body "code" = JStr c ->
      isValidEmail (JStr (normalize e)) = true ->
      Regex.test Regex.codeRegex (JsString.trim c) = true ->
      redis_read (now env) (redis w) ("verif_" +:+ normalize e)
      = Some (JsString.trim c) ->
      rows (users w) !! normalize e = Some u ->
      email u = normalize e ->
      verified u = false ->
      get_fails (faults env) = false ->
      findOne_fails (faults env) = false ->
      transaction_fails (faults env) = false ->
      save_fails (faults env) = false ->
      commit_fails (faults env) = false ->
      let key := "verif_" +:+ normalize e in
      let out1 := registerVerify req_body env (mkSt w tr) in
      fst out1 = Ret (res_json ok_body)
      /\ rows (users (world (snd out1))) !! normalize e
         = Some (mkUser (id u) (email u) (password_hash u) true)
      /\ (del_fails (faults env) = false ->
          redis (world (snd out1)) !! key = None)
      /\ forall body2 env2 e2,
          field body2 "email" = JStr e2 ->
          normalize e2 = normalize e ->
          let out2 := registerVerify body2 env2 (snd out1) in
          (exists r, fst out2 = Ret r)
          /\ users (world (snd out2)) = users (world (snd out1))
          /\ (fst out2 = Ret (res_json ok_body) ->
              del_fails (faults env) = true
              /\ exists c2, field body2 "code" = JStr c2
                            /\ JsString.trim c2 = JsString.trim c)
          /\ (del_fails (faults env) = false ->
              (exists r, fst out2 = Ret r /\ status r <> 200
                         /\ world (snd out2) = world (snd out1))
              /\ forall c2,
                  field body2 "code" = JStr c2 ->
                  Regex.test Regex.codeRegex (JsString.trim c2) = true ->
                  get_fails (faults env2) = false ->
                  out2 = (Ret (errorResponse 400 "code expired or not found"),
                          mkSt (world (snd out1))
                            (trace (snd out1) ++ [EvGet key]))))
  /\ (forall req_body env w tr e u,
        field req_body "email" = JStr e ->
        rows (users w) !! normalize e = Some u ->
        verified u = true ->
        let key := "verif_" +:+ normalize e in
        let out := registerVerify req_body env (mkSt w tr) in
        (exists r, fst out = Ret r)
        /\ users (world (snd out)) = users w
        /\ (fst out = Ret (res_json ok_body) ->
            exists c2,
              field req_body "code" = JStr c2
              /\ redis_read (now env) (redis w) key = Some (JsString.trim c2))
        /\ (redis_read (now env) (redis w) key = None ->
            (exists r, fst out = Ret r /\ status r <> 200
                       /\ world (snd out) = w)
            /\ forall c2,
                field req_body "code" = JStr c2 ->
                isValidEmail (JStr (normalize e)) = true ->
                Regex.test Regex.codeRegex (JsString.trim c2) = true ->
                get_fails (faults env) = false ->
                out = (Ret (errorResponse 400 "code expired or not found"),
                       mkSt w (tr ++ [EvGet key])))).
Proof.
  split.
  - intros req_body env w tr e c u He Hc Hv Hre Hsaved Hu Hem Hver
      Hget Hfind Htx Hsave Hcommit key out1.
    pose proof (registerVerify_unverified_run req_body env w tr e c u
                  He Hc Hv Hre Hsaved Hu Hem Hver Hget Hfind Htx Hsave) as Hrun.
    cbv zeta in Hrun. rewrite Hcommit in Hrun.
    subst out1 key. rewrite Hrun. cbn [fst snd world users rows redis trace].
    split; [reflexivity |]. split; [apply lookup_insert_eq |].
    split; [intros ->; apply lookup_delete_eq |].
    intros body2 env2 e2 He2 Hn2.
    match goal with |- context [registerVerify body2 env2 (mkSt ?w1 ?tr1)] =>
      set (w1' := w1); set (tr1' := tr1) end.
    assert (Hu1 : rows (users w1') !! normalize e2
                  = Some (mkUser (id u) (email u) (password_hash u) true)).
    { rewrite Hn2. apply lookup_insert_eq. }
    destruct (registerVerify_verified_user body2 env2 w1' tr1' e2 _ He2 Hu1 eq_refl)
      as (Hr & Husers & _ & _ & _ & Hok).
    cbv zeta. split; [exact Hr |]. split; [exact Husers |]. split.
    + intros Hokay. destruct (Hok Hokay) as (c2 & Hc2 & Hm2).
      rewrite Hn2 in Hm2. subst w1'. cbn [redis] in Hm2.
      destruct (del_fails (faults env)).
      * split; [reflexivity |]. exists c2. split; [exact Hc2 |].
        apply redis_read_Some in Hm2 as (t2 & Hl2 & _).
        apply redis_read_Some in Hsaved as (t1 & Hl1 & _). congruence.
      * rewrite redis_read_delete in Hm2. discriminate.
    + intros Hdel.
      assert (Hgone : redis_read (now env2) (redis w1') ("verif_" +:+ normalize e2)
                      = None).
      { rewrite Hn2. subst w1'. cbn [redis]. rewrite Hdel. apply redis_read_delete. }
      split.
      * exact (registerVerify_no_code body2 env2 w1' tr1' e2 He2 Hgone).
      * intros c2 Hc2 Hre2 Hget2.
        rewrite (registerVerify_code_gone body2 env2 w1' tr1' e2 c2 He2 Hc2
                   ltac:(rewrite Hn2; exact Hv) Hre2 Hget2 Hgone).
        rewrite Hn2. reflexivity.
  - intros req_body env w tr e u He Hu Hver key out.
    destruct (registerVerify_verified_user req_body env w tr e u He Hu Hver)
      as (Hr & Husers & _ & _ & _ & Hok).
    split; [exact Hr |]. split; [exact Husers |]. split; [exact Hok |].
    intros Hnone. split.
    + exact (registerVerify_no_code req_body env w tr e He Hnone).
    + intros c2 Hc2 Hv Hre2 Hget.
      exact (registerVerify_code_gone req_body env w tr e c2 He Hc2 Hv Hre2 Hget
               Hnone).
Qed.

Lemma registerVerify_once_then_code_gated_witness :
  let out1 := Demo.run (registerVerify
                          (Demo.body2 "email" (JStr "a@b.com") "code" (JStr " 550000 ")))
                Demo.env0 Demo.w_registered in
  fst out1 = Ret (res_json ok_body)
  /\ rows (users (world (snd out1))) !! "a@b.com" = Some (Demo.alice true).
Proof.
  destruct (proj1 registerVerify_once_then_code_gated
              (Demo.body2 "email" (JStr "a@b.com") "code" (JStr " 550000 "))
              Demo.env0 Demo.w_registered [] "a@b.com" " 550000 "
              (Demo.alice false)
              ltac:(reflexivity) ltac:(reflexivity) ltac:(reflexivity)
              ltac:(reflexivity) ltac:(reflexivity) ltac:(reflexivity)
              ltac:(reflexivity) ltac:(reflexivity) ltac:(reflexivity)
              ltac:(reflexivity) ltac:(reflexivity) ltac:(reflexivity)
              ltac:(reflexivity)) as (H1 & H2 & _).
  split; [exact H1 | exact H2].
Defined.

(** C1 as stated fails.  Alice is registered and unverified and her code
    ["550000"] is stored; the first verify request with that code is
    answered [{ok: true}] and verifies her; the second request, the same
    one, is answered 400 "code expired or not found", not [{ok: true}]. *)
Lemma registerVerify_second_call_rejected :
  ~ (forall req_body env w tr e u,
        field req_body "email" = JStr e ->
        rows (users w) !! normalize e = Some u ->
        verified u = false ->
        let out1 := registerVerify req_body env (mkSt w tr) in
        fst out1 = Ret (res_json ok_body) ->
        forall body2 env2,
          field body2 "email" = JStr e ->
          let out2 := registerVerify body2 env2 (snd out1) in
          fst out2 = Ret (res_json ok_body)
          /\ world (snd out2) = world (snd out1)).
Proof.
  intros H.
  pose (b := Demo.body2 "email" (JStr "a@b.com") "code" (JStr "550000")).
  specialize (H b Demo.env0 Demo.w_registered [] "a@b.com" (Demo.alice false)
                eq_refl eq_refl eq_refl eq_refl b Demo.env0 eq_refl).
  destruct H as [H _]. vm_compute in H. discriminate H.
Qed.

(** The same two calls, evaluated. *)
Example registerVerify_twice :
  let b := Demo.body2 "email" (JStr "a@b.com") "code" (JStr "550000") in
  let out1 := Demo.run (registerVerify b) Demo.env0 Demo.w_registered in
  let out2 := registerVerify b Demo.env0 (snd out1) in
  fst out1 = Ret (res_json ok_body)
  /\ world (snd out1) = Demo.w_verified
  /\ fst out2 = Ret (errorResponse 400 "code expired or not found")
  /\ world (snd out2) = Demo.w_verified.
Proof. vm_compute. repeat split. Qed.

(** *** An unverified account without a stored code stays that way *)

Lemma verif_key_inj a b : "verif_" +:+ a = "verif_" +:+ b -> a = b.
Proof. intros E. cbv [String.append] in E. fold String.append in E. congruence. Qed.

Lemma keyed_insert (t : gmap string User) k u :
  (forall k0 u0, t !! k0 = Some u0 -> email u0 = k0) ->
  email u = k ->
  forall k0 u0, <[k := u]> t !! k0 = Some u0 -> email u0 = k0.
Proof.
  intros Hwf Hk k0 u0 Hl. rewrite lookup_insert in Hl.
  case_decide; [congruence | eauto].
Qed.

(** The code key of [ne] is still absent after the writes and deletions of
    a handler. *)
Ltac redis_goal Hnone :=
  cbn [redis];
  repeat first
    [ exact Hnone
    | apply lookup_delete_None; right
    | rewrite lookup_insert_ne;
      [| let E := fresh in
         intros E; first [ discriminate E
                         | apply verif_key_inj in E; congruence ] ] ].

Lemma stuck_login cfg cr ne body env w tr :
  stuck ne w -> stuck ne (world (snd (login cfg cr body env (mkSt w tr)))).
Proof.
  intros Hs. unfold login. mred. repeat mmatch; exact Hs.
Qed.

Lemma stuck_logout cfg cr ne auth env w tr :
  stuck ne w -> stuck ne (world (snd (logout cfg cr auth env (mkSt w tr)))).
Proof.
  intros (Hwf & Hex & Hnone). unfold logout. mred. repeat mmatch.
  all: split; [exact Hwf | split; [exact Hex | redis_goal Hnone]].
Qed.

Lemma stuck_forgot cfg ne body env w tr :
  stuck ne w -> stuck ne (world (snd (forgotPassword cfg body env (mkSt w tr)))).
Proof.
  intros (Hwf & Hex & Hnone). unfold forgotPassword. mred. repeat mmatch.
  all: split; [exact Hwf | split; [exact Hex | redis_goal Hnone]].
Qed.

Lemma stuck_verify ne body env w tr :
  stuck ne w -> stuck ne (world (snd (registerVerify body env (mkSt w tr)))).
Proof.
  intros (Hwf & (u & Hu & Hver) & Hnone). unfold registerVerify. mred.
  repeat mmatch.
  all: try (split; [exact Hwf | split; [eauto | redis_goal Hnone]]).
  all: match goal with
       | Hl : rows (users _) !! ?k = Some ?u0 |- context [email ?u0] =>
           cbn [email]; rewrite (Hwf _ _ Hl);
           assert (Hk : k <> ne)
             by (let E := fresh in
                 intros E; rewrite E in *;
                 match goal with
                 | Hg : redis_read _ _ _ = Some _ |- _ =>
                     rewrite (redis_read_None _ _ _ Hnone) in Hg; discriminate Hg
                 end)
       end.
  all: split;
    [unfold keyed_by_email; cbn [users rows];
     apply keyed_insert; [exact Hwf | reflexivity] |].
  all: split;
    [exists u; cbn [users rows]; rewrite lookup_insert_ne by assumption; auto |].
  all: redis_goal Hnone.
Qed.

Lemma stuck_reset cr ne body env w tr :
  stuck ne w -> stuck ne (world (snd (resetPassword cr body env (mkSt w tr)))).
Proof.
  intros (Hwf & (u & Hu & Hver) & Hnone). unfold resetPassword. mred.
  repeat mmatch.
  all: try (split; [exact Hwf | split; [eauto | redis_goal Hnone]]).
  all: match goal with
       | Hl : rows (users _) !! ?k = Some ?u0 |- context [email ?u0] =>
           cbn [email]; rewrite (Hwf _ _ Hl)
       end.
  all: split;
    [unfold keyed_by_email; cbn [users rows];
     apply keyed_insert; [exact Hwf | reflexivity] |].
  all: split; [| redis_goal Hnone].
  all: cbn [users rows];
    match goal with
    | Hl : rows (users _) !! ?k = Some ?u0 |- context [<[?k := _]> _] =>
        destruct (decide (k = ne)) as [E | E];
        [ rewrite E in *; rewrite lookup_insert_eq;
          eexists; split; [reflexivity | cbn [verified]; congruence]
        | rewrite lookup_insert_ne by assumption; eauto ]
    end.
Qed.

Lemma stuck_register cfg cr ne body env w tr :
  stuck ne w -> stuck ne (world (snd (registerRequest cfg cr body env (mkSt w tr)))).
Proof.
  intros (Hwf & (u & Hu & Hver) & Hnone). unfold registerRequest. mred.
  repeat mmatch.
  all: try (split; [exact Hwf | split; [eauto | redis_goal Hnone]]).
  all: split;
    [unfold keyed_by_email; cbn [users rows];
     apply keyed_insert; [exact Hwf | reflexivity] |].
  all: split; [| redis_goal Hnone].
  all: exists u; cbn [users rows];
    rewrite lookup_insert_ne by congruence; auto.
Qed.


(** No sequence of requests to the POST routes gets a stuck account out of
    that state. *)
Lemma stuck_serve cfg cr ne reqs :
  forall st, stuck ne (world st) -> stuck ne (world (serve cfg cr reqs st)).
Proof.
  induction reqs as [| [rq env] rest IH]; intros [w tr] Hs; cbn [serve world].
  - exact Hs.
  - apply IH. destruct rq; cbn [route].
    + apply stuck_register; exact Hs.
    + apply stuck_verify; exact Hs.
    + apply stuck_login; exact Hs.
    + apply stuck_logout; exact Hs.
    + apply stuck_forgot; exact Hs.
    + apply stuck_reset; exact Hs.
Qed.

(** C9. In the success path for an unverified account the deletion of the
    stored code is issued before the commit.  When the commit fails the
    answer is 500 "internal server error" and no user row has changed, so
    the account is still unverified; when the deletion had succeeded the
    code is gone, and every later verify request for the address, with any
    code, at any time and under any faults, is answered by an error and
    changes nothing.  With the rows of the table under their own emails, no
    sequence of requests to the POST routes verifies the account
    afterwards. *)
Theorem registerVerify_commit_failure :
  forall req_body env w tr e c u,
    field req_body "email" = JStr e ->
    field req_body "code" = JStr c ->
    isValidEmail (JStr (normalize e)) = true ->
    Regex.test Regex.codeRegex (JsString.trim c) = true ->
    redis_read (now env) (redis w) ("verif_" +:+ normalize e)
    = Some (JsString.trim c) ->
    rows (users w) !! normalize e = Some u ->
    email u = normalize e ->
    verified u = false ->
    get_fails (faults env) = false ->
    findOne_fails (faults env) = false ->
    transaction_fails (faults env) = false ->
    save_fails (faults env) = false ->
    commit_fails (faults env) = true ->
    let ne := normalize e in
    let key := "verif_" +:+ ne in
    let out := registerVerify req_body env (mkSt w tr) in
    fst out = Ret (errorResponse 500 "internal server error")
    /\ trace (snd out)
       = (tr ++ [EvGet key; EvFindOne ne; EvTransaction; EvSave ne]
             ++ (if del_fails (faults env)
                 then [EvDel key;
                       EvConsoleError "Redis error deleting verification code:"]
                 else [EvDel key])
             ++ [EvCommit; EvRollback;
                 EvConsoleError "Register verify error:"])%list
    /\ users (world (snd out)) = users w
    /\ (del_fails (faults env) = false ->
        redis (world (snd out)) = delete key (redis w)
        /\ (forall body2 env2 e2 tr2,
              field body2 "email" = JStr e2 ->
              normalize e2 = ne ->
              let out2 := registerVerify body2 env2 (mkSt (world (snd out)) tr2) in
              exists r, fst out2 = Ret r /\ status r <> 200
                        /\ world (snd out2) = world (snd out))
        /\ (keyed_by_email (users w) ->
            forall cfg cr reqs,
              exists u',
                rows (users (world (serve cfg cr reqs (snd out)))) !! ne = Some u'
                /\ verified u' = false)).
Proof.
  intros req_body env w tr e c u He Hc Hv Hre Hsaved Hu Hem Hver
    Hget Hfind Htx Hsave Hcommit ne key out.
  pose proof (registerVerify_unverified_run req_body env w tr e c u
                He Hc Hv Hre Hsaved Hu Hem Hver Hget Hfind Htx Hsave) as Hrun.
  cbv zeta in Hrun. rewrite Hcommit in Hrun.
  subst out key ne. rewrite Hrun. cbn [fst snd world trace users redis].
  split; [reflexivity |]. split; [reflexivity |]. split; [reflexivity |].
  intros Hdel. rewrite Hdel. split; [reflexivity |]. split.
  - intros body2 env2 e2 tr2 He2 Hn2.
    apply (registerVerify_no_code body2 env2 _ tr2 e2 He2).
    cbn [redis]. rewrite Hn2. apply redis_read_delete.
  - intros Hwf cfg cr reqs.
    match goal with |- context [serve cfg cr reqs ?st] =>
      destruct (stuck_serve cfg cr (normalize e) reqs st) as (_ & Hex & _)
    end; [| exact Hex].
    split; [exact Hwf |]. split; [exists u; split; assumption |].
    cbn [world redis]. apply lookup_delete_eq.
Qed.

Lemma registerVerify_commit_failure_witness :
  let env := mkEnv Demo.commit_down
               1000 (1 # 2) "jti-1" "saltsalt" in
  let out := Demo.run (registerVerify
                         (Demo.body2 "email" (JStr "a@b.com") "code" (JStr "550000")))
               env Demo.w_registered in
  fst out = Ret (errorResponse 500 "internal server error")
  /\ users (world (snd out)) = users Demo.w_registered.
Proof.
  destruct (registerVerify_commit_failure
              (Demo.body2 "email" (JStr "a@b.com") "code" (JStr "550000"))
              (mkEnv Demo.commit_down
                 1000 (1 # 2) "jti-1" "saltsalt")
              Demo.w_registered [] "a@b.com" "550000"
              (Demo.alice false)
              ltac:(reflexivity) ltac:(reflexivity) ltac:(reflexivity)
              ltac:(reflexivity) ltac:(reflexivity) ltac:(reflexivity)
              ltac:(reflexivity) ltac:(reflexivity) ltac:(reflexivity)
              ltac:(reflexivity) ltac:(reflexivity) ltac:(reflexivity)
              ltac:(reflexivity)) as (H1 & _ & H3 & _).
  split; [exact H1 | exact H3].
Defined.

(** ** A code that is not a string *)

Lemma js_trim_nonstring v : is_string v = false -> js_trim v = Throw TypeError.
Proof. destruct v; try reflexivity; discriminate. Qed.

(** C10, as amended.  A verify request whose email is a string of valid
    format and whose code is truthy but not a string throws a [TypeError] at
    [code.trim()]: no store call is issued, the error is logged and the
    answer is 500 "internal server error".  The same holds for a reset
    request whose new password is also present and passes the length check
    [newPassword.length >= 6], whatever the type of the password. *)
Theorem code_not_a_string_is_500 :
  forall cr req_body env w tr e,
    field req_body "email" = JStr e ->
    isValidEmail (JStr (normalize e)) = true ->
    truthy (field req_body "code") = true ->
    is_string (field req_body "code") = false ->
    js_trim (field req_body "code") = Throw TypeError
    /\ registerVerify req_body env (mkSt w tr)
       = (Ret (errorResponse 500 "internal server error"),
          mkSt w (tr ++ [EvConsoleError "Register verify error:"]))
    /\ (truthy (field req_body "newPassword") = true ->
        isValidPassword (field req_body "newPassword") = Ret true ->
        resetPassword cr req_body env (mkSt w tr)
        = (Ret (errorResponse 500 "internal server error"),
           mkSt w (tr ++ [EvConsoleError "Reset password error:"]))).
Proof.
  intros cr req_body env w tr e He Hv Ht Hs.
  pose proof (js_trim_nonstring _ Hs) as Htrim.
  split; [exact Htrim |]. unfold normalize in Hv. split.
  - unfold registerVerify. rewrite He, Ht, (valid_email_truthy _ Hv). mred.
    rewrite Hv. mred. unfold js_trim in Htrim. rewrite Htrim. reflexivity.
  - intros Hp Hpw. unfold resetPassword.
    rewrite He, Ht, Hp, (valid_email_truthy _ Hv). mred.
    rewrite Hv. mred. rewrite Hpw. mred.
    unfold js_trim in Htrim. rewrite Htrim. reflexivity.
Qed.

Lemma code_not_a_string_is_500_witness :
  let verify_body := Demo.body2 "email" (JStr "a@b.com") "code" (JNum 550000) in
  let reset_body := <["newPassword" := JObj [("length", JStr "1e1")]]> verify_body in
  Demo.run (registerVerify verify_body) Demo.env0 Demo.w_registered
  = (Ret (errorResponse 500 "internal server error"),
     mkSt Demo.w_registered [EvConsoleError "Register verify error:"])
  /\ Demo.run (resetPassword Demo.cr reset_body) Demo.env0 Demo.w_registered
     = (Ret (errorResponse 500 "internal server error"),
        mkSt Demo.w_registered [EvConsoleError "Reset password error:"]).
Proof.
  split.
  - destruct (code_not_a_string_is_500 Demo.cr
                (Demo.body2 "email" (JStr "a@b.com") "code" (JNum 550000))
                Demo.env0 Demo.w_registered [] "a@b.com"
                ltac:(reflexivity) ltac:(reflexivity) ltac:(reflexivity)
                ltac:(reflexivity)) as (_ & H & _).
    exact H.
  - pose (b := <["newPassword" := JObj [("length", JStr "1e1")]]>
                 (Demo.body2 "email" (JStr "a@b.com") "code" (JNum 550000))).
    assert (E1 : field b "email" = JStr "a@b.com") by reflexivity.
    assert (E2 : truthy (field b "code") = true) by reflexivity.
    assert (E3 : is_string (field b "code") = false) by reflexivity.
    assert (E4 : truthy (field b "newPassword") = true) by reflexivity.
    assert (E5 : isValidPassword (field b "newPassword") = Ret true)
      by (vm_compute; reflexivity).
    destruct (code_not_a_string_is_500 Demo.cr b Demo.env0 Demo.w_registered []
                "a@b.com" E1 ltac:(reflexivity) E2 E3) as (_ & _ & H).
    exact (H E4 E5).
Defined.

(** C10 as stated fails: it leaves out the checks that come before
    [code.trim()].  A body that holds only the code 550000, a number, is
    answered 400 "email and code required" by verify and 400 "email, code
    and newPassword required" by reset. *)
Lemma code_not_a_string_can_be_400 :
  ~ (forall cr req_body env st,
        truthy (field req_body "code") = true ->
        is_string (field req_body "code") = false ->
        fst (registerVerify req_body env st)
        = Ret (errorResponse 500 "internal server error")
        /\ fst (resetPassword cr req_body env st)
           = Ret (errorResponse 500 "internal server error")).
Proof.
  intros H.
  pose (b := (<["code" := JNum 550000]> ∅ : gmap string JsValue)).
  assert (Ht : truthy (field b "code") = true) by reflexivity.
  assert (Hs : is_string (field b "code") = false) by reflexivity.
  destruct (H Demo.cr b Demo.env0 (mkSt Demo.w_registered []) Ht Hs) as [H1 _].
  vm_compute in H1. discriminate H1.
Qed.

Example code_number_without_email :
  fst (Demo.run (registerVerify (<["code" := JNum 550000]> ∅))
         Demo.env0 Demo.w_registered)
  = Ret (errorResponse 400 "email and code required")
  /\ fst (Demo.run (resetPassword Demo.cr (<["code" := JNum 550000]> ∅))
            Demo.env0 Demo.w_registered)
     = Ret (errorResponse 400 "email, code and newPassword required")
  /\ fst (Demo.run (registerVerify
                      (Demo.body2 "email" (JStr "not-an-email") "code" (JNum 550000)))
            Demo.env0 Demo.w_registered)
     = Ret (errorResponse 400 "invalid email format").
Proof. repeat split; reflexivity. Qed.

(** ** Register: request *)

(** C2. A registration request that passes validation and the duplicate
    check, and whose write of the verification code fails, is answered 500;
    the rollback is issued, no user row exists for the address afterwards
    and the committed table, the key-value store and the outbox are the
    initial ones.  (The plan makes the write fail; when the password is not
    a string the hashing throws before the write, with the same outcome.)
    And for every request and every fault plan, a user row that exists
    afterwards either existed before, unchanged, or is a new unverified one
    whose verification code has been written and is in the store, to expire
    [verifTtl] seconds from now. *)
Theorem registerRequest_code_write_failure_rolls_back :
  forall cfg cr,
    (forall req_body env w tr e,
        field req_body "email" = JStr e ->
        isValidEmail (JStr (normalize e)) = true ->
        truthy (field req_body "password") = true ->
        isValidPassword (field req_body "password") = Ret true ->
        rows (users w) !! normalize e = None ->
        transaction_fails (faults env) = false ->
        findOne_fails (faults env) = false ->
        create_fault (faults env) = CreateOk ->
        setEx_fails (faults env) = true ->
        let key := "verif_" +:+ normalize e in
        let code := genCode_of 6 (random env) in
        let out := registerRequest cfg cr req_body env (mkSt w tr) in
        (exists r, fst out = Ret r /\ status r = 500)
        /\ In EvRollback (trace (snd out))
        /\ users (world (snd out)) = users w
        /\ rows (users (world (snd out))) !! normalize e = None
        /\ redis (world (snd out)) = redis w
        /\ outbox (world (snd out)) = outbox w
        /\ (is_string (field req_body "password") = true ->
            rollback_fails (faults env) = false ->
            out = (Ret (errorResponse 500 "Failed to store verification code"),
                   mkSt (set_tx None w)
                     (tr ++ [EvTransaction; EvFindOne (normalize e); EvBcryptHash;
                             EvCreate (normalize e);
                             EvSetEx key (verifTtl cfg) code; EvRollback;
                             EvConsoleError "Redis error in register request:"]))))
    /\ (forall req_body env w tr,
          let out := registerRequest cfg cr req_body env (mkSt w tr) in
          forall e' u',
            rows (users (world (snd out))) !! e' = Some u' ->
            rows (users w) !! e' = Some u'
            \/ (rows (users w) !! e' = None
                /\ verified u' = false
                /\ exists code,
                     redis (world (snd out)) !! ("verif_" +:+ e')
                     = Some (now env + verifTtl cfg, code)
                     /\ In (EvSetEx ("verif_" +:+ e') (verifTtl cfg) code)
                          (trace (snd out)))).
Proof.
  intros cfg cr. split.
  - intros req_body env w tr e He Hv Ht Hpw Hu Htx Hfind Hcreate Hset
      key code out. subst key code out.
    unfold registerRequest, normalize in *.
    rewrite He, Ht, (valid_email_truthy _ Hv). mred.
    rewrite Hv. mred. rewrite Hpw. mred. rewrite Htx. mred.
    rewrite Hfind. mred. rewrite Hu. mred.
    destruct (field req_body "password") as [| | b | n | pw | l | l];
      mred; rewrite ?Hcreate; mred; rewrite ?Hu; mred; rewrite ?Hset; mred;
      destruct (rollback_fails (faults env)); mred; name_test; mred.
    all: repeat split; eauto; try discriminate.
    all: try (rewrite !in_app_iff; simpl; tauto).
    all: intros _ _; rewrite <- !app_assoc; reflexivity.
  - intros req_body env w tr out. subst out.
    unfold registerRequest. mred.
    repeat mmatch.
    all: try (intros e' u' H; left; exact H).
    all: intros e' u' H;
      match goal with
      | Hn : rows (users _) !! ?ne = None |- _ =>
          destruct (decide (ne = e')) as [<- | Hne];
          [ rewrite lookup_insert_eq in H; injection H as <-;
            right; split; [exact Hn |]; split; [reflexivity |];
            eexists; split; [apply lookup_insert_eq |];
            rewrite !in_app_iff; simpl; tauto
          | rewrite lookup_insert_ne in H by exact Hne; left; exact H ]
      end.
Qed.

Lemma registerRequest_code_write_failure_rolls_back_witness :
  let env := mkEnv Demo.setEx_down
               1000 (1 # 2) "jti-1" "saltsalt" in
  let out := Demo.run (registerRequest Demo.cfg Demo.cr
                         (Demo.body2 "email" (JStr " A@b.com") "password" (JStr "secret1")))
               env Demo.w0 in
  fst out = Ret (errorResponse 500 "Failed to store verification code")
  /\ rows (users (world (snd out))) !! "a@b.com" = None.
Proof.
  destruct (proj1 (registerRequest_code_write_failure_rolls_back Demo.cfg Demo.cr)
              (Demo.body2 "email" (JStr " A@b.com") "password" (JStr "secret1"))
              (mkEnv Demo.setEx_down
                 1000 (1 # 2) "jti-1" "saltsalt")
              Demo.w0 [] " A@b.com"
              ltac:(reflexivity) ltac:(reflexivity) ltac:(reflexivity)
              ltac:(reflexivity) ltac:(reflexivity) ltac:(reflexivity)
              ltac:(reflexivity) ltac:(reflexivity) ltac:(reflexivity))
    as (_ & _ & _ & H4 & _ & _ & H7).
  split; [exact (f_equal fst (H7 eq_refl eq_refl)) | exact H4].
Defined.

(** ** The code generator *)

Lemma Qfloor_bounds (x : Q) (v : Z) :
  Qfloor x = v <-> (inject_Z v <= x)%Q /\ (x < inject_Z (v + 1))%Q.
Proof.
  split.
  - intros <-. split; [apply Qfloor_le | apply Qlt_floor].
  - intros [Hlo Hhi].
    pose proof (Qfloor_le x) as H1. pose proof (Qlt_floor x) as H2.
    assert (Qfloor x < v + 1).
    { rewrite Zlt_Qlt. eapply Qle_lt_trans; eassumption. }
    assert (v < Qfloor x + 1).
    { rewrite Zlt_Qlt. eapply Qle_lt_trans; eassumption. }
    lia.
Qed.

Lemma digit_is_digit d : 0 <= d < 10 -> JsString.is_digit (JsNumber.digit_char d) = true.
Proof.
  intros H.
  assert (d = 0 \/ d = 1 \/ d = 2 \/ d = 3 \/ d = 4 \/ d = 5 \/ d = 6 \/ d = 7
          \/ d = 8 \/ d = 9) as Hd by lia.
  repeat (destruct Hd as [-> | Hd]; [reflexivity |]). subst. reflexivity.
Qed.

Lemma digit_val_char d : 0 <= d < 10 -> JsNumber.digit_val (JsNumber.digit_char d) = d.
Proof.
  intros H.
  assert (d = 0 \/ d = 1 \/ d = 2 \/ d = 3 \/ d = 4 \/ d = 5 \/ d = 6 \/ d = 7
          \/ d = 8 \/ d = 9) as Hd by lia.
  repeat (destruct Hd as [-> | Hd]; [reflexivity |]). subst. reflexivity.
Qed.

Lemma digits_last f x acc :
  0 <= x < 10 ->
  JsNumber.digits f x acc = String (JsNumber.digit_char (x mod 10)) acc.
Proof.
  intros H. assert (x / 10 = 0) as Hq by (Z.div_mod_to_equations; lia).
  destruct f; cbn [JsNumber.digits]; [reflexivity |]. rewrite Hq. reflexivity.
Qed.

Lemma toString_six n : 100000 <= n <= 999999 -> JsNumber.toString n = six n.
Proof.
  intros H. unfold JsNumber.toString.
  destruct (Z.ltb_spec n 0); [lia |].
  assert (Hlog : 16 <= Z.log2 n).
  { change 16 with (Z.log2 100000). apply Z.log2_le_mono. lia. }
  destruct (Z.to_nat (Z.log2 n)) as [| [| [| [| [| f]]]]] eqn:Hf; try lia.
  unfold six. cbn [JsNumber.digits].
  repeat match goal with
    | |- context [(?a =? 0)%Z] =>
        let Hq := fresh in
        destruct (Z.eqb_spec a 0) as [Hq | Hq];
        [exfalso; clear - H Hq; Z.div_mod_to_equations; lia | clear Hq]
    end.
  rewrite digits_last by (clear - H; Z.div_mod_to_equations; lia).
  rewrite !Z.div_div by lia. reflexivity.
Qed.

Lemma six_code n : Regex.test Regex.codeRegex (six n) = true.
Proof.
  unfold six, Regex.codeRegex.
  repeat (cbv beta iota zeta delta [Regex.test Regex.deriv Regex.nullable andb orb];
          rewrite digit_is_digit by (apply Z.mod_pos_bound; lia)).
  reflexivity.
Qed.

Lemma six_number n :
  100000 <= n <= 999999 -> JsNumber.parse_digits (six n) 0 = Some n.
Proof.
  intros H. unfold six. cbn [JsNumber.parse_digits].
  rewrite !digit_is_digit, !digit_val_char by (apply Z.mod_pos_bound; lia).
  f_equal. clear - H. Z.div_mod_to_equations. lia.
Qed.

Lemma six_inj n v :
  100000 <= n <= 999999 -> 100000 <= v <= 999999 -> six n = six v -> n = v.
Proof.
  intros Hn Hv E. apply (f_equal (fun s => JsNumber.parse_digits s 0)) in E.
  rewrite !six_number in E by assumption. congruence.
Qed.

(** *** Rounding to the nearest double *)

Lemma pow2_pos e : (0 < 2 ^ e)%Q.
Proof. apply Qpower_0_lt. reflexivity. Qed.

Lemma pow2_add a b : (2 ^ (a + b) == 2 ^ a * 2 ^ b)%Q.
Proof. apply Qpower_plus. discriminate. Qed.

Lemma pow2_mono a b : a <= b -> (2 ^ a <= 2 ^ b)%Q.
Proof. intros H. apply Qpower_le_compat_l; [exact H | discriminate]. Qed.

Lemma pow2_int k : 0 <= k -> (2 ^ k == inject_Z (2 ^ k))%Q.
Proof. intros H. symmetry. apply (Zpower_Qpower 2 k H). Qed.

Lemma pow2_succ a : (2 ^ (a + 1) == 2 * 2 ^ a)%Q.
Proof. rewrite pow2_add. change (2 ^ 1)%Q with 2%Q. ring. Qed.

(** [ilog2 x] is the integer part of the binary logarithm of [x]. *)
Lemma ilog2_spec x :
  (0 < x)%Q -> (2 ^ Binary64.ilog2 x <= x)%Q /\ (x < 2 ^ (Binary64.ilog2 x + 1))%Q.
Proof.
  intros Hx. unfold Binary64.ilog2.
  destruct x as [n d]. cbn [Qnum Qden].
  assert (Hn : 0 < n) by (unfold Qlt in Hx; cbn in Hx; lia).
  set (a := Z.log2 n). set (b := Z.log2 (Z.pos d)).
  pose proof (Z.log2_spec n Hn) as [Ha1 Ha2]. fold a in Ha1, Ha2.
  pose proof (Z.log2_spec (Z.pos d) ltac:(lia)) as [Hb1 Hb2]. fold b in Hb1, Hb2.
  assert (Ha0 : 0 <= a) by apply Z.log2_nonneg.
  assert (Hb0 : 0 <= b) by apply Z.log2_nonneg.
  rewrite <- Z.add_1_r in Ha2, Hb2.
  assert (HA : (2 ^ a == inject_Z (2 ^ a))%Q) by (apply pow2_int; lia).
  assert (HB : (2 ^ b == inject_Z (2 ^ b))%Q) by (apply pow2_int; lia).
  assert (Hk : (2 ^ (a - b) * inject_Z (2 ^ b) == inject_Z (2 ^ a))%Q).
  { rewrite <- HA, <- HB, <- pow2_add. replace (a - b + b) with a by lia. reflexivity. }
  assert (Hpa : 0 < 2 ^ a) by (apply Z.pow_pos_nonneg; lia).
  assert (Hpb : 0 < 2 ^ b) by (apply Z.pow_pos_nonneg; lia).
  rewrite Z.pow_add_r in Ha2, Hb2 by lia. change (2 ^ 1) with 2 in *.
  pose proof (pow2_pos (a - b)) as Hkpos.
  (* n # d against c: cross-multiplication *)
  assert (Hlow : (2 ^ (a - b - 1) < n # d)%Q).
  { assert (E : (2 ^ (a - b) == 2 * 2 ^ (a - b - 1))%Q).
    { rewrite <- pow2_succ. replace (a - b - 1 + 1) with (a - b) by lia. reflexivity. }
    set (c := (2 ^ (a - b - 1))%Q) in *.
    assert (Hc : (c * inject_Z (2 * 2 ^ b) == inject_Z (2 ^ a))%Q).
    { rewrite inject_Z_mult, <- Hk, E. ring. }
    (* c * (2*2^b) = 2^a <= n ; d < 2 * 2^b ; so c * d < n  *)
    assert (Hcp : (0 < c)%Q) by apply pow2_pos.
    setoid_replace (n # d) with (inject_Z n / inject_Z (Z.pos d))%Q
      using relation Qeq by apply Qmake_Qdiv.
    apply Qlt_shift_div_l; [reflexivity |].
    apply Qlt_le_trans with (c * inject_Z (2 * 2 ^ b))%Q.
    - apply Qmult_lt_l; [apply pow2_pos | rewrite <- Zlt_Qlt; lia].
    - rewrite Hc, <- Zle_Qle. lia. }
  assert (Hhigh : (n # d < 2 ^ (a - b + 1))%Q).
  { rewrite pow2_succ.
    setoid_replace (n # d) with (inject_Z n / inject_Z (Z.pos d))%Q
      using relation Qeq by apply Qmake_Qdiv.
    apply Qlt_shift_div_r; [reflexivity |].
    apply Qlt_le_trans with (inject_Z (2 * 2 ^ a)).
    - rewrite <- Zlt_Qlt. lia.
    - rewrite inject_Z_mult, <- Hk.
      setoid_replace (inject_Z 2 * (2 ^ (a - b) * inject_Z (2 ^ b)))%Q
        with (2 * 2 ^ (a - b) * inject_Z (2 ^ b))%Q using relation Qeq by ring.
      apply Qmult_le_l; [pose proof (pow2_pos (a - b)); lra |].
      rewrite <- Zle_Qle. lia. }
  destruct (Qle_bool (2 ^ (a - b)) (n # d)) eqn:Ht.
  - apply Qle_bool_iff in Ht. split; [exact Ht | exact Hhigh].
  - split; [apply Qlt_le_weak; exact Hlow |].
    replace (a - b - 1 + 1) with (a - b) by lia.
    apply Qnot_le_lt. intros H. apply Qle_bool_iff in H. congruence.
Qed.

(** No integer is nearer to [x] than [rne x]. *)
Lemma rne_nearest x (j : Z) :
  (Qabs (x - inject_Z (Binary64.rne x)) <= Qabs (x - inject_Z j))%Q.
Proof.
  unfold Binary64.rne.
  pose proof (Qfloor_le x) as Hf1. pose proof (Qlt_floor x) as Hf2.
  set (f := Qfloor x) in *. rewrite inject_Z_plus in Hf2.
  change (inject_Z 1) with 1%Q in Hf2.
  assert (Hj : (inject_Z j <= inject_Z f)%Q \/ (inject_Z f + 1 <= inject_Z j)%Q).
  { destruct (Z_le_gt_dec j f) as [H | H].
    - left. rewrite <- Zle_Qle. exact H.
    - right. change 1%Q with (inject_Z 1). rewrite <- inject_Z_plus, <- Zle_Qle. lia. }
  assert (Hcase : forall m : Z,
             (m = f /\ (x - inject_Z f <= 1 # 2)%Q)
             \/ (m = f + 1 /\ (1 # 2 <= x - inject_Z f)%Q) ->
             (Qabs (x - inject_Z m) <= Qabs (x - inject_Z j))%Q).
  { intros m [[-> Hm] | [-> Hm]].
    - rewrite (Qabs_pos (x - inject_Z f)) by lra.
      destruct Hj as [Hj | Hj].
      + rewrite Qabs_pos by lra. lra.
      + rewrite Qabs_neg by lra. lra.
    - rewrite inject_Z_plus. change (inject_Z 1) with 1%Q.
      rewrite (Qabs_neg (x - (inject_Z f + 1))) by lra.
      destruct Hj as [Hj | Hj].
      + rewrite Qabs_pos by lra. lra.
      + rewrite Qabs_neg by lra. lra. }
  destruct (x - inject_Z f ?= 1 # 2)%Q eqn:Hc.
  - apply Qeq_alt in Hc.
    destruct (Z.even f); apply Hcase; [left | right]; (split; [reflexivity | lra]).
  - apply Qlt_alt in Hc. apply Hcase. left. split; [reflexivity | lra].
  - apply Qgt_alt in Hc. apply Hcase. right. split; [reflexivity | lra].
Qed.

Lemma rne_ge x (j : Z) : (inject_Z j <= x)%Q -> j <= Binary64.rne x.
Proof.
  intros H. pose proof (rne_nearest x j) as Hn.
  destruct (Z_le_gt_dec j (Binary64.rne x)) as [Hle | Hgt]; [exact Hle | exfalso].
  assert (Hq : (inject_Z (Binary64.rne x) + 1 <= inject_Z j)%Q).
  { change 1%Q with (inject_Z 1). rewrite <- inject_Z_plus, <- Zle_Qle. lia. }
  rewrite (Qabs_pos (x - inject_Z (Binary64.rne x))), (Qabs_pos (x - inject_Z j)) in Hn
    by lra.
  lra.
Qed.

Lemma rne_le x (j : Z) : (x <= inject_Z j)%Q -> Binary64.rne x <= j.
Proof.
  intros H. pose proof (rne_nearest x j) as Hn.
  destruct (Z_le_gt_dec (Binary64.rne x) j) as [Hle | Hgt]; [exact Hle | exfalso].
  assert (Hq : (inject_Z j + 1 <= inject_Z (Binary64.rne x))%Q).
  { change 1%Q with (inject_Z 1). rewrite <- inject_Z_plus, <- Zle_Qle. lia. }
  rewrite (Qabs_neg (x - inject_Z (Binary64.rne x))), (Qabs_neg (x - inject_Z j)) in Hn
    by lra.
  lra.
Qed.

Lemma Qabs_pos_eq x : (0 <= x)%Q -> Qabs x = x.
Proof.
  destruct x as [n d]. unfold Qle. cbn. intros H.
  rewrite Z.abs_eq by lia. reflexivity.
Qed.

(** The grid of a positive number: it lies below [2^(e+53)] and, unless
    the grid is the finest one, at or above [2^(e+52)]. *)
Lemma grid_spec x :
  (0 < x)%Q ->
  let e := Binary64.grid x in
  -1074 <= e /\ (x < 2 ^ (e + 53))%Q /\ (e = -1074 \/ (2 ^ (e + 52) <= x)%Q).
Proof.
  intros Hx e. subst e. unfold Binary64.grid.
  rewrite (Qabs_pos_eq x) by lra.
  destruct (ilog2_spec x Hx) as [H1 H2]. set (l := Binary64.ilog2 x) in *.
  split; [lia |]. split.
  - eapply Qlt_le_trans; [exact H2 |]. apply pow2_mono. lia.
  - destruct (Z_le_gt_dec (l - 52) (-1074)) as [Hs | Hs].
    + left. lia.
    + right. replace (Z.max (l - 52) (-1074) + 52) with l by lia. exact H1.
Qed.

(** Rounding scales [x] to its grid, rounds to an integer and scales back. *)
Lemma round_pos_eq x :
  (0 < x)%Q ->
  (Binary64.round x
   == inject_Z (Binary64.rne (x / 2 ^ Binary64.grid x)) * 2 ^ Binary64.grid x)%Q.
Proof.
  intros Hx. unfold Binary64.round.
  destruct (Qeq_bool x 0) eqn:E.
  - apply Qeq_bool_iff in E. lra.
  - apply Qred_correct.
Qed.

Lemma round_zero x : (x == 0)%Q -> Binary64.round x = 0%Q.
Proof.
  intros H. unfold Binary64.round.
  destruct (Qeq_bool x 0) eqn:E; [reflexivity |].
  apply Qeq_bool_iff in H. congruence.
Qed.

Lemma scale_unscale x e : (x / 2 ^ e * 2 ^ e == x)%Q.
Proof. field. pose proof (pow2_pos e). lra. Qed.

(** The result of rounding is on the grid of the doubles ... *)
Lemma round_representable x :
  (0 <= x)%Q -> Binary64.representable (Binary64.round x).
Proof.
  intros Hx. destruct (Qeq_dec x 0) as [E | E].
  - rewrite (round_zero x E). exists 0, 0. split; [lia |]. split; [reflexivity |].
    reflexivity.
  - assert (Hpos : (0 < x)%Q) by lra.
    destruct (grid_spec x Hpos) as (He & Hhi & _).
    set (e := Binary64.grid x) in *.
    set (y := (x / 2 ^ e)%Q).
    pose proof (pow2_pos e) as Hpe.
    assert (Hy0 : (0 <= y)%Q).
    { unfold y. apply Qle_shift_div_l; [exact Hpe | lra]. }
    assert (Hy1 : (y <= inject_Z (2 ^ 53))%Q).
    { unfold y. apply Qle_shift_div_r; [exact Hpe |].
      rewrite <- pow2_int by lia. rewrite <- pow2_add.
      replace (53 + e) with (e + 53) by lia. lra. }
    assert (Hm0 : 0 <= Binary64.rne y) by (apply (rne_ge y 0); exact Hy0).
    assert (Hm1 : Binary64.rne y <= 2 ^ 53) by (apply rne_le; exact Hy1).
    destruct (Z_lt_le_dec (Binary64.rne y) (2 ^ 53)) as [Hlt | Hge].
    + exists (Binary64.rne y), e. split; [exact He |]. split; [lia |].
      apply round_pos_eq. exact Hpos.
    + exists (2 ^ 52), (e + 1). split; [lia |]. split; [reflexivity |].
      rewrite (round_pos_eq x Hpos). fold e. fold y.
      replace (Binary64.rne y) with (2 ^ 53) by lia.
      rewrite pow2_succ. change (inject_Z (2 ^ 53)) with (2 * inject_Z (2 ^ 52))%Q.
      ring.
Qed.

(** ... and nothing on that grid is nearer to [x]. *)
Lemma round_nearest x z :
  (0 <= x)%Q -> Binary64.representable z ->
  (Qabs (x - Binary64.round x) <= Qabs (x - z))%Q.
Proof.
  intros Hx (mz & ez & Hez & Hmz & Hz).
  destruct (Qeq_dec x 0) as [E | E].
  - rewrite (round_zero x E).
    setoid_replace (x - 0)%Q with 0%Q using relation Qeq by lra. apply Qabs_nonneg.
  - assert (Hpos : (0 < x)%Q) by lra.
    destruct (grid_spec x Hpos) as (He & Hhi & Hlo).
    rewrite (round_pos_eq x Hpos).
    set (e := Binary64.grid x) in *.
    set (y := (x / 2 ^ e)%Q).
    pose proof (pow2_pos e) as Hpe.
    assert (Hxy : (x == y * 2 ^ e)%Q) by (unfold y; rewrite scale_unscale; reflexivity).
    (* compare in units of the grid *)
    assert (Hunit : forall u : Q,
               (Qabs (y - inject_Z (Binary64.rne y)) <= Qabs (y - u))%Q ->
               (z == u * 2 ^ e)%Q ->
               (Qabs (x - inject_Z (Binary64.rne y) * 2 ^ e) <= Qabs (x - z))%Q).
    { intros u Hu Hzu.
      setoid_replace (x - inject_Z (Binary64.rne y) * 2 ^ e)%Q
        with ((y - inject_Z (Binary64.rne y)) * 2 ^ e)%Q
        using relation Qeq by (rewrite Hxy at 1; ring).
      setoid_replace (x - z)%Q with ((y - u) * 2 ^ e)%Q
        using relation Qeq by (rewrite Hxy at 1; rewrite Hzu; ring).
      rewrite !Qabs_Qmult. rewrite (Qabs_pos (2 ^ e)) by lra.
      apply Qmult_le_compat_r; [exact Hu | lra]. }
    destruct (Z_le_gt_dec e ez) as [Hge | Hlt].
    + (* z is on the grid of x *)
      apply (Hunit (inject_Z (mz * 2 ^ (ez - e)))).
      * apply rne_nearest.
      * rewrite Hz, inject_Z_mult, <- pow2_int by lia.
        rewrite <- Qmult_assoc, <- pow2_add. replace (ez - e + e) with ez by lia.
        reflexivity.
    + (* z lies below 2^(e+52), which is on the grid and not above x *)
      destruct Hlo as [Hlo | Hlo]; [lia |].
      assert (Hzlt : (z < 2 ^ (e + 52))%Q).
      { rewrite Hz.
        apply Qle_lt_trans with (inject_Z (Z.abs mz) * 2 ^ ez)%Q.
        - apply Qmult_le_compat_r; [rewrite <- Zle_Qle; lia | pose proof (pow2_pos ez); lra].
        - apply Qlt_le_trans with (inject_Z (2 ^ 53) * 2 ^ ez)%Q.
          + apply Qmult_lt_r; [apply pow2_pos | rewrite <- Zlt_Qlt; lia].
          + rewrite <- pow2_int by lia. rewrite <- pow2_add. apply pow2_mono. lia. }
      pose proof (Hunit (inject_Z (2 ^ 52)) (rne_nearest y (2 ^ 52))) as Hcmp.
      assert (Hgrid : (inject_Z (2 ^ 52) * 2 ^ e == 2 ^ (e + 52))%Q).
      { rewrite <- pow2_int by lia. rewrite <- pow2_add.
        replace (52 + e) with (e + 52) by lia. reflexivity. }
      set (g := (2 ^ (e + 52))%Q) in *.
      assert (Hc2 : (Qabs (x - inject_Z (Binary64.rne y) * 2 ^ e) <= Qabs (x - g))%Q).
      { set (zz := g). 
        assert (Hq : (Qabs (x - inject_Z (Binary64.rne y) * 2 ^ e)
                      <= Qabs (x - inject_Z (2 ^ 52) * 2 ^ e))%Q).
        { setoid_replace (x - inject_Z (Binary64.rne y) * 2 ^ e)%Q
            with ((y - inject_Z (Binary64.rne y)) * 2 ^ e)%Q
            using relation Qeq by (rewrite Hxy at 1; ring).
          setoid_replace (x - inject_Z (2 ^ 52) * 2 ^ e)%Q
            with ((y - inject_Z (2 ^ 52)) * 2 ^ e)%Q
            using relation Qeq by (rewrite Hxy at 1; ring).
          rewrite !Qabs_Qmult. rewrite (Qabs_pos (2 ^ e)) by lra.
          apply Qmult_le_compat_r; [apply rne_nearest | lra]. }
        rewrite Hgrid in Hq. exact Hq. }
      clear Hcmp.
      eapply Qle_trans; [exact Hc2 |].
      rewrite (Qabs_pos (x - g)), (Qabs_pos (x - z)) by lra. lra.
Qed.

(** So the result stays between any two doubles that enclose [x], and a
    double rounds to itself. *)
Lemma round_le x b :
  (0 <= x)%Q -> Binary64.representable b -> (x <= b)%Q -> (Binary64.round x <= b)%Q.
Proof.
  intros Hx Hb Hxb. pose proof (round_nearest x b Hx Hb) as Hn.
  destruct (Qlt_le_dec b (Binary64.round x)) as [Hlt | Hle]; [| exact Hle].
  exfalso. rewrite (Qabs_neg (x - Binary64.round x)), (Qabs_neg (x - b)) in Hn by lra.
  lra.
Qed.

Lemma round_ge x a :
  (0 <= x)%Q -> Binary64.representable a -> (a <= x)%Q -> (a <= Binary64.round x)%Q.
Proof.
  intros Hx Ha Hax. pose proof (round_nearest x a Hx Ha) as Hn.
  destruct (Qlt_le_dec (Binary64.round x) a) as [Hlt | Hle]; [| exact Hle].
  exfalso. rewrite (Qabs_pos (x - Binary64.round x)), (Qabs_pos (x - a)) in Hn by lra.
  lra.
Qed.

Lemma round_id x :
  (0 <= x)%Q -> Binary64.representable x -> (Binary64.round x == x)%Q.
Proof.
  intros Hx Hr.
  pose proof (round_le x x Hx Hr ltac:(lra)).
  pose proof (round_ge x x Hx Hr ltac:(lra)). lra.
Qed.

Lemma representable_int (n : Z) :
  Z.abs n < 2 ^ 53 -> Binary64.representable (inject_Z n).
Proof.
  intros H. exists n, 0. split; [lia |]. split; [exact H |].
  change (2 ^ 0)%Q with 1%Q. ring.
Qed.

Lemma representable_frac (m k : Z) (x : Q) :
  Z.abs m < 2 ^ 53 -> 0 <= k <= 1074 ->
  (x * inject_Z (2 ^ k) == inject_Z m)%Q -> Binary64.representable x.
Proof.
  intros Hm Hk Hx. exists m, (- k). split; [lia |]. split; [exact Hm |].
  rewrite <- Hx, <- pow2_int by lia.
  rewrite <- Qmult_assoc, <- pow2_add. replace (k + - k) with 0 by lia.
  change (2 ^ 0)%Q with 1%Q. ring.
Qed.

(** The test [is_double] against the grid. *)
Lemma is_double_representable x :
  Binary64.is_double x = true -> (0 <= x)%Q -> Binary64.representable x.
Proof.
  unfold Binary64.is_double. intros H Hx.
  apply andb_true_iff in H as [H _]. apply Qeq_bool_iff in H.
  destruct (round_representable x Hx) as (m & e & He & Hm & Hr).
  exists m, e. split; [exact He |]. split; [exact Hm |]. rewrite <- H. exact Hr.
Qed.

Lemma representable_is_double x :
  (0 <= x)%Q -> Binary64.representable x -> (x <= Binary64.max_value)%Q ->
  Binary64.is_double x = true.
Proof.
  intros Hx Hr Hmax. unfold Binary64.is_double. apply andb_true_iff. split.
  - apply Qeq_bool_iff. apply round_id; assumption.
  - apply Qle_bool_iff. rewrite Qabs_pos by exact Hx. exact Hmax.
Qed.

(** From [2^19] on, the doubles are multiples of [2^-33]. *)
Lemma double_grid p :
  Binary64.representable p -> (inject_Z (2 ^ 19) <= p)%Q ->
  exists j : Z, (p * inject_Z (2 ^ 33) == inject_Z j)%Q.
Proof.
  intros (m & e & He & Hm & Hp) Hlo.
  assert (He33 : -33 <= e).
  { destruct (Z_le_gt_dec (-33) e) as [? | Hgt]; [assumption | exfalso].
    assert (Hlt : (p < inject_Z (2 ^ 53) * 2 ^ (-34))%Q).
    { rewrite Hp.
      apply Qle_lt_trans with (inject_Z (Z.abs m) * 2 ^ e)%Q.
      - apply Qmult_le_compat_r; [rewrite <- Zle_Qle; lia | pose proof (pow2_pos e); lra].
      - apply Qlt_le_trans with (inject_Z (2 ^ 53) * 2 ^ e)%Q.
        + apply Qmult_lt_r; [apply pow2_pos | rewrite <- Zlt_Qlt; lia].
        + apply Qmult_le_l; [reflexivity | apply pow2_mono; lia]. }
    change (inject_Z (2 ^ 53) * 2 ^ (-34))%Q with ((2 ^ 53 # 1) * (1 # 2 ^ 34))%Q in Hlt.
    change (inject_Z (2 ^ 19)) with (2 ^ 19 # 1)%Q in Hlo.
    revert Hlt Hlo. generalize p. intros q Hlt Hlo.
    assert (Hc : ((2 ^ 53 # 1) * (1 # 2 ^ 34) == 2 ^ 19 # 1)%Q) by reflexivity.
    rewrite Hc in Hlt. lra. }
  exists (m * 2 ^ (e + 33)).
  rewrite Hp, inject_Z_mult, <- !pow2_int by lia.
  rewrite <- Qmult_assoc, <- pow2_add. reflexivity.
Qed.

(** A double below 1 is at most [1 - 2^-53]. *)
Lemma double_below_one r :
  Binary64.representable r -> (0 <= r)%Q -> (r < 1)%Q ->
  (r * inject_Z (2 ^ 53) <= inject_Z (2 ^ 53 - 1))%Q.
Proof.
  intros (m & e & He & Hm & Hr) H0 H1.
  destruct (Z_le_gt_dec (-53) e) as [Hge | Hlt].
  - (* r * 2^53 is the integer m * 2^(e+53), below 2^53 *)
    assert (E : (r * inject_Z (2 ^ 53) == inject_Z (m * 2 ^ (e + 53)))%Q).
    { rewrite Hr, inject_Z_mult, <- !pow2_int by lia.
      rewrite <- Qmult_assoc, <- pow2_add. reflexivity. }
    assert (Hlt : (r * inject_Z (2 ^ 53) < inject_Z (2 ^ 53))%Q).
    { setoid_replace (inject_Z (2 ^ 53)) with (1 * inject_Z (2 ^ 53))%Q
        using relation Qeq at 2 by ring.
      apply Qmult_lt_r; [reflexivity | exact H1]. }
    rewrite E in Hlt |- *. rewrite <- Zlt_Qlt in Hlt. rewrite <- Zle_Qle. lia.
  - assert (Hle : (r <= inject_Z (2 ^ 53) * 2 ^ (-54))%Q).
    { rewrite Hr.
      apply Qle_trans with (inject_Z (Z.abs m) * 2 ^ e)%Q.
      - apply Qmult_le_compat_r; [rewrite <- Zle_Qle; lia | pose proof (pow2_pos e); lra].
      - apply Qle_trans with (inject_Z (2 ^ 53) * 2 ^ e)%Q.
        + apply Qmult_le_compat_r; [rewrite <- Zle_Qle; lia | pose proof (pow2_pos e); lra].
        + apply Qmult_le_l; [reflexivity | apply pow2_mono; lia]. }
    assert (Hc : (inject_Z (2 ^ 53) * 2 ^ (-54) == 1 # 2)%Q) by reflexivity.
    rewrite Hc in Hle.
    change (inject_Z (2 ^ 53)) with (9007199254740992 # 1)%Q.
    change (inject_Z (2 ^ 53 - 1)) with (9007199254740991 # 1)%Q. lra.
Qed.

(** Rounding does not depend on how the rational is written, and it is
    monotone. *)
Lemma ilog2_unique x l :
  (2 ^ l <= x)%Q -> (x < 2 ^ (l + 1))%Q -> Binary64.ilog2 x = l.
Proof.
  intros H1 H2.
  assert (Hx : (0 < x)%Q) by (pose proof (pow2_pos l); lra).
  destruct (ilog2_spec x Hx) as [G1 G2]. set (k := Binary64.ilog2 x) in *.
  destruct (Z.lt_trichotomy k l) as [Hlt | [-> | Hgt]]; [exfalso | reflexivity | exfalso].
  - pose proof (pow2_mono (k + 1) l ltac:(lia)). lra.
  - pose proof (pow2_mono (l + 1) k ltac:(lia)). lra.
Qed.

Lemma rne_comp a b : (a == b)%Q -> Binary64.rne a = Binary64.rne b.
Proof.
  intros E. unfold Binary64.rne.
  assert (Ef : Qfloor a = Qfloor b) by (apply Qfloor_comp; exact E).
  rewrite Ef.
  assert (Ec : (a - inject_Z (Qfloor b) ?= 1 # 2)%Q = (b - inject_Z (Qfloor b) ?= 1 # 2)%Q).
  { apply Qcompare_comp; [rewrite E; reflexivity | reflexivity]. }
  rewrite Ec. reflexivity.
Qed.

Lemma round_comp x y : (x == y)%Q -> Binary64.round x = Binary64.round y.
Proof.
  intros E. unfold Binary64.round.
  assert (E0 : Qeq_bool x 0 = Qeq_bool y 0).
  { destruct (Qeq_bool y 0) eqn:Hy.
    - apply Qeq_bool_iff. apply Qeq_bool_iff in Hy. lra.
    - destruct (Qeq_bool x 0) eqn:Hx; [| reflexivity].
      apply Qeq_bool_iff in Hx. rewrite E in Hx. apply Qeq_bool_iff in Hx. congruence. }
  rewrite E0. destruct (Qeq_bool y 0) eqn:Hy; [reflexivity |].
  assert (Hne : ~ (y == 0)%Q) by (intros H; apply Qeq_bool_iff in H; congruence).
  assert (Eg : Binary64.grid x = Binary64.grid y).
  { unfold Binary64.grid.
    assert (Hpos : (0 < Qabs y)%Q).
    { pose proof (Qabs_nonneg y). destruct (Qeq_dec (Qabs y) 0) as [Z0 | Z0]; [| lra].
      exfalso. apply Hne. revert Z0. apply Qabs_case; intros; lra. }
    destruct (ilog2_spec (Qabs y) Hpos) as [G1 G2].
    assert (El : Binary64.ilog2 (Qabs x) = Binary64.ilog2 (Qabs y))
.
    { apply ilog2_unique.
      - rewrite E. exact G1.
      - assert (Ea : (Qabs x == Qabs y)%Q) by (apply Qabs_wd; exact E).
        rewrite Ea. exact G2. }
    rewrite El. reflexivity. }
  rewrite Eg. apply Qred_complete.
  assert (Es : (x / 2 ^ Binary64.grid y == y / 2 ^ Binary64.grid y)%Q)
    by (rewrite E; reflexivity).
  rewrite (rne_comp _ _ Es). reflexivity.
Qed.

Lemma round_mono x y :
  (0 <= x)%Q -> (x <= y)%Q -> (Binary64.round x <= Binary64.round y)%Q.
Proof.
  intros Hx Hxy.
  assert (Hy : (0 <= y)%Q) by lra.
  destruct (Qlt_le_dec (Binary64.round y) (Binary64.round x)) as [Hlt | Hle];
    [exfalso | exact Hle].
  pose proof (round_nearest x _ Hx (round_representable y Hy)) as N1.
  pose proof (round_nearest y _ Hy (round_representable x Hx)) as N2.
  set (a := Binary64.round x) in *. set (b := Binary64.round y) in *.
  assert (Hmx : (a + b <= 2 * x)%Q).
  { revert N1. apply (Qabs_case (x - a)); apply (Qabs_case (x - b)); intros; lra. }
  assert (Hmy : (2 * y <= a + b)%Q).
  { revert N2. apply (Qabs_case (y - b)); apply (Qabs_case (y - a)); intros; lra. }
  assert (E : (x == y)%Q) by lra.
  pose proof (round_comp x y E). subst a b. rewrite H in Hlt. lra.
Qed.

(** *** The generated code *)

(** With the argument 6 the bounds are 100000 and 999999 and the factor is
    900000, all of them exact. *)
Lemma genCode_value_6 r :
  genCode_value 6 r
  = Qfloor (Binary64.round (inject_Z 100000 + Binary64.round (r * inject_Z 900000))).
Proof.
  unfold genCode_value. cbv zeta.
  replace (Binary64.round (10 ^ (6 - 1))) with (inject_Z 100000)
    by (vm_compute; reflexivity).
  replace (Binary64.round (Binary64.round (10 ^ 6) - 1)) with (inject_Z 999999)
    by (vm_compute; reflexivity).
  replace (Binary64.round (Binary64.round (inject_Z 999999 - inject_Z 100000) + 1))
    with (inject_Z 900000) by (vm_compute; reflexivity).
  reflexivity.
Qed.

(** The computed integer stays within the six-digit range. *)
Lemma genCode_value_range r :
  Binary64.is_double r = true -> (0 <= r)%Q -> (r < 1)%Q ->
  100000 <= genCode_value 6 r <= 999999.
Proof.
  intros Hd H0 H1. rewrite genCode_value_6.
  pose proof (is_double_representable r Hd H0) as Hr.
  pose proof (double_below_one r Hr H0 H1) as Hmax.
  change (inject_Z (2 ^ 53 - 1)) with (9007199254740991 # 1)%Q in Hmax.
  change (inject_Z (2 ^ 53)) with (9007199254740992 # 1)%Q in Hmax.
  change (inject_Z 900000) with (900000 # 1)%Q in *.
  change (inject_Z 100000) with (100000 # 1)%Q in *.
  set (x := (r * (900000 # 1))%Q).
  assert (Hx0 : (0 <= x)%Q) by (unfold x; lra).
  set (p := Binary64.round x).
  (* the largest double below 900000 and the one below 1000000 *)
  set (b := (7730941132799999 # 8589934592)%Q).
  set (b2 := (8589934591999999 # 8589934592)%Q).
  assert (Hb : Binary64.representable b).
  { apply (representable_frac 7730941132799999 33); [reflexivity | lia | reflexivity]. }
  assert (Hb2 : Binary64.representable b2).
  { apply (representable_frac 8589934591999999 33); [reflexivity | lia | reflexivity]. }
  assert (Hp0 : (0 <= p)%Q).
  { apply round_ge; [exact Hx0 | apply (representable_int 0); reflexivity | exact Hx0]. }
  assert (Hpb : (p <= b)%Q).
  { destruct (Qlt_le_dec b p) as [Hlt | Hle]; [exfalso | exact Hle].
    pose proof (round_nearest x b Hx0 Hb) as Hnear. fold p in Hnear.
    assert (Hp9 : (p < 900000 # 1)%Q).
    { destruct (Qlt_le_dec p (900000 # 1)) as [? | Hge]; [assumption | exfalso].
      destruct (Qlt_le_dec b x) as [Hxb | Hxb].
      - rewrite (Qabs_neg (x - p)), (Qabs_pos (x - b)) in Hnear
          by (unfold b, x in *; lra).
        unfold b, x in *. lra.
      - rewrite (Qabs_neg (x - p)), (Qabs_neg (x - b)) in Hnear
          by (unfold b, x in *; lra).
        unfold b, x in *. lra. }
    destruct (double_grid p (round_representable x Hx0)) as [j Hj].
    { change (inject_Z (2 ^ 19)) with (524288 # 1)%Q. unfold b in Hlt. lra. }
    change (inject_Z (2 ^ 33)) with (8589934592 # 1)%Q in Hj.
    assert (Hj1 : (inject_Z 7730941132799999 < inject_Z j)%Q).
    { rewrite <- Hj. unfold b in Hlt.
      change (inject_Z 7730941132799999) with (7730941132799999 # 1)%Q. lra. }
    assert (Hj2 : (inject_Z j < inject_Z 7730941132800000)%Q).
    { rewrite <- Hj.
      change (inject_Z 7730941132800000) with (7730941132800000 # 1)%Q. lra. }
    rewrite <- Zlt_Qlt in Hj1, Hj2. lia. }
  set (s := Binary64.round ((100000 # 1) + p)).
  assert (Hs1 : (100000 # 1 <= s)%Q).
  { apply round_ge; [lra | apply (representable_int 100000); reflexivity | lra]. }
  assert (Hs2 : (s <= b2)%Q).
  { apply round_le; [lra | exact Hb2 | unfold b, b2 in *; lra]. }
  split.
  - apply Qfloor_resp_le in Hs1. exact Hs1.
  - assert (Hlt : (s < inject_Z 1000000)%Q).
    { change (inject_Z 1000000) with (1000000 # 1)%Q. unfold b2 in Hs2. lra. }
    pose proof (Qfloor_le s) as Hf.
    assert (Qfloor s < 1000000).
    { rewrite Zlt_Qlt. eapply Qle_lt_trans; eassumption. }
    lia.
Qed.

(** Between two integers that enclose the exact sum, so does the computed one. *)
Lemma genCode_value_between r (lo hi : Z) :
  (0 <= r)%Q -> 100000 <= lo -> hi <= 1000001 ->
  (inject_Z lo <= inject_Z 100000 + r * inject_Z 900000)%Q ->
  (inject_Z 100000 + r * inject_Z 900000 <= inject_Z hi)%Q ->
  (inject_Z lo <= Binary64.round (inject_Z 100000 + Binary64.round (r * inject_Z 900000)))%Q
  /\ (Binary64.round (inject_Z 100000 + Binary64.round (r * inject_Z 900000))
      <= inject_Z hi)%Q.
Proof.
  intros H0 Hlo Hhi H1 H2.
  assert (Hlh : lo <= hi) by (rewrite Zle_Qle; lra).
  assert (Hd : forall k, 0 <= k <= 1000001 -> Binary64.representable (inject_Z k)).
  { intros k Hk. apply representable_int. change (2 ^ 53) with 9007199254740992. lia. }
  set (x := (r * inject_Z 900000)%Q) in *.
  assert (Hx0 : (0 <= x)%Q).
  { unfold x. change (inject_Z 900000) with (900000 # 1)%Q. lra. }
  assert (Hp0 : (0 <= Binary64.round x)%Q).
  { apply round_ge; [exact Hx0 | apply (Hd 0); lia | exact Hx0]. }
  assert (Hp1 : (inject_Z (lo - 100000) <= Binary64.round x)%Q).
  { apply round_ge; [exact Hx0 | apply Hd; lia |].
    unfold Zminus. rewrite inject_Z_plus, inject_Z_opp. lra. }
  assert (Hp2 : (Binary64.round x <= inject_Z (hi - 100000))%Q).
  { apply round_le; [exact Hx0 | apply Hd; lia |].
    unfold Zminus. rewrite inject_Z_plus, inject_Z_opp. lra. }
  unfold Zminus in Hp1, Hp2. rewrite inject_Z_plus, inject_Z_opp in Hp1, Hp2.
  assert (Hc : (0 <= inject_Z 100000)%Q) by discriminate.
  split.
  - apply round_ge; [lra | apply Hd; lia | lra].
  - apply round_le; [lra | apply Hd; lia | lra].
Qed.

(** The computed value is the exact one or its successor. *)
Lemma genCode_value_near_exact r :
  (0 <= r)%Q -> (r < 1)%Q ->
  let n0 := Qfloor (inject_Z 100000 + r * inject_Z 900000) in
  n0 <= genCode_value 6 r <= n0 + 1.
Proof.
  intros H0 H1 n0.
  pose proof (Qfloor_le (inject_Z 100000 + r * inject_Z 900000)) as Hf1.
  pose proof (Qlt_floor (inject_Z 100000 + r * inject_Z 900000)) as Hf2.
  fold n0 in Hf1, Hf2.
  assert (Hn0 : 100000 <= n0 < 1000000).
  { split.
    - change 100000 with (Qfloor (inject_Z 100000)). apply Qfloor_resp_le.
      change (inject_Z 900000) with (900000 # 1)%Q. lra.
    - rewrite Zlt_Qlt. eapply Qle_lt_trans; [exact Hf1 |].
      change (inject_Z 900000) with (900000 # 1)%Q.
      change (inject_Z 100000) with (100000 # 1)%Q.
      change (inject_Z 1000000) with (1000000 # 1)%Q. lra. }
  destruct (genCode_value_between r n0 (n0 + 1) H0 ltac:(lia) ltac:(lia) Hf1
              (Qlt_le_weak _ _ Hf2)) as [Hs1 Hs2].
  rewrite genCode_value_6. split.
  - apply Qfloor_resp_le in Hs1. rewrite Qfloor_Z in Hs1. exact Hs1.
  - apply Qfloor_resp_le in Hs2. rewrite Qfloor_Z in Hs2. exact Hs2.
Qed.

(** On the first half of its interval, the value is the exact one. *)
Lemma genCode_value_first_half r v :
  100000 <= v <= 999999 ->
  ((v - 100000) # 900000 <= r)%Q ->
  (r <= (2 * (v - 100000) + 1) # 1800000)%Q ->
  genCode_value 6 r = v.
Proof.
  intros Hv Hlo Hhi.
  assert (H0 : (0 <= r)%Q).
  { eapply Qle_trans; [| exact Hlo]. unfold Qle. cbn. lia. }
  set (x := (r * inject_Z 900000)%Q).
  assert (Hx1 : (inject_Z (v - 100000) <= x)%Q).
  { assert (E : (inject_Z (v - 100000)
                 == ((v - 100000) # 900000) * inject_Z 900000)%Q)
      by (unfold Qeq, Qmult, inject_Z; cbn; lia).
    rewrite E. unfold x. apply Qmult_le_compat_r; [exact Hlo | discriminate]. }
  assert (Hx2 : (x <= inject_Z (2 * (v - 100000) + 1) * (1 # 2))%Q).
  { assert (E : (inject_Z (2 * (v - 100000) + 1) * (1 # 2)
                 == ((2 * (v - 100000) + 1) # 1800000) * inject_Z 900000)%Q)
      by (unfold Qeq, Qmult, inject_Z; cbn; lia).
    rewrite E. unfold x. apply Qmult_le_compat_r; [exact Hhi | discriminate]. }
  assert (Hx0 : (0 <= x)%Q).
  { eapply Qle_trans; [| exact Hx1]. rewrite <- (Zle_Qle 0). lia. }
  set (h := (inject_Z (2 * (v - 100000) + 1) * (1 # 2))%Q) in *.
  assert (Hh : Binary64.representable h).
  { apply (representable_frac (2 * (v - 100000) + 1) 1);
      [change (2 ^ 53) with 9007199254740992; lia | lia |].
    unfold h. change (inject_Z (2 ^ 1)) with 2%Q. ring. }
  assert (Hd : forall k, 0 <= k <= 1000001 -> Binary64.representable (inject_Z k)).
  { intros k Hk. apply representable_int. change (2 ^ 53) with 9007199254740992. lia. }
  assert (Hp1 : (inject_Z (v - 100000) <= Binary64.round x)%Q).
  { apply round_ge; [exact Hx0 | apply Hd; lia | exact Hx1]. }
  assert (Hp2 : (Binary64.round x <= h)%Q).
  { apply round_le; [exact Hx0 | exact Hh | exact Hx2]. }
  set (h2 := (inject_Z (2 * v + 1) * (1 # 2))%Q).
  assert (Hh2 : Binary64.representable h2).
  { apply (representable_frac (2 * v + 1) 1);
      [change (2 ^ 53) with 9007199254740992; lia | lia |].
    unfold h2. change (inject_Z (2 ^ 1)) with 2%Q. ring. }
  assert (Ehh : (h2 == inject_Z 100000 + h)%Q).
  { unfold h, h2. rewrite !inject_Z_plus, !inject_Z_mult.
    unfold Zminus. rewrite inject_Z_plus, inject_Z_opp.
    change (inject_Z 100000) with (100000 # 1)%Q.
    change (inject_Z 2) with 2%Q. change (inject_Z 1) with 1%Q. ring. }
  assert (Ev : (inject_Z v == inject_Z 100000 + inject_Z (v - 100000))%Q).
  { unfold Zminus. rewrite inject_Z_plus, inject_Z_opp. ring. }
  assert (Hp0 : (0 <= Binary64.round x)%Q).
  { eapply Qle_trans; [| exact Hp1]. rewrite <- (Zle_Qle 0). lia. }
  assert (Hc : (0 <= inject_Z 100000)%Q) by discriminate.
  assert (Hs1 : (inject_Z v <= Binary64.round (inject_Z 100000 + Binary64.round x))%Q).
  { apply round_ge; [lra | apply Hd; lia | lra]. }
  assert (Hs2 : (Binary64.round (inject_Z 100000 + Binary64.round x) <= h2)%Q).
  { apply round_le; [lra | exact Hh2 | lra]. }
  rewrite genCode_value_6. fold x. apply Qfloor_bounds. split; [exact Hs1 |].
  eapply Qle_lt_trans; [exact Hs2 |].
  unfold h2. rewrite !inject_Z_plus, inject_Z_mult.
  change (inject_Z 2) with 2%Q. change (inject_Z 1) with 1%Q. lra.
Qed.

(** Every value is produced by some double. *)
Lemma genCode_value_onto v :
  100000 <= v <= 999999 ->
  exists r, Binary64.is_double r = true /\ (0 <= r)%Q /\ (r < 1)%Q /\ genCode_value 6 r = v.
Proof.
  intros Hv.
  (* the smallest multiple of 2^-53 at or above (v - 100000) / 900000 *)
  set (m := ((v - 100000) * 2 ^ 53 + 899999) / 900000).
  assert (Hm : (v - 100000) * 2 ^ 53 <= 900000 * m < (v - 100000) * 2 ^ 53 + 900000).
  { unfold m. change (2 ^ 53) with 9007199254740992.
    Z.div_mod_to_equations. lia. }
  change (2 ^ 53) with 9007199254740992 in Hm. clearbody m.
  assert (Hm0 : 0 <= m < 9007199254740992) by lia.
  set (r := (m # 9007199254740992)%Q).
  assert (Hr0 : (0 <= r)%Q) by (unfold r, Qle; cbn; lia).
  assert (Hr1 : (r < 1)%Q) by (unfold r, Qlt; cbn; lia).
  exists r. split; [| split; [exact Hr0 | split; [exact Hr1 |]]].
  - apply representable_is_double; [exact Hr0 | |].
    + apply (representable_frac m 53); [change (2 ^ 53) with 9007199254740992; lia | lia |].
      unfold r. unfold Qeq, Qmult, inject_Z. cbn. lia.
    + apply Qle_trans with 1%Q; [lra | discriminate].
  - apply genCode_value_first_half; [exact Hv | |]; unfold r, Qle; cbn [Qnum Qden]; lia.
Qed.

(** The computed value does not decrease when [r] grows. *)
Lemma genCode_value_mono r r' :
  (0 <= r)%Q -> (r <= r')%Q -> genCode_value 6 r <= genCode_value 6 r'.
Proof.
  intros H0 Hle. rewrite !genCode_value_6. apply Qfloor_resp_le.
  assert (Hc : (0 <= inject_Z 900000)%Q) by discriminate.
  assert (Hx : (0 <= r * inject_Z 900000)%Q) by (apply Qmult_le_0_compat; assumption).
  assert (Hp : (Binary64.round (r * inject_Z 900000)
                <= Binary64.round (r' * inject_Z 900000))%Q).
  { apply round_mono; [exact Hx |]. apply Qmult_le_compat_r; assumption. }
  assert (Hp0 : (0 <= Binary64.round (r * inject_Z 900000))%Q).
  { apply round_ge; [exact Hx | apply (representable_int 0); reflexivity | exact Hx]. }
  apply round_mono.
  - change (inject_Z 100000) with (100000 # 1)%Q. lra.
  - lra.
Qed.




(** * The rest of the service *)

(** ** Normal forms of emails *)

Lemma lower_char_ws c : JsString.is_ws (JsString.lower_char c) = JsString.is_ws c.
Proof. destruct c as [[] [] [] [] [] [] [] []]; reflexivity. Qed.

Lemma lower_char_idem c :
  JsString.lower_char (JsString.lower_char c) = JsString.lower_char c.
Proof. destruct c as [[] [] [] [] [] [] [] []]; reflexivity. Qed.

Lemma toLowerCase_cons c r :
  JsString.toLowerCase (String c r)
  = String (JsString.lower_char c) (JsString.toLowerCase r).
Proof. reflexivity. Qed.

Lemma toLowerCase_idem s :
  JsString.toLowerCase (JsString.toLowerCase s) = JsString.toLowerCase s.
Proof.
  induction s as [| c r IH]; [reflexivity |].
  rewrite !toLowerCase_cons, lower_char_idem, IH. reflexivity.
Qed.

Lemma trimStart_lower s :
  JsString.trimStart (JsString.toLowerCase s)
  = JsString.toLowerCase (JsString.trimStart s).
Proof.
  induction s as [| c r IH]; [reflexivity |].
  rewrite toLowerCase_cons. cbn [JsString.trimStart]. rewrite lower_char_ws.
  destruct (JsString.is_ws c); [exact IH | rewrite toLowerCase_cons; reflexivity].
Qed.

Lemma trimEnd_lower s :
  JsString.trimEnd (JsString.toLowerCase s)
  = JsString.toLowerCase (JsString.trimEnd s).
Proof.
  induction s as [| c r IH]; [reflexivity |].
  rewrite toLowerCase_cons. cbn [JsString.trimEnd]. rewrite IH, lower_char_ws.
  destruct (JsString.trimEnd r); rewrite ?toLowerCase_cons;
    [destruct (JsString.is_ws c) |]; reflexivity.
Qed.

Lemma trim_lower s :
  JsString.trim (JsString.toLowerCase s) = JsString.toLowerCase (JsString.trim s).
Proof. unfold JsString.trim. rewrite trimStart_lower, trimEnd_lower. reflexivity. Qed.

Lemma trimEnd_idem s : JsString.trimEnd (JsString.trimEnd s) = JsString.trimEnd s.
Proof.
  induction s as [| c r IH]; [reflexivity |].
  cbn [JsString.trimEnd].
  destruct (JsString.trimEnd r) as [| c' t] eqn:Ht.
  - destruct (JsString.is_ws c) eqn:Hc; [reflexivity |].
    cbn [JsString.trimEnd]. rewrite Hc. reflexivity.
  - change (JsString.trimEnd (String c (String c' t)))
      with (match JsString.trimEnd (String c' t) with
            | EmptyString =>
                if JsString.is_ws c then EmptyString else String c EmptyString
            | r' => String c r'
            end).
    rewrite IH. reflexivity.
Qed.

(** A string that does not start with white space keeps its first code
    unit when its end is trimmed. *)
Lemma trimStart_trimEnd s :
  JsString.trimStart s = s -> JsString.trimStart (JsString.trimEnd s) = JsString.trimEnd s.
Proof.
  destruct s as [| c r]; [reflexivity |].
  cbn [JsString.trimStart JsString.trimEnd].
  destruct (JsString.is_ws c) eqn:Hc.
  - intros H. exfalso.
    assert (Hl : forall t, (String.length (JsString.trimStart t) <= String.length t)%nat).
    { induction t as [| a t IHt]; cbn [JsString.trimStart String.length]; [lia |].
      destruct (JsString.is_ws a); cbn [String.length]; lia. }
    pose proof (Hl r) as Hr. rewrite H in Hr. cbn [String.length] in Hr. lia.
  - intros _. destruct (JsString.trimEnd r); cbn [JsString.trimStart];
      rewrite Hc; reflexivity.
Qed.

Lemma trimStart_idem s :
  JsString.trimStart (JsString.trimStart s) = JsString.trimStart s.
Proof.
  induction s as [| c r IH]; [reflexivity |].
  cbn [JsString.trimStart]. destruct (JsString.is_ws c) eqn:Hc; [exact IH |].
  cbn [JsString.trimStart]. rewrite Hc. reflexivity.
Qed.

Lemma trim_idem s : JsString.trim (JsString.trim s) = JsString.trim s.
Proof.
  unfold JsString.trim.
  rewrite (trimStart_trimEnd _ (trimStart_idem s)). apply trimEnd_idem.
Qed.

Lemma normalize_idem e : normalize (normalize e) = normalize e.
Proof.
  unfold normalize. rewrite trim_lower, trim_idem. apply toLowerCase_idem.
Qed.

(** X1. Normalizing an email ([trim], then [toLowerCase]) twice is the same as
    normalizing it once, and a normalized email is a fixed point of [trim]
    and of [toLowerCase]: the key a row is stored under is the key every
    later request computes. *)
Theorem normalize_canonical :
  forall e,
    normalize (normalize e) = normalize e
    /\ JsString.trim (normalize e) = normalize e
    /\ JsString.toLowerCase (normalize e) = normalize e.
Proof.
  intros e. split; [apply normalize_idem |]. unfold normalize. split.
  - rewrite trim_lower, trim_idem. reflexivity.
  - apply toLowerCase_idem.
Qed.

(** ** The strings [isValidEmail] accepts *)

Lemma matches_seq_inv a b s :
  Regex.matches (Regex.Seq a b) s ->
  exists s1 s2, s = s1 +:+ s2 /\ Regex.matches a s1 /\ Regex.matches b s2.
Proof. intros H. inversion H; subst. eauto. Qed.

Lemma matches_cls_inv p s :
  Regex.matches (Regex.Cls p) s -> exists c, s = String c "" /\ p c = true.
Proof. intros H. inversion H; subst. eauto. Qed.

Lemma matches_star_cls p s :
  Regex.matches (Regex.Star (Regex.Cls p)) s <-> all_chars p s = true.
Proof.
  split.
  - intros H. remember (Regex.Star (Regex.Cls p)) as r eqn:Hr.
    induction H as [| | | | | a | a s1 s2 Ha _ Hs IHs]; try discriminate Hr.
    + reflexivity.
    + injection Hr as ->. apply matches_cls_inv in Ha as (c & -> & Hc).
      change (String c "" +:+ s2) with (String c s2). cbn [all_chars].
      rewrite Hc. apply IHs. reflexivity.
  - induction s as [| c r IH]; cbn [all_chars]; intros H.
    + constructor.
    + apply andb_true_iff in H as [Hc Hr].
      change (String c r) with (String c "" +:+ r).
      constructor; [constructor; exact Hc | apply IH; exact Hr].
Qed.

Lemma matches_plus_cls p s :
  Regex.matches (Regex.Plus (Regex.Cls p)) s <-> s <> "" /\ all_chars p s = true.
Proof.
  unfold Regex.Plus. split.
  - intros H. apply matches_seq_inv in H as (s1 & s2 & -> & H1 & H2).
    apply matches_cls_inv in H1 as (c & -> & Hc).
    apply matches_star_cls in H2. change (String c "" +:+ s2) with (String c s2).
    cbn [all_chars]. rewrite Hc, H2. split; [discriminate | reflexivity].
  - intros [Hne H]. destruct s as [| c r]; [congruence |].
    cbn [all_chars] in H. apply andb_true_iff in H as [Hc Hr].
    change (String c r) with (String c "" +:+ r).
    constructor; [constructor; exact Hc | apply matches_star_cls; exact Hr].
Qed.

Lemma is_at_eq c : JsString.is_at c = true <-> c = "@"%char.
Proof.
  split; [| intros ->; reflexivity].
  destruct c as [[] [] [] [] [] [] [] []]; intros H; try discriminate H; reflexivity.
Qed.

Lemma is_dot_eq c : JsString.is_dot c = true <-> c = "."%char.
Proof.
  split; [| intros ->; reflexivity].
  destruct c as [[] [] [] [] [] [] [] []]; intros H; try discriminate H; reflexivity.
Qed.

Lemma emailRegex_shape s :
  Regex.test Regex.emailRegex s = true
  <-> exists l d t,
        s = l +:+ "@" +:+ d +:+ "." +:+ t /\ plain l /\ plain d /\ plain t.
Proof.
  rewrite test_matches. unfold Regex.emailRegex, plain. split.
  - intros H.
    apply matches_seq_inv in H as (l & s1 & -> & Hl & H).
    apply matches_seq_inv in H as (a & s2 & -> & Ha & H).
    apply matches_seq_inv in H as (d & s3 & -> & Hd & H).
    apply matches_seq_inv in H as (o & t & -> & Ho & Ht).
    apply matches_cls_inv in Ha as (ca & -> & Hca). apply is_at_eq in Hca as ->.
    apply matches_cls_inv in Ho as (co & -> & Hco). apply is_dot_eq in Hco as ->.
    apply matches_plus_cls in Hl, Hd, Ht.
    exists l, d, t. repeat split; tauto.
  - intros (l & d & t & -> & Hl & Hd & Ht).
    apply matches_plus_cls in Hl, Hd, Ht.
    constructor; [exact Hl |].
    constructor; [constructor; reflexivity |].
    constructor; [exact Hd |].
    constructor; [constructor; reflexivity | exact Ht].
Qed.

Lemma split_head_local l rest :
  all_chars Regex.not_ws_at l = true ->
  JsString.split_head JsString.is_at (l +:+ "@" +:+ rest) = l.
Proof.
  induction l as [| c r IH]; [reflexivity |].
  change (String c r +:+ "@" +:+ rest) with (String c (r +:+ "@" +:+ rest)).
  cbn [all_chars JsString.split_head]. intros H.
  apply andb_true_iff in H as [Hc Hr]. unfold Regex.not_ws_at in Hc.
  apply andb_true_iff in Hc as [_ Hc]. apply negb_true_iff in Hc.
  rewrite Hc, (IH Hr). reflexivity.
Qed.

(** X2. [isValidEmail] accepts exactly the strings [l@d.t] whose parts
    are non-empty runs without white space or [@], of at most 254 code units
    overall and at most 64 before the [@]; it rejects what is not a string. *)
Theorem isValidEmail_shape :
  (forall s,
      isValidEmail (JStr s) = true
      <-> exists l d t,
            s = l +:+ "@" +:+ d +:+ "." +:+ t
            /\ plain l /\ plain d /\ plain t
            /\ JsString.len s <= 254 /\ JsString.len l <= 64)
  /\ (forall v, is_string v = false -> isValidEmail v = false).
Proof.
  split.
  - intros s. unfold isValidEmail. split.
    + destruct (truthy (JStr s)); cbn [negb]; [| discriminate].
      destruct (Regex.test Regex.emailRegex s) eqn:Hre; cbn [negb]; [| discriminate].
      apply emailRegex_shape in Hre as (l & d & t & -> & Hl & Hd & Ht).
      rewrite (split_head_local l _ (proj2 Hl)).
      destruct (Z.gtb_spec (JsString.len (l +:+ "@" +:+ d +:+ "." +:+ t)) 254);
        [discriminate |].
      destruct (Z.gtb_spec (JsString.len l) 64); [discriminate |].
      intros _. exists l, d, t.
      split; [reflexivity |]. repeat (split; [assumption |]). assumption.
    + intros (l & d & t & -> & Hl & Hd & Ht & H254 & H64).
      assert (Hre : Regex.test Regex.emailRegex (l +:+ "@" +:+ d +:+ "." +:+ t) = true)
        by (apply emailRegex_shape; exists l, d, t; tauto).
      rewrite Hre, (split_head_local l _ (proj2 Hl)).
      assert (Htr : truthy (JStr (l +:+ "@" +:+ d +:+ "." +:+ t)) = true)
        by (destruct l; [destruct Hl; congruence | reflexivity]).
      rewrite Htr. cbn [negb].
      destruct (Z.gtb_spec (JsString.len (l +:+ "@" +:+ d +:+ "." +:+ t)) 254);
        [lia |].
      destruct (Z.gtb_spec (JsString.len l) 64); [lia | reflexivity].
  - intros v Hv. destruct v; try reflexivity. discriminate Hv.
Qed.

Lemma isValidEmail_mailer s :
  isValidEmail (JStr s) = true -> Mailer.isValidEmail s = true.
Proof.
  unfold isValidEmail, Mailer.isValidEmail.
  destruct (truthy (JStr s)); [| discriminate].
  destruct (Regex.test Regex.emailRegex s); [reflexivity | discriminate].
Qed.

(** ** Small facts about values, codes and rows *)

Lemma eqb_false_ne (s t : string) : String.eqb s t = false -> s <> t.
Proof. intros H. apply String.eqb_neq. exact H. Qed.

Lemma truthy_str s : s <> "" -> truthy (JStr s) = true.
Proof. intros H. destruct s; [congruence | reflexivity]. Qed.

Lemma len_nonempty s : 0 < JsString.len s -> s <> "".
Proof. intros H ->. cbv in H. discriminate. Qed.

Lemma Qle_bool_inject k n : Qle_bool (inject_Z k) (inject_Z n) = (k <=? n)%Z.
Proof. unfold Qle_bool, inject_Z. cbn [Qnum Qden]. rewrite !Z.mul_1_r. reflexivity. Qed.

Lemma isValidPassword_str s :
  isValidPassword (JStr s) = Ret (6 <=? JsString.len s)%Z.
Proof.
  unfold isValidPassword, js_ge, js_length, js_toNumber.
  rewrite Qle_bool_inject. destruct s; reflexivity.
Qed.

Lemma isValidPassword_arr l :
  isValidPassword (JArr l) = Ret (6 <=? Z.of_nat (length l))%Z.
Proof.
  unfold isValidPassword, js_ge, js_length, js_toNumber.
  rewrite Qle_bool_inject. reflexivity.
Qed.

Lemma digit_not_ws d : 0 <= d < 10 -> JsString.is_ws (JsNumber.digit_char d) = false.
Proof.
  intros H.
  assert (d = 0 \/ d = 1 \/ d = 2 \/ d = 3 \/ d = 4 \/ d = 5 \/ d = 6 \/ d = 7
          \/ d = 8 \/ d = 9) as Hd by lia.
  repeat (destruct Hd as [-> | Hd]; [reflexivity |]). subst. reflexivity.
Qed.

Lemma trim_six n : JsString.trim (six n) = six n.
Proof.
  unfold six, JsString.trim. cbn [JsString.trimStart].
  rewrite digit_not_ws by (apply Z.mod_pos_bound; lia).
  cbn [JsString.trimEnd].
  rewrite !digit_not_ws by (apply Z.mod_pos_bound; lia). reflexivity.
Qed.

Lemma genCode_six r :
  Binary64.is_double r = true -> (0 <= r)%Q -> (r < 1)%Q ->
  exists n, 100000 <= n <= 999999 /\ genCode_of 6 r = six n.
Proof.
  intros Hd H0 H1. pose proof (genCode_value_range r Hd H0 H1) as Hn.
  exists (genCode_value 6 r). split; [exact Hn |].
  unfold genCode_of. apply toString_six. exact Hn.
Qed.

(** A generated code is its own trimmed form and has the format that the
    verify and reset handlers check. *)
Lemma genCode_trimmed r :
  Binary64.is_double r = true -> (0 <= r)%Q -> (r < 1)%Q ->
  JsString.trim (genCode_of 6 r) = genCode_of 6 r
  /\ Regex.test Regex.codeRegex (genCode_of 6 r) = true.
Proof.
  intros Hd H0 H1. destruct (genCode_six r Hd H0 H1) as (n & _ & ->).
  split; [apply trim_six | apply six_code].
Qed.

Lemma startsWith_bearer auth :
  JsString.startsWith "Bearer " auth = true -> auth = "Bearer " +:+ JsString.slice 7 auth.
Proof.
  intros H.
  do 7 (destruct auth as [| ?c auth]; [discriminate H |];
        cbn [JsString.startsWith] in H; apply andb_true_iff in H as [?E H];
        apply Ascii.eqb_eq in E; subst).
  reflexivity.
Qed.

Lemma find_by_id_Some uid (t : gmap string User) u :
  find_by_id uid t = Some u -> exists k, t !! k = Some u /\ id u = uid.
Proof.
  unfold find_by_id. destruct (List.find _ _) as [[k u0] |] eqn:Hf; [| discriminate].
  intros [= <-]. apply find_some in Hf as [Hin Hid].
  apply list_elem_of_In, elem_of_map_to_list in Hin.
  exists k. split; [exact Hin |]. cbn [snd] in Hid. lia.
Qed.

Lemma find_by_id_None uid (t : gmap string User) k u :
  find_by_id uid t = None -> t !! k = Some u -> id u <> uid.
Proof.
  unfold find_by_id. destruct (List.find _ _) as [kv |] eqn:Hf; [discriminate |].
  intros _ Hl E.
  apply elem_of_map_to_list, list_elem_of_In in Hl.
  pose proof (find_none _ _ Hf _ Hl) as Hn. cbn [snd] in Hn. lia.
Qed.

Lemma find_by_id_unique (t : Table) k u :
  unique_ids t -> rows t !! k = Some u -> find_by_id (id u) (rows t) = Some u.
Proof.
  intros Hu Hl. destruct (find_by_id (id u) (rows t)) as [u0 |] eqn:Hf.
  - apply find_by_id_Some in Hf as (k0 & Hl0 & Hid).
    pose proof (Hu _ _ _ _ Hl0 Hl Hid) as ->. congruence.
  - exfalso. exact (find_by_id_None _ _ _ _ Hf Hl eq_refl).
Qed.

Lemma demo_keyed : keyed_by_email (users Demo.w_verified).
Proof.
  intros k u Hl. unfold Demo.w_verified in Hl. cbn [users rows] in Hl.
  apply lookup_singleton_Some in Hl as [<- <-]. reflexivity.
Qed.

Lemma demo_unique : unique_ids (users Demo.w_verified).
Proof.
  intros k1 k2 u1 u2 H1 H2 _. unfold Demo.w_verified in *. cbn [users rows] in *.
  apply lookup_singleton_Some in H1 as [<- _].
  apply lookup_singleton_Some in H2 as [<- _]. reflexivity.
Qed.

(** ** The guard *)

(** The guard always answers or calls [next()], and never writes. *)
Lemma authMiddleware_total cfg cr auth env w tr :
  exists g tr',
    authMiddleware cfg cr auth env (mkSt w tr) = (Ret g, mkSt w tr')
    /\ forall r, g = Respond r -> status r <> 200.
Proof.
  unfold authMiddleware. mred. repeat mmatch.
  all: eexists _, _; split; [reflexivity |]; intros r0 [= <-]; discriminate.
Qed.

(** X10. The guard writes nothing, always answers or calls [next()], and
    calls [next()] only for a bearer token that verifies under the secret,
    has not expired and carries a [jti] that is not revoked, no marker
    being stored for it that has not expired (or whose revocation lookup
    failed). *)
Theorem authMiddleware_next_sound cfg cr auth env w tr :
  let out := authMiddleware cfg cr auth env (mkSt w tr) in
  world (snd out) = w
  /\ (exists g, fst out = Ret g)
  /\ forall p,
      fst out = Ret (Next p) ->
      exists token j,
        auth = Some ("Bearer " +:+ token) /\ token <> ""
        /\ jwt_decode cr (jwtSecret cfg) token = Some p
        /\ (forall e, exp p = Some e -> now env < e)
        /\ jti p = Some j /\ j <> ""
        /\ (get_fails (faults env) = true
            \/ forall t v,
                 redis w !! ("black_" +:+ j) = Some (t, v) -> now env < t -> v = "").
Proof.
  cbv zeta. unfold authMiddleware. mred. repeat mmatch.
  all: split; [reflexivity |]; split; [eauto |]; intros p0 Hp; try discriminate Hp.
  all: injection Hp as <-.
  all: match goal with
       | Hs : JsString.startsWith "Bearer " ?s = true,
         Hj : jti _ = Some ?j |- _ =>
           exists (JsString.slice 7 s), j;
           split; [f_equal; apply startsWith_bearer; exact Hs |]
       end.
  all: split; [apply eqb_false_ne; assumption |].
  all: split; [assumption |].
  all: split;
    [intros e He;
     first [ congruence
           | match goal with
             | Hz : exp _ = Some ?z, Hle : (?z <=? _)%Z = false |- _ =>
                 rewrite Hz in He; injection He as <-; apply Z.leb_gt in Hle; lia
             end ] |].
  all: split; [assumption |].
  all: split; [apply eqb_false_ne; assumption |].
  all: first [left; reflexivity | right; intros t v Hl Hlive].
  all: match goal with
       | H : redis_read _ _ _ = _ |- _ =>
           rewrite (redis_read_live _ _ _ _ _ Hl Hlive) in H;
           try discriminate H; injection H as <-
       end.
  all: apply String.eqb_eq; assumption.
Qed.

Lemma authMiddleware_expired cfg cr env w tr token p e :
  token <> "" ->
  jwt_decode cr (jwtSecret cfg) token = Some p ->
  exp p = Some e ->
  e <= now env ->
  authMiddleware cfg cr (Some ("Bearer " +:+ token)) env (mkSt w tr)
  = (Ret (Respond (errorResponse 401 "Token expired")), mkSt w tr).
Proof.
  intros Htok Hdec Hexp Hle. unfold authMiddleware.
  destruct (bearer_prefix token) as (-> & -> & ->).
  rewrite (eqb_empty_false _ Htok). mred. rewrite Hdec, Hexp.
  destruct (Z.leb_spec e (now env)); [| lia]. reflexivity.
Qed.

(** ** Login and the guard *)

Lemma login_success cfg cr req_body env w tr e pw u :
  field req_body "email" = JStr e ->
  field req_body "password" = JStr pw ->
  pw <> "" ->
  isValidEmail (JStr (normalize e)) = true ->
  findOne_fails (faults env) = false ->
  rows (users w) !! normalize e = Some u ->
  verified u = true ->
  bcrypt_compare_fn cr pw (password_hash u) = true ->
  login cfg cr req_body env (mkSt w tr)
  = (Ret (res_json
            (JObj [("token",
                    JStr (jwt_encode cr (jwtSecret cfg)
                            (mkPayload (id u) (email u) (Some (uuid env))
                               (Some (now env))
                               (Some (now env + jwtExpiresIn cfg)))))])),
     mkSt w (tr ++ [EvFindOne (normalize e); EvBcryptCompare])).
Proof.
  intros He Hp Hne Hv Hf Hu Hver Hcmp.
  unfold login, normalize in *.
  rewrite He, Hp, (valid_email_truthy _ Hv), (truthy_str _ Hne). mred.
  rewrite Hv. mred. rewrite Hf. mred. rewrite Hu. mred. rewrite Hver. mred.
  rewrite Hcmp. rewrite <- app_assoc. reflexivity.
Qed.

Lemma login_unverified cfg cr req_body env w tr e u :
  field req_body "email" = JStr e ->
  truthy (field req_body "password") = true ->
  isValidEmail (JStr (normalize e)) = true ->
  findOne_fails (faults env) = false ->
  rows (users w) !! normalize e = Some u ->
  verified u = false ->
  login cfg cr req_body env (mkSt w tr)
  = (Ret (errorResponse 403 "email not verified"),
     mkSt w (tr ++ [EvFindOne (normalize e)])).
Proof.
  intros He Hp Hv Hf Hu Hver. unfold login, normalize in *.
  rewrite He, Hp, (valid_email_truthy _ Hv). mred.
  rewrite Hv. mred. rewrite Hf. mred. rewrite Hu. mred. rewrite Hver.
  reflexivity.
Qed.

(** X9. The token a login issues carries the user's id and email, the
    fresh [jti] and the expiry [now + jwtExpiresIn].  The guard lets it
    through, with these claims, until the expiry unless it is revoked, and
    answers 401 "Token expired" from the expiry on. *)
Theorem login_token_passes_guard :
  forall cfg cr req_body env w tr e pw u,
    field req_body "email" = JStr e ->
    field req_body "password" = JStr pw ->
    pw <> "" ->
    isValidEmail (JStr (normalize e)) = true ->
    findOne_fails (faults env) = false ->
    rows (users w) !! normalize e = Some u ->
    verified u = true ->
    bcrypt_compare_fn cr pw (password_hash u) = true ->
    let claims := mkPayload (id u) (email u) (Some (uuid env)) (Some (now env))
                    (Some (now env + jwtExpiresIn cfg)) in
    let token := jwt_encode cr (jwtSecret cfg) claims in
    let out := login cfg cr req_body env (mkSt w tr) in
    fst out = Ret (res_json (JObj [("token", JStr token)]))
    /\ world (snd out) = w
    /\ (token <> "" ->
        uuid env <> "" ->
        jwt_decode cr (jwtSecret cfg) token = Some claims ->
        forall env2 w2 tr2,
          let guard := authMiddleware cfg cr (Some ("Bearer " +:+ token)) env2
                         (mkSt w2 tr2) in
          (now env2 < now env + jwtExpiresIn cfg ->
           get_fails (faults env2) = false ->
           redis w2 !! ("black_" +:+ uuid env) = None ->
           fst guard = Ret (Next claims))
          /\ (now env + jwtExpiresIn cfg <= now env2 ->
              fst guard = Ret (Respond (errorResponse 401 "Token expired")))).
Proof.
  intros cfg cr req_body env w tr e pw u He Hp Hne Hv Hf Hu Hver Hcmp
    claims token out. subst out.
  rewrite (login_success cfg cr req_body env w tr e pw u) by assumption.
  split; [reflexivity |]. split; [reflexivity |].
  intros Htok Hj Hdec env2 w2 tr2 guard. subst guard. split.
  - intros Hnow Hg Hnone.
    rewrite (authMiddleware_verified_token cfg cr env2 w2 tr2 token claims (uuid env));
      try assumption; try reflexivity.
    + rewrite Hg, (redis_read_None _ _ _ Hnone). reflexivity.
    + intros e0 [= <-]. exact Hnow.
  - intros Hnow.
    rewrite (authMiddleware_expired cfg cr env2 w2 tr2 token claims
               (now env + jwtExpiresIn cfg)); try assumption; reflexivity.
Qed.

Lemma login_token_passes_guard_witness :
  let out := Demo.run (login Demo.cfg Demo.cr
                (Demo.body2 "email" (JStr "a@b.com") "password" (JStr "secret1")))
               Demo.env0 Demo.w_verified in
  fst out = Ret (res_json (JObj [("token", JStr "change_this_secret.jti-1")]))
  /\ fst (Demo.run (authMiddleware Demo.cfg Demo.cr
                      (Some "Bearer change_this_secret.jti-1"))
            (mkEnv no_faults 87399 (1 # 2) "jti-2" "saltsalt") Demo.w_verified)
     = Ret (Next Demo.alice_claims).
Proof.
  destruct (login_token_passes_guard Demo.cfg Demo.cr
              (Demo.body2 "email" (JStr "a@b.com") "password" (JStr "secret1"))
              Demo.env0 Demo.w_verified [] "a@b.com" "secret1" (Demo.alice true)
              ltac:(reflexivity) ltac:(reflexivity) ltac:(discriminate)
              ltac:(reflexivity) ltac:(reflexivity) ltac:(reflexivity)
              ltac:(reflexivity) ltac:(reflexivity)) as (H1 & _ & H3).
  split; [exact H1 |].
  destruct (H3 ltac:(discriminate) ltac:(discriminate) ltac:(reflexivity)
              (mkEnv no_faults 87399 (1 # 2) "jti-2" "saltsalt") Demo.w_verified [])
    as (H4 & _).
  exact (H4 ltac:(simpl; lia) ltac:(reflexivity) ltac:(reflexivity)).
Defined.

(** ** Logout and the guard *)

(** X11. A logout whose marker write fails is answered [{ok: true}] but
    revokes nothing: the guard still lets the token through. *)
Theorem logout_write_failure_leaves_token_valid :
  forall cfg cr env1 env2 w tr token p j,
    token <> "" ->
    jwt_decode cr (jwtSecret cfg) token = Some p ->
    jti p = Some j ->
    j <> "" ->
    setEx_fails (faults env1) = true ->
    redis w !! ("black_" +:+ j) = None ->
    (forall e, exp p = Some e -> now env2 < e) ->
    let bearer := Some ("Bearer " +:+ token) in
    let out1 := logout cfg cr bearer env1 (mkSt w tr) in
    fst out1 = Ret (res_json ok_body)
    /\ world (snd out1) = w
    /\ fst (authMiddleware cfg cr bearer env2 (snd out1)) = Ret (Next p).
Proof.
  intros cfg cr env1 env2 w tr token p j Htok Hdec Hjti Hj Hs Hnone Hexp
    bearer out1. subst out1 bearer.
  rewrite (logout_verified_token cfg cr env1 w tr token p j) by assumption.
  rewrite Hs. cbn [fst snd world]. split; [reflexivity |]. split; [reflexivity |].
  rewrite (authMiddleware_verified_token cfg cr env2 _ _ token p j) by assumption.
  rewrite (redis_read_None _ _ _ Hnone). destruct (get_fails (faults env2)); reflexivity.
Qed.

Lemma logout_write_failure_leaves_token_valid_witness :
  let bearer := Some "Bearer change_this_secret.jti-1" in
  let env1 := mkEnv Demo.setEx_down 1000 (1 # 2) "jti-2" "saltsalt" in
  let out1 := Demo.run (logout Demo.cfg Demo.cr bearer) env1 Demo.w_verified in
  fst out1 = Ret (res_json ok_body)
  /\ fst (authMiddleware Demo.cfg Demo.cr bearer Demo.env0 (snd out1))
     = Ret (Next Demo.alice_claims).
Proof.
  destruct (logout_write_failure_leaves_token_valid Demo.cfg Demo.cr
              (mkEnv Demo.setEx_down 1000 (1 # 2) "jti-2" "saltsalt") Demo.env0
              Demo.w_verified [] "change_this_secret.jti-1" Demo.alice_claims "jti-1"
              ltac:(discriminate) ltac:(reflexivity) ltac:(reflexivity)
              ltac:(discriminate) ltac:(reflexivity) ltac:(reflexivity)
              ltac:(intros e [= <-]; simpl; lia)) as (H1 & _ & H3).
  split; [exact H1 | exact H3].
Defined.

Lemma blacklist_ttl_pos cfg p now_s :
  0 < tokenTtlSeconds cfg -> 0 < blacklist_ttl cfg p now_s.
Proof.
  intros H. unfold blacklist_ttl. destruct (exp p) as [e |]; [| exact H].
  destruct (negb (e =? 0)%Z); [| exact H].
  destruct (Z.gtb_spec (e - now_s) 0); [assumption | exact H].
Qed.

(** X12. Logout writes nothing but revocation markers: the value ["1"]
    under [black_<jti>] for the [jti] of the request's own token, which
    verifies under the secret, with a positive lifetime: the marker expires
    after the instant of the request. *)
Theorem logout_writes_only_positive_markers :
  forall cfg cr auth env w tr,
    0 < tokenTtlSeconds cfg ->
    let out := logout cfg cr auth env (mkSt w tr) in
    users (world (snd out)) = users w
    /\ outbox (world (snd out)) = outbox w
    /\ forall k t v,
        redis (world (snd out)) !! k = Some (t, v) ->
        redis w !! k = Some (t, v)
        \/ (now env < t /\ v = "1"
            /\ exists token p j,
                 auth = Some ("Bearer " +:+ token)
                 /\ jwt_decode cr (jwtSecret cfg) token = Some p
                 /\ jti p = Some j /\ j <> "" /\ k = "black_" +:+ j).
Proof.
  intros cfg cr auth env w tr Hpos. cbv zeta. unfold logout. mred. repeat mmatch.
  all: split; [reflexivity |]; split; [reflexivity |]; intros k t v Hl.
  all: try (left; exact Hl).
  all: match goal with
       | H : context [<[?key := _]> _] |- _ =>
           destruct (decide (key = k)) as [<- | Hne];
           [ rewrite lookup_insert_eq in H; injection H as <- <-; right;
             split; [pose proof (blacklist_ttl_pos cfg p (now env) Hpos); lia |];
             split; [reflexivity |]
           | rewrite lookup_insert_ne in H by exact Hne; left; exact H ]
       end.
  all: match goal with
       | Hs : JsString.startsWith "Bearer " ?s = true |- _ =>
           exists (JsString.slice 7 s); eexists _, _;
           split; [f_equal; apply startsWith_bearer; exact Hs |]
       end.
  all: split; [eassumption |]; split; [eassumption |].
  all: split; [apply eqb_false_ne; assumption | reflexivity].
Qed.

Lemma logout_writes_only_positive_markers_witness :
  let out := Demo.run (logout Demo.cfg Demo.cr (Some "Bearer change_this_secret.jti-1"))
               Demo.env0 Demo.w_verified in
  redis (world (snd out)) !! "black_jti-1" = Some (87400, "1")
  /\ users (world (snd out)) = users Demo.w_verified.
Proof.
  destruct (logout_writes_only_positive_markers Demo.cfg Demo.cr
              (Some "Bearer change_this_secret.jti-1") Demo.env0 Demo.w_verified []
              ltac:(reflexivity)) as (H1 & _).
  split; [reflexivity | exact H1].
Defined.

(** ** Registration *)

Lemma registerRequest_run cfg cr req_body env w tr e pw :
  field req_body "email" = JStr e ->
  field req_body "password" = JStr pw ->
  6 <= JsString.len pw ->
  isValidEmail (JStr (normalize e)) = true ->
  rows (users w) !! normalize e = None ->
  transaction_fails (faults env) = false ->
  findOne_fails (faults env) = false ->
  create_fault (faults env) = CreateOk ->
  setEx_fails (faults env) = false ->
  commit_fails (faults env) = false ->
  let ne := normalize e in
  let code := genCode_of 6 (random env) in
  let u := mkUser (next_id (users w)) ne (bcrypt_hash_fn cr pw 12 (salt env)) false in
  let sent := transporterVerified w && negb (sendMail_fails (faults env)) in
  exists evs,
    registerRequest cfg cr req_body env (mkSt w tr)
    = (Ret (res_json (ok_message "verification code sent to email")),
       mkSt (mkWorld
               (mkTable (<[ne := u]> (rows (users w))) (next_id (users w) + 1))
               None
               (<["verif_" +:+ ne := (now env + verifTtl cfg, code)]> (redis w))
               (if sent
                then (outbox w ++ [mkMail ne "Your verification code" code])%list
                else outbox w)
               (transporterVerified w))
         (tr ++ [EvTransaction; EvFindOne ne; EvBcryptHash; EvCreate ne;
                 EvSetEx ("verif_" +:+ ne) (verifTtl cfg) code; EvCommit] ++ evs)).
Proof.
  intros He Hp Hlen Hv Hu Htx Hfind Hcreate Hset Hcommit ne code u sent.
  subst ne code u sent.
  pose proof (isValidEmail_mailer _ Hv) as Hm.
  unfold registerRequest, normalize in *.
  rewrite He, Hp, (valid_email_truthy _ Hv),
    (truthy_str _ (len_nonempty pw ltac:(lia))). mred.
  rewrite Hv. mred. rewrite isValidPassword_str.
  destruct (Z.leb_spec 6 (JsString.len pw)); [| lia]. mred.
  rewrite Htx. mred. rewrite Hfind. mred. rewrite Hu. mred.
  rewrite Hcreate. mred. rewrite Hu. mred. rewrite Hset. mred.
  rewrite Hcommit. mred. rewrite Hm. mred.
  destruct (transporterVerified w) eqn:Htv; mred;
    [destruct (sendMail_fails (faults env)); mred |];
    rewrite <- !app_assoc; cbn [app]; eexists; reflexivity.
Qed.

Lemma registerRequest_frame cfg cr req_body env w tr :
  let out := registerRequest cfg cr req_body env (mkSt w tr) in
  (users (world (snd out)) = users w
   /\ redis (world (snd out)) = redis w
   /\ outbox (world (snd out)) = outbox w
   /\ exists r, fst out = Ret r /\ status r <> 200)
  \/ (exists e pw,
        field req_body "email" = JStr e
        /\ field req_body "password" = JStr pw
        /\ isValidEmail (JStr (normalize e)) = true
        /\ rows (users w) !! normalize e = None
        /\ (users (world (snd out)) = users w
            \/ users (world (snd out))
               = mkTable (<[normalize e :=
                              mkUser (next_id (users w)) (normalize e)
                                (bcrypt_hash_fn cr pw 12 (salt env)) false]>
                            (rows (users w)))
                   (next_id (users w) + 1))).
Proof.
  cbv zeta. unfold registerRequest, normalize. mred. repeat mmatch.
  all: try (left; split; [reflexivity |]; split; [reflexivity |];
            split; [reflexivity |]; eexists; split; [reflexivity |];
            cbn [status errorResponse]; discriminate).
  all: right; eexists _, _; split; [reflexivity |]; split; [reflexivity |].
  all: split; [assumption |]; split; [assumption |].
  all: first [left; reflexivity | right; reflexivity].
Qed.

(** X3. The success path of a registration request: one new unverified
    row under the normalized email, the code that [genCode(6)] computes
    stored under [verif_<email>] to expire [verifTtl] seconds from now, the
    answer 200.  The mail is in the outbox exactly when the transporter is
    verified and the transport accepts it; a mail failure changes nothing
    else. *)
Theorem registerRequest_creates_account :
  forall cfg cr req_body env w tr e pw,
    field req_body "email" = JStr e ->
    field req_body "password" = JStr pw ->
    6 <= JsString.len pw ->
    isValidEmail (JStr (normalize e)) = true ->
    rows (users w) !! normalize e = None ->
    transaction_fails (faults env) = false ->
    findOne_fails (faults env) = false ->
    create_fault (faults env) = CreateOk ->
    setEx_fails (faults env) = false ->
    commit_fails (faults env) = false ->
    let ne := normalize e in
    let code := genCode_of 6 (random env) in
    let u := mkUser (next_id (users w)) ne (bcrypt_hash_fn cr pw 12 (salt env)) false in
    let sent := transporterVerified w && negb (sendMail_fails (faults env)) in
    let out := registerRequest cfg cr req_body env (mkSt w tr) in
    fst out = Ret (res_json (ok_message "verification code sent to email"))
    /\ users (world (snd out))
       = mkTable (<[ne := u]> (rows (users w))) (next_id (users w) + 1)
    /\ tx (world (snd out)) = None
    /\ redis (world (snd out))
       = <["verif_" +:+ ne := (now env + verifTtl cfg, code)]> (redis w)
    /\ outbox (world (snd out))
       = (if sent then outbox w ++ [mkMail ne "Your verification code" code]
          else outbox w)%list.
Proof.
  intros cfg cr req_body env w tr e pw He Hp Hlen Hv Hu Htx Hfind Hcreate Hset
    Hcommit ne code u sent out.
  destruct (registerRequest_run cfg cr req_body env w tr e pw He Hp Hlen Hv Hu Htx
              Hfind Hcreate Hset Hcommit) as (evs & Hrun).
  cbv zeta in Hrun. subst out. rewrite Hrun. repeat split.
Qed.

Lemma registerRequest_creates_account_witness :
  let out := Demo.run (registerRequest Demo.cfg Demo.cr
                         (Demo.body2 "email" (JStr " A@b.com") "password" (JStr "secret1")))
               Demo.env0 Demo.w0 in
  fst out = Ret (res_json (ok_message "verification code sent to email"))
  /\ users (world (snd out)) = users Demo.w_registered.
Proof.
  destruct (registerRequest_creates_account Demo.cfg Demo.cr
              (Demo.body2 "email" (JStr " A@b.com") "password" (JStr "secret1"))
              Demo.env0 Demo.w0 [] " A@b.com" "secret1"
              ltac:(reflexivity) ltac:(reflexivity) ltac:(vm_compute; discriminate)
              ltac:(reflexivity) ltac:(reflexivity) ltac:(reflexivity)
              ltac:(reflexivity) ltac:(reflexivity) ltac:(reflexivity)
              ltac:(reflexivity)) as (H1 & H2 & _).
  split; [exact H1 | exact H2].
Defined.



Lemma isValidPassword_truthy v : isValidPassword v = Ret true -> truthy v = true.
Proof.
  unfold isValidPassword. destruct (truthy v); [reflexivity | discriminate].
Qed.

(** X5. A registration request whose password is not a string never
    answers 200 and persists nothing.  When such a password passes the
    length check (an array of six elements, or an object whose [length]
    reads as a number of at least 6, such as [{length: "1e1"}]) the
    transaction is opened and the hashing rejects the password: rollback,
    500. *)
Theorem registerRequest_nonstring_password :
  forall cfg cr req_body env w tr,
    is_string (field req_body "password") = false ->
    let out := registerRequest cfg cr req_body env (mkSt w tr) in
    users (world (snd out)) = users w
    /\ redis (world (snd out)) = redis w
    /\ outbox (world (snd out)) = outbox w
    /\ (exists r, fst out = Ret r /\ status r <> 200)
    /\ (forall e,
          field req_body "email" = JStr e ->
          isValidEmail (JStr (normalize e)) = true ->
          isValidPassword (field req_body "password") = Ret true ->
          transaction_fails (faults env) = false ->
          findOne_fails (faults env) = false ->
          rollback_fails (faults env) = false ->
          rows (users w) !! normalize e = None ->
          out = (Ret (errorResponse 500 "internal server error"),
                 mkSt (set_tx None w)
                   (tr ++ [EvTransaction; EvFindOne (normalize e); EvBcryptHash;
                           EvRollback; EvConsoleError "Register request error:"]))).
Proof.
  intros cfg cr req_body env w tr Hs out.
  destruct (registerRequest_frame cfg cr req_body env w tr)
    as [(Hu & Hr & Ho & Hres) | (e & pw & _ & Hp & _)].
  - fold out in Hu, Hr, Ho, Hres. repeat (split; [assumption |]).
    intros e He Hv Hpw Htx Hfind Hrb Hnone. subst out.
    unfold registerRequest, normalize in *.
    rewrite He, (isValidPassword_truthy _ Hpw), (valid_email_truthy _ Hv). mred.
    rewrite Hv. mred. rewrite Hpw. mred.
    rewrite Htx. mred. rewrite Hfind. mred. rewrite Hnone. mred.
    destruct (field req_body "password") as [| | b | n | pw | l | l];
      try discriminate Hs; mred; rewrite Hrb; mred; name_test; mred;
      rewrite <- !app_assoc; reflexivity.
  - rewrite Hp in Hs. discriminate Hs.
Qed.

Lemma registerRequest_nonstring_password_witness :
  let out := Demo.run (registerRequest Demo.cfg Demo.cr
                         (Demo.body2 "email" (JStr "c@d.org")
                            "password" (JObj [("length", JStr "1e1")])))
               Demo.env0 Demo.w_verified in
  users (world (snd out)) = users Demo.w_verified
  /\ out = (Ret (errorResponse 500 "internal server error"),
            mkSt Demo.w_verified
              [EvTransaction; EvFindOne "c@d.org"; EvBcryptHash; EvRollback;
               EvConsoleError "Register request error:"]).
Proof.
  destruct (registerRequest_nonstring_password Demo.cfg Demo.cr
              (Demo.body2 "email" (JStr "c@d.org")
                 "password" (JObj [("length", JStr "1e1")]))
              Demo.env0 Demo.w_verified [] ltac:(reflexivity)) as (H1 & _ & _ & _ & H5).
  split; [exact H1 |].
  exact (H5 "c@d.org" ltac:(reflexivity) ltac:(reflexivity)
           ltac:(vm_compute; reflexivity) ltac:(reflexivity) ltac:(reflexivity)
           ltac:(reflexivity) ltac:(reflexivity)).
Defined.

Lemma registerVerify_user_missing req_body env w tr e c :
  field req_body "email" = JStr e ->
  field req_body "code" = JStr c ->
  isValidEmail (JStr (normalize e)) = true ->
  Regex.test Regex.codeRegex (JsString.trim c) = true ->
  redis_read (now env) (redis w) ("verif_" +:+ normalize e)
  = Some (JsString.trim c) ->
  rows (users w) !! normalize e = None ->
  get_fails (faults env) = false ->
  findOne_fails (faults env) = false ->
  registerVerify req_body env (mkSt w tr)
  = (Ret (errorResponse 404 "user not found"),
     mkSt w (tr ++ [EvGet ("verif_" +:+ normalize e); EvFindOne (normalize e)])).
Proof.
  intros He Hc Hv Hre Hsaved Hu Hget Hfind.
  unfold registerVerify, normalize in *.
  rewrite He, Hc, (valid_email_truthy _ Hv), (code_truthy _ Hre). mred.
  rewrite Hv. mred. rewrite Hre. mred. rewrite Hget. mred.
  rewrite Hsaved. mred.
  rewrite (code_nonempty _ Hre). rewrite bool_decide_eq_true_2 by reflexivity.
  mred. rewrite Hfind. mred. rewrite Hu. mred. rewrite <- !app_assoc. reflexivity.
Qed.

(** X6. When the commit of a registration fails after the code was
    written, the answer is 500 and no row exists, but the code stays in the
    store.  Until it expires, a verify request that presents it is answered
    404 "user not found"; from its expiry on, 400 "code expired or not
    found". *)
Theorem registerRequest_commit_failure_leaves_code :
  forall cfg cr req_body env w tr e pw,
    field req_body "email" = JStr e ->
    field req_body "password" = JStr pw ->
    6 <= JsString.len pw ->
    isValidEmail (JStr (normalize e)) = true ->
    rows (users w) !! normalize e = None ->
    transaction_fails (faults env) = false ->
    findOne_fails (faults env) = false ->
    create_fault (faults env) = CreateOk ->
    setEx_fails (faults env) = false ->
    commit_fails (faults env) = true ->
    let ne := normalize e in
    let key := "verif_" +:+ ne in
    let code := genCode_of 6 (random env) in
    let out := registerRequest cfg cr req_body env (mkSt w tr) in
    fst out = Ret (errorResponse 500 "internal server error")
    /\ users (world (snd out)) = users w
    /\ redis (world (snd out)) = <[key := (now env + verifTtl cfg, code)]> (redis w)
    /\ outbox (world (snd out)) = outbox w
    /\ (Binary64.is_double (random env) = true ->
        (0 <= random env)%Q -> (random env < 1)%Q ->
        forall body2 env2,
          field body2 "email" = JStr e ->
          field body2 "code" = JStr code ->
          get_fails (faults env2) = false ->
          (now env2 < now env + verifTtl cfg ->
           findOne_fails (faults env2) = false ->
           fst (registerVerify body2 env2 (snd out))
           = Ret (errorResponse 404 "user not found"))
          /\ (now env + verifTtl cfg <= now env2 ->
              fst (registerVerify body2 env2 (snd out))
              = Ret (errorResponse 400 "code expired or not found"))).
Proof.
  intros cfg cr req_body env w tr e pw He Hp Hlen Hv Hu Htx Hfind Hcreate Hset
    Hcommit ne key code out.
  assert (Hrun : exists t evs,
            out = (Ret (errorResponse 500 "internal server error"),
                   mkSt (mkWorld (users w) t
                           (<[key := (now env + verifTtl cfg, code)]> (redis w))
                           (outbox w) (transporterVerified w))
                     evs)).
  { subst out key code ne. unfold registerRequest, normalize in *.
    rewrite He, Hp, (valid_email_truthy _ Hv),
      (truthy_str _ (len_nonempty pw ltac:(lia))). mred.
    rewrite Hv. mred. rewrite isValidPassword_str.
    destruct (Z.leb_spec 6 (JsString.len pw)); [| lia]. mred.
    rewrite Htx. mred. rewrite Hfind. mred. rewrite Hu. mred.
    rewrite Hcreate. mred. rewrite Hu. mred. rewrite Hset. mred.
    rewrite Hcommit. mred.
    destruct (rollback_fails (faults env)); mred; name_test; mred;
      eexists _, _; reflexivity. }
  destruct Hrun as (t & evs & Hrun). rewrite Hrun. cbn [fst snd world users redis outbox].
  repeat (split; [reflexivity |]).
  intros Hd H0 H1 body2 env2 He2 Hc2 Hget2.
  destruct (genCode_trimmed _ Hd H0 H1) as (Htrim & Hcode).
  fold code in Htrim, Hcode.
  assert (Hre : Regex.test Regex.codeRegex (JsString.trim code) = true)
    by (rewrite Htrim; exact Hcode).
  match goal with |- context [registerVerify body2 env2 (mkSt ?w1 ?t1)] =>
    set (w1' := w1); set (t1' := t1) end.
  assert (Hread : redis_read (now env2) (redis w1') ("verif_" +:+ normalize e)
                  = if (now env2 <? now env + verifTtl cfg)%Z
                    then Some (JsString.trim code) else None).
  { subst w1'. cbn [redis]. rewrite Htrim. apply redis_read_insert. }
  split.
  - intros Hlive Hfind2.
    destruct (Z.ltb_spec (now env2) (now env + verifTtl cfg)); [| lia].
    rewrite (registerVerify_user_missing body2 env2 w1' t1' e code
               He2 Hc2 Hv Hre Hread Hu Hget2 Hfind2).
    reflexivity.
  - intros Hdead.
    destruct (Z.ltb_spec (now env2) (now env + verifTtl cfg)); [lia |].
    rewrite (registerVerify_code_gone body2 env2 w1' t1' e code
               He2 Hc2 Hv Hre Hget2 Hread).
    reflexivity.
Qed.

Lemma registerRequest_commit_failure_leaves_code_witness :
  let env := mkEnv Demo.commit_down 1000 (1 # 2) "jti-1" "saltsalt" in
  let out := Demo.run (registerRequest Demo.cfg Demo.cr
                         (Demo.body2 "email" (JStr " A@b.com") "password" (JStr "secret1")))
               env Demo.w0 in
  let verify := registerVerify
                  (Demo.body2 "email" (JStr " A@b.com") "code" (JStr "550000")) in
  fst out = Ret (errorResponse 500 "internal server error")
  /\ users (world (snd out)) = users Demo.w0
  /\ fst (verify (mkEnv no_faults 1599 (1 # 2) "jti-1" "saltsalt") (snd out))
     = Ret (errorResponse 404 "user not found")
  /\ fst (verify (mkEnv no_faults 1600 (1 # 2) "jti-1" "saltsalt") (snd out))
     = Ret (errorResponse 400 "code expired or not found").
Proof.
  destruct (registerRequest_commit_failure_leaves_code Demo.cfg Demo.cr
              (Demo.body2 "email" (JStr " A@b.com") "password" (JStr "secret1"))
              (mkEnv Demo.commit_down 1000 (1 # 2) "jti-1" "saltsalt")
              Demo.w0 [] " A@b.com" "secret1"
              ltac:(reflexivity) ltac:(reflexivity) ltac:(vm_compute; discriminate)
              ltac:(reflexivity) ltac:(reflexivity) ltac:(reflexivity)
              ltac:(reflexivity) ltac:(reflexivity) ltac:(reflexivity)
              ltac:(reflexivity)) as (H1 & H2 & _ & _ & H5).
  split; [exact H1 |]. split; [exact H2 |].
  specialize (H5 ltac:(reflexivity) ltac:(discriminate) ltac:(reflexivity)).
  split.
  - exact (proj1 (H5 (Demo.body2 "email" (JStr " A@b.com") "code" (JStr "550000"))
                    (mkEnv no_faults 1599 (1 # 2) "jti-1" "saltsalt")
                    ltac:(reflexivity) ltac:(reflexivity) ltac:(reflexivity))
             ltac:(reflexivity) ltac:(reflexivity)).
  - exact (proj2 (H5 (Demo.body2 "email" (JStr " A@b.com") "code" (JStr "550000"))
                    (mkEnv no_faults 1600 (1 # 2) "jti-1" "saltsalt")
                    ltac:(reflexivity) ltac:(reflexivity) ltac:(reflexivity))
             ltac:(discriminate)).
Defined.

Lemma registerVerify_frame req_body env w tr :
  keyed_by_email (users w) ->
  let out := registerVerify req_body env (mkSt w tr) in
  users (world (snd out)) = users w
  \/ (exists e u,
        field req_body "email" = JStr e
        /\ rows (users w) !! normalize e = Some u
        /\ users (world (snd out))
           = mkTable (<[normalize e :=
                          mkUser (id u) (normalize e) (password_hash u) true]>
                        (rows (users w)))
               (next_id (users w))).
Proof.
  intros Hwf. cbv zeta. unfold registerVerify, normalize. mred. repeat mmatch.
  all: try (left; reflexivity).
  all: right.
  all: match goal with
       | Hu : rows (users _) !! _ = Some ?u, Ho : rows (users _) !! email _ = _ |- _ =>
           pose proof (Hwf _ _ Hu) as Hem; cbn [email] in *; rewrite Hem in *;
           rewrite Hu in Ho; first [discriminate Ho | injection Ho as <-]
       end.
  all: eexists _, _; split; [reflexivity |]; split; [eassumption | reflexivity].
Qed.

(** X7. Register, verify, login.  Before the verification the login is
    answered 403; the verify request with the generated code, sent before
    the code expires, is answered [{ok: true}]; after it the login is
    answered with a token for the new row. *)
Theorem register_verify_login :
  forall cfg cr body1 body2 env1 env2 env3 w tr e pw,
    field body1 "email" = JStr e ->
    field body1 "password" = JStr pw ->
    6 <= JsString.len pw ->
    isValidEmail (JStr (normalize e)) = true ->
    rows (users w) !! normalize e = None ->
    transaction_fails (faults env1) = false ->
    findOne_fails (faults env1) = false ->
    create_fault (faults env1) = CreateOk ->
    setEx_fails (faults env1) = false ->
    commit_fails (faults env1) = false ->
    Binary64.is_double (random env1) = true ->
    (0 <= random env1)%Q ->
    (random env1 < 1)%Q ->
    field body2 "email" = JStr e ->
    field body2 "code" = JStr (genCode_of 6 (random env1)) ->
    now env2 < now env1 + verifTtl cfg ->
    get_fails (faults env2) = false ->
    findOne_fails (faults env2) = false ->
    transaction_fails (faults env2) = false ->
    save_fails (faults env2) = false ->
    commit_fails (faults env2) = false ->
    findOne_fails (faults env3) = false ->
    bcrypt_compare_fn cr pw (bcrypt_hash_fn cr pw 12 (salt env1)) = true ->
    let st1 := snd (registerRequest cfg cr body1 env1 (mkSt w tr)) in
    let out2 := registerVerify body2 env2 st1 in
    let claims := mkPayload (next_id (users w)) (normalize e) (Some (uuid env3))
                    (Some (now env3)) (Some (now env3 + jwtExpiresIn cfg)) in
    fst (login cfg cr body1 env3 st1) = Ret (errorResponse 403 "email not verified")
    /\ fst out2 = Ret (res_json ok_body)
    /\ fst (login cfg cr body1 env3 (snd out2))
       = Ret (res_json (JObj [("token", JStr (jwt_encode cr (jwtSecret cfg) claims))])).
Proof.
  intros cfg cr body1 body2 env1 env2 env3 w tr e pw He Hp Hlen Hv Hu Htx Hfind
    Hcreate Hset Hcommit Hd H0 H1 He2 Hc2 Hlive Hget2 Hfind2 Htx2 Hsave2 Hcommit2
    Hfind3 Hcmp st1 out2 claims.
  destruct (registerRequest_run cfg cr body1 env1 w tr e pw He Hp Hlen Hv Hu Htx
              Hfind Hcreate Hset Hcommit) as (evs & Hrun).
  cbv zeta in Hrun. subst out2 st1 claims. rewrite Hrun. cbn [snd].
  match goal with |- context [registerVerify body2 env2 (mkSt ?w1 ?t1)] =>
    set (w1' := w1); set (t1' := t1) end.
  set (u := mkUser (next_id (users w)) (normalize e)
              (bcrypt_hash_fn cr pw 12 (salt env1)) false).
  assert (Hu1 : rows (users w1') !! normalize e = Some u)
    by (subst w1'; cbn [users rows]; apply lookup_insert_eq).
  assert (Hpne : pw <> "") by (apply len_nonempty; lia).
  split.
  { rewrite (login_unverified cfg cr body1 env3 w1' t1' e u He
               ltac:(rewrite Hp; apply truthy_str; exact Hpne) Hv Hfind3 Hu1 eq_refl).
    reflexivity. }
  destruct (genCode_trimmed _ Hd H0 H1) as (Htrim & Hcode).
  assert (Hre : Regex.test Regex.codeRegex
                  (JsString.trim (genCode_of 6 (random env1))) = true).
  { rewrite Htrim. exact Hcode. }
  assert (Hsaved : redis_read (now env2) (redis w1') ("verif_" +:+ normalize e)
                   = Some (JsString.trim (genCode_of 6 (random env1)))).
  { subst w1'. cbn [redis]. rewrite Htrim.
    apply (redis_read_live _ _ _ (now env1 + verifTtl cfg));
      [apply lookup_insert_eq | exact Hlive]. }
  pose proof (registerVerify_unverified_run body2 env2 w1' t1' e _ u He2 Hc2 Hv
                Hre Hsaved Hu1 eq_refl eq_refl Hget2 Hfind2 Htx2 Hsave2) as Hrun2.
  cbv zeta in Hrun2. rewrite Hcommit2 in Hrun2. rewrite Hrun2. cbn [fst snd].
  split; [reflexivity |].
  match goal with |- context [login cfg cr body1 env3 (mkSt ?w2 ?t2)] =>
    set (w2' := w2); set (t2' := t2) end.
  assert (Hu2 : rows (users w2') !! normalize e
                = Some (mkUser (id u) (email u) (password_hash u) true))
    by (subst w2'; cbn [users rows]; apply lookup_insert_eq).
  rewrite (login_success cfg cr body1 env3 w2' t2' e pw _ He Hp Hpne Hv Hfind3 Hu2
             eq_refl Hcmp).
  reflexivity.
Qed.

Lemma register_verify_login_witness :
  let body1 := Demo.body2 "email" (JStr " A@b.com") "password" (JStr "secret1") in
  let body2 := Demo.body2 "email" (JStr " A@b.com") "code" (JStr "550000") in
  let env2 := mkEnv no_faults 1599 (1 # 2) "jti-1" "saltsalt" in
  let st1 := snd (Demo.run (registerRequest Demo.cfg Demo.cr body1) Demo.env0 Demo.w0) in
  let st2 := snd (registerVerify body2 env2 st1) in
  fst (login Demo.cfg Demo.cr body1 Demo.env0 st2)
  = Ret (res_json (JObj [("token", JStr "change_this_secret.jti-1")])).
Proof.
  destruct (register_verify_login Demo.cfg Demo.cr
              (Demo.body2 "email" (JStr " A@b.com") "password" (JStr "secret1"))
              (Demo.body2 "email" (JStr " A@b.com") "code" (JStr "550000"))
              Demo.env0 (mkEnv no_faults 1599 (1 # 2) "jti-1" "saltsalt")
              Demo.env0 Demo.w0 [] " A@b.com" "secret1"
              ltac:(reflexivity) ltac:(reflexivity) ltac:(vm_compute; discriminate)
              ltac:(reflexivity) ltac:(reflexivity) ltac:(reflexivity)
              ltac:(reflexivity) ltac:(reflexivity) ltac:(reflexivity)
              ltac:(reflexivity) ltac:(reflexivity) ltac:(discriminate)
              ltac:(reflexivity)
              ltac:(reflexivity) ltac:(reflexivity) ltac:(reflexivity)
              ltac:(reflexivity) ltac:(reflexivity) ltac:(reflexivity)
              ltac:(reflexivity) ltac:(reflexivity) ltac:(reflexivity)
              ltac:(reflexivity))
    as (_ & _ & H3).
  exact H3.
Defined.

(** ** Password reset *)

Lemma resetPassword_frame cr req_body env w tr :
  keyed_by_email (users w) ->
  let out := resetPassword cr req_body env (mkSt w tr) in
  outbox (world (snd out)) = outbox w
  /\ ((users (world (snd out)) = users w
       /\ redis (world (snd out)) = redis w
       /\ exists r, fst out = Ret r /\ status r <> 200)
      \/ (exists e c new u,
            field req_body "email" = JStr e
            /\ field req_body "code" = JStr c
            /\ field req_body "newPassword" = JStr new
            /\ redis_read (now env) (redis w) ("reset_" +:+ normalize e)
               = Some (JsString.trim c)
            /\ rows (users w) !! normalize e = Some u
            /\ (fst out = Ret (errorResponse 500 "internal server error")
                /\ users (world (snd out)) = users w
                \/ fst out = Ret (res_json ok_body)
                   /\ users (world (snd out))
                      = mkTable (<[normalize e :=
                                     mkUser (id u) (normalize e)
                                       (bcrypt_hash_fn cr new 12 (salt env))
                                       (verified u)]>
                                   (rows (users w)))
                          (next_id (users w)))
            /\ redis (world (snd out))
               = if del_fails (faults env) then redis w
                 else delete ("reset_" +:+ normalize e) (redis w))).
Proof.
  intros Hwf. cbv zeta. unfold resetPassword, normalize. mred.
  repeat mmatch.
  all: split; [reflexivity |].
  all: try (left; split; [reflexivity |]; split; [reflexivity |];
            eexists; split; [reflexivity |];
            cbn [status errorResponse]; discriminate).
  all: right.
  all: match goal with
       | Hu : rows (users _) !! _ = Some ?u, Ho : rows (users _) !! email _ = _ |- _ =>
           pose proof (Hwf _ _ Hu) as Hem; cbn [email] in *; rewrite Hem in *;
           rewrite Hu in Ho; first [discriminate Ho | injection Ho as <-]
       end.
  all: match goal with
       | Hd : bool_decide (Some ?s1 = Some _) = true,
         Hg : redis_read _ _ _ = Some ?s1 |- _ =>
           apply bool_decide_eq_true in Hd; injection Hd as Hd; rewrite Hd in *
       end.
  all: eexists _, _, _, _.
  all: repeat (split; [first [reflexivity | eassumption] |]).
  all: match goal with
       | Hd : del_fails _ = _ |- _ => rewrite ?Hd
       end.
  all: try (split; [| reflexivity]).
  all: first [left; split; reflexivity | right; split; reflexivity].
Qed.

Lemma resetPassword_run cr req_body env w tr e c new u :
  field req_body "email" = JStr e ->
  field req_body "code" = JStr c ->
  field req_body "newPassword" = JStr new ->
  isValidEmail (JStr (normalize e)) = true ->
  6 <= JsString.len new ->
  Regex.test Regex.codeRegex (JsString.trim c) = true ->
  redis_read (now env) (redis w) ("reset_" +:+ normalize e) = Some (JsString.trim c) ->
  rows (users w) !! normalize e = Some u ->
  email u = normalize e ->
  get_fails (faults env) = false ->
  findOne_fails (faults env) = false ->
  transaction_fails (faults env) = false ->
  save_fails (faults env) = false ->
  commit_fails (faults env) = false ->
  let ne := normalize e in
  let key := "reset_" +:+ ne in
  let u' := mkUser (id u) ne (bcrypt_hash_fn cr new 12 (salt env)) (verified u) in
  resetPassword cr req_body env (mkSt w tr)
  = (Ret (res_json ok_body),
     mkSt (mkWorld (mkTable (<[ne := u']> (rows (users w))) (next_id (users w)))
             None
             (if del_fails (faults env) then redis w else delete key (redis w))
             (outbox w) (transporterVerified w))
       (tr ++ [EvGet key; EvFindOne ne; EvTransaction; EvBcryptHash; EvSave ne]
           ++ (if del_fails (faults env)
               then [EvDel key; EvConsoleError "Redis error deleting reset code:"]
               else [EvDel key])
           ++ [EvCommit])).
Proof.
  intros He Hc Hnew Hv Hlen Hre Hsaved Hu Hem Hget Hfind Htx Hsave Hcommit
    ne key u'. subst ne key u'.
  unfold resetPassword, normalize in *.
  rewrite He, Hc, Hnew, (valid_email_truthy _ Hv), (code_truthy _ Hre),
    (truthy_str _ (len_nonempty new ltac:(lia))). mred.
  rewrite Hv. mred. rewrite isValidPassword_str.
  destruct (Z.leb_spec 6 (JsString.len new)); [| lia]. mred.
  rewrite Hre. mred. rewrite Hget. mred.
  rewrite Hsaved. mred.
  rewrite (code_nonempty _ Hre). rewrite bool_decide_eq_true_2 by reflexivity.
  mred. rewrite Hfind. mred. rewrite Hu. mred.
  rewrite Htx. mred. rewrite Hsave. mred.
  cbn [email]. rewrite Hem, Hu. mred.
  destruct (del_fails (faults env)); mred; rewrite Hcommit; mred;
    rewrite <- ?app_assoc; reflexivity.
Qed.

(** When the store returns no reset code for the address (none is stored,
    or the stored one has expired) a reset request changes nothing and is
    answered by an error. *)
Lemma resetPassword_no_code :
  forall cr req_body env w tr e,
    field req_body "email" = JStr e ->
    redis_read (now env) (redis w) ("reset_" +:+ normalize e) = None ->
    let out := resetPassword cr req_body env (mkSt w tr) in
    exists r, fst out = Ret r /\ status r <> 200 /\ world (snd out) = w.
Proof.
  intros cr req_body env w tr e He Hnone out. subst out.
  unfold resetPassword, normalize in *. rewrite He.
  mred.
  repeat first [ progress (rewrite Hnone; mred) | mcase | mmatch ].
  all: eexists; repeat split; cbn [status errorResponse]; discriminate.
Qed.

(** A reset request is answered [{ok: true}] only with the code the store
    returns for the address. *)
Lemma resetPassword_accepts cr req_body env w tr :
  fst (resetPassword cr req_body env (mkSt w tr)) = Ret (res_json ok_body) ->
  exists e c,
    field req_body "email" = JStr e
    /\ field req_body "code" = JStr c
    /\ redis_read (now env) (redis w) ("reset_" +:+ normalize e)
       = Some (JsString.trim c).
Proof.
  unfold resetPassword, normalize. mred. repeat mmatch.
  all: intros H; try discriminate H.
  all: match goal with
       | Hd : bool_decide (Some ?s1 = Some _) = true,
         Hg : redis_read _ _ _ = Some ?s1 |- _ =>
           apply bool_decide_eq_true in Hd; injection Hd as Hd; rewrite Hd in *
       end.
  all: eexists _, _; split; [reflexivity |]; split; [reflexivity | eassumption].
Qed.

Lemma forgotPassword_run cfg req_body env w tr e u :
  field req_body "email" = JStr e ->
  isValidEmail (JStr (normalize e)) = true ->
  findOne_fails (faults env) = false ->
  setEx_fails (faults env) = false ->
  rows (users w) !! normalize e = Some u ->
  let ne := normalize e in
  let code := genCode_of 6 (random env) in
  let sent := transporterVerified w && negb (sendMail_fails (faults env)) in
  exists tr',
    forgotPassword cfg req_body env (mkSt w tr)
    = (Ret (res_json (ok_message "reset code sent if email exists")),
       mkSt (mkWorld (users w) (tx w)
               (<["reset_" +:+ ne := (now env + resetTtl cfg, code)]> (redis w))
               (if sent
                then (outbox w ++ [mkMail ne "Your password reset code" code])%list
                else outbox w)
               (transporterVerified w))
         tr').
Proof.
  intros He Hv Hfind Hset Hu ne code sent. subst ne code sent.
  pose proof (isValidEmail_mailer _ Hv) as Hm.
  unfold forgotPassword, normalize in *.
  rewrite He, (valid_email_truthy _ Hv). mred.
  rewrite Hv. mred. rewrite Hfind. mred. rewrite Hu. mred. rewrite Hset. mred.
  rewrite Hm. mred.
  destruct (transporterVerified w) eqn:Htv; mred;
    [destruct (sendMail_fails (faults env)); mred |];
    eexists; reflexivity.
Qed.

(** X13. Forgot, then reset.  The code that forgot-password stores, to
    expire [resetTtl] seconds later, resets the password once: a reset
    request that presents it before the expiry is answered [{ok: true}] and
    the hash is replaced, and when the deletion succeeds every further
    reset request for the address is answered by an error and changes
    nothing.  From the expiry on, the reset request is answered by an error
    and changes nothing. *)
Theorem forgot_then_reset :
  forall cfg cr body1 body2 env1 env2 w tr e new u,
    field body1 "email" = JStr e ->
    isValidEmail (JStr (normalize e)) = true ->
    rows (users w) !! normalize e = Some u ->
    email u = normalize e ->
    findOne_fails (faults env1) = false ->
    setEx_fails (faults env1) = false ->
    Binary64.is_double (random env1) = true ->
    (0 <= random env1)%Q ->
    (random env1 < 1)%Q ->
    field body2 "email" = JStr e ->
    field body2 "code" = JStr (genCode_of 6 (random env1)) ->
    field body2 "newPassword" = JStr new ->
    6 <= JsString.len new ->
    get_fails (faults env2) = false ->
    findOne_fails (faults env2) = false ->
    transaction_fails (faults env2) = false ->
    save_fails (faults env2) = false ->
    commit_fails (faults env2) = false ->
    let ne := normalize e in
    let key := "reset_" +:+ ne in
    let st1 := snd (forgotPassword cfg body1 env1 (mkSt w tr)) in
    let out2 := resetPassword cr body2 env2 st1 in
    redis (world st1) !! key
    = Some (now env1 + resetTtl cfg, genCode_of 6 (random env1))
    /\ users (world st1) = users w
    /\ (now env2 < now env1 + resetTtl cfg ->
        fst out2 = Ret (res_json ok_body)
        /\ users (world (snd out2))
           = mkTable (<[ne := mkUser (id u) ne (bcrypt_hash_fn cr new 12 (salt env2))
                                 (verified u)]> (rows (users w)))
               (next_id (users w))
        /\ (del_fails (faults env2) = false ->
            redis (world (snd out2)) !! key = None
            /\ forall body3 env3 e3,
                field body3 "email" = JStr e3 ->
                normalize e3 = ne ->
                let out3 := resetPassword cr body3 env3 (snd out2) in
                exists r, fst out3 = Ret r /\ status r <> 200
                          /\ world (snd out3) = world (snd out2)))
    /\ (now env1 + resetTtl cfg <= now env2 ->
        exists r, fst out2 = Ret r /\ status r <> 200
                  /\ world (snd out2) = world st1).
Proof.
  intros cfg cr body1 body2 env1 env2 w tr e new u He Hv Hu Hem Hfind Hset Hd H0 H1
    He2 Hc2 Hnew Hlen Hget2 Hfind2 Htx2 Hsave2 Hcommit2 ne key st1 out2.
  destruct (forgotPassword_run cfg body1 env1 w tr e u He Hv Hfind Hset Hu)
    as (tr1 & Hrun1).
  cbv zeta in Hrun1. subst out2 st1. rewrite Hrun1. cbn [snd world redis users].
  destruct (genCode_trimmed _ Hd H0 H1) as (Htrim & Hcode).
  split; [apply lookup_insert_eq |]. split; [reflexivity |].
  match goal with |- context [resetPassword cr body2 env2 (mkSt ?w1 ?t1)] =>
    set (w1' := w1); set (t1' := t1) end.
  assert (Hre : Regex.test Regex.codeRegex
                  (JsString.trim (genCode_of 6 (random env1))) = true).
  { rewrite Htrim. exact Hcode. }
  assert (Hread : redis_read (now env2) (redis w1') ("reset_" +:+ normalize e)
                  = if (now env2 <? now env1 + resetTtl cfg)%Z
                    then Some (JsString.trim (genCode_of 6 (random env1)))
                    else None).
  { subst w1'. cbn [redis]. rewrite Htrim. apply redis_read_insert. }
  split.
  - intros Hlive.
    destruct (Z.ltb_spec (now env2) (now env1 + resetTtl cfg)); [| lia].
    pose proof (resetPassword_run cr body2 env2 w1' t1' e _ new u He2 Hc2 Hnew Hv
                  Hlen Hre Hread Hu Hem Hget2 Hfind2 Htx2 Hsave2 Hcommit2) as Hrun2.
    cbv zeta in Hrun2. rewrite Hrun2. cbn [fst snd world users redis].
    split; [reflexivity |]. split; [reflexivity |].
    intros Hdel. rewrite Hdel. subst key ne. split; [apply lookup_delete_eq |].
    intros body3 env3 e3 He3 Hn3.
    apply (resetPassword_no_code cr body3 env3 _ _ e3 He3).
    cbn [redis]. rewrite Hn3. apply redis_read_delete.
  - intros Hdead.
    destruct (Z.ltb_spec (now env2) (now env1 + resetTtl cfg)); [lia |].
    exact (resetPassword_no_code cr body2 env2 w1' t1' e He2 Hread).
Qed.

Lemma forgot_then_reset_witness :
  let body1 : gmap string JsValue := <["email" := JStr "A@b.com"]> ∅ in
  let body2 := <["email" := JStr "A@b.com"]>
                 (Demo.body2 "code" (JStr "550000") "newPassword" (JStr "secret2")) in
  let env2 := mkEnv no_faults 1899 (1 # 2) "jti-1" "saltsalt" in
  let st1 := snd (Demo.run (forgotPassword Demo.cfg body1) Demo.env0 Demo.w_verified) in
  let out2 := resetPassword Demo.cr body2 env2 st1 in
  fst out2 = Ret (res_json ok_body)
  /\ redis (world (snd out2)) !! "reset_a@b.com" = None.
Proof.
  pose (body1 := (<["email" := JStr "A@b.com"]> ∅ : gmap string JsValue)).
  pose (body2 := <["email" := JStr "A@b.com"]>
                   (Demo.body2 "code" (JStr "550000") "newPassword" (JStr "secret2"))).
  assert (E1 : field body1 "email" = JStr "A@b.com") by reflexivity.
  assert (E2 : field body2 "email" = JStr "A@b.com") by reflexivity.
  assert (E3 : field body2 "code" = JStr (genCode_of 6 (random Demo.env0)))
    by reflexivity.
  assert (E4 : field body2 "newPassword" = JStr "secret2") by reflexivity.
  destruct (forgot_then_reset Demo.cfg Demo.cr body1 body2 Demo.env0
              (mkEnv no_faults 1899 (1 # 2) "jti-1" "saltsalt")
              Demo.w_verified [] "A@b.com" "secret2" (Demo.alice true)
              E1 ltac:(reflexivity) ltac:(reflexivity) ltac:(reflexivity)
              ltac:(reflexivity) ltac:(reflexivity) ltac:(reflexivity)
              ltac:(discriminate)
              ltac:(reflexivity) E2 E3 E4 ltac:(vm_compute; discriminate)
              ltac:(reflexivity) ltac:(reflexivity) ltac:(reflexivity)
              ltac:(reflexivity) ltac:(reflexivity))
    as (_ & _ & H3 & _).
  destruct (H3 ltac:(reflexivity)) as (H4 & _ & H5).
  split; [exact H4 | exact (proj1 (H5 eq_refl))].
Defined.

(** X14. When the write of the reset code fails, forgot-password still
    answers 200 and still mails the new code, but the store is unchanged.
    Afterwards a reset request for the address is accepted only with a code
    that was stored before the request and has not expired; when no such
    code is stored, every reset request is answered by an error and changes
    nothing, the one that presents the mailed code included. *)
Theorem forgotPassword_store_failure_mails_unstored_code :
  forall cfg cr req_body env w tr e u,
    field req_body "email" = JStr e ->
    isValidEmail (JStr (normalize e)) = true ->
    findOne_fails (faults env) = false ->
    rows (users w) !! normalize e = Some u ->
    setEx_fails (faults env) = true ->
    transporterVerified w = true ->
    sendMail_fails (faults env) = false ->
    let ne := normalize e in
    let key := "reset_" +:+ ne in
    let code := genCode_of 6 (random env) in
    let out := forgotPassword cfg req_body env (mkSt w tr) in
    fst out = Ret (res_json (ok_message "reset code sent if email exists"))
    /\ redis (world (snd out)) = redis w
    /\ outbox (world (snd out))
       = (outbox w ++ [mkMail ne "Your password reset code" code])%list
    /\ forall body2 env2 e2,
        field body2 "email" = JStr e2 ->
        normalize e2 = ne ->
        let out2 := resetPassword cr body2 env2 (snd out) in
        (fst out2 = Ret (res_json ok_body) ->
         exists c,
           field body2 "code" = JStr c
           /\ redis_read (now env2) (redis w) key = Some (JsString.trim c))
        /\ (redis_read (now env2) (redis w) key = None ->
            exists r, fst out2 = Ret r /\ status r <> 200
                      /\ world (snd out2) = world (snd out)).
Proof.
  intros cfg cr req_body env w tr e u He Hv Hfind Hu Hset Htv Hmail
    ne key code out.
  pose proof (isValidEmail_mailer _ Hv) as Hm.
  assert (Hrun : out
                 = (Ret (res_json (ok_message "reset code sent if email exists")),
                    mkSt (set_outbox
                            (outbox w ++ [mkMail ne "Your password reset code" code]) w)
                      (tr ++ [EvFindOne ne;
                              EvSetEx ("reset_" +:+ ne) (resetTtl cfg) code;
                              EvConsoleError "Redis error in forgot password:";
                              EvSendMail (mkMail ne "Your password reset code" code)]))).
  { subst out ne code. unfold forgotPassword, normalize in *.
    rewrite He, (valid_email_truthy _ Hv). mred.
    rewrite Hv. mred. rewrite Hfind. mred. rewrite Hu. mred. rewrite Hset. mred.
    rewrite Hm. mred. unfold set_outbox. rewrite !Htv. mred.
    rewrite Hmail. mred. rewrite ?Htv, <- !app_assoc. reflexivity. }
  rewrite Hrun. cbn [fst snd world redis outbox set_outbox].
  split; [reflexivity |]. split; [reflexivity |]. split; [reflexivity |].
  intros body2 env2 e2 He2 Hn2. cbv zeta. split.
  - intros Hok. apply resetPassword_accepts in Hok as (e3 & c & He3 & Hc & Hread).
    exists c. split; [exact Hc |].
    rewrite He2 in He3. injection He3 as <-.
    cbn [redis] in Hread. rewrite Hn2 in Hread. exact Hread.
  - intros Hnone.
    apply (resetPassword_no_code cr body2 env2 _ _ e2 He2).
    cbn [redis]. rewrite Hn2. exact Hnone.
Qed.

Lemma forgotPassword_store_failure_mails_unstored_code_witness :
  let env := mkEnv Demo.setEx_down 1000 (1 # 2) "jti-1" "saltsalt" in
  let out := Demo.run (forgotPassword Demo.cfg (<["email" := JStr "a@b.com"]> ∅))
               env Demo.w_verified in
  fst out = Ret (res_json (ok_message "reset code sent if email exists"))
  /\ redis (world (snd out)) = redis Demo.w_verified
  /\ outbox (world (snd out))
     = [Demo.alice_mail; mkMail "a@b.com" "Your password reset code" "550000"].
Proof.
  pose (b := (<["email" := JStr "a@b.com"]> ∅ : gmap string JsValue)).
  assert (E : field b "email" = JStr "a@b.com") by reflexivity.
  destruct (forgotPassword_store_failure_mails_unstored_code Demo.cfg Demo.cr b
              (mkEnv Demo.setEx_down 1000 (1 # 2) "jti-1" "saltsalt")
              Demo.w_verified [] "a@b.com" (Demo.alice true)
              E ltac:(reflexivity) ltac:(reflexivity) ltac:(reflexivity)
              ltac:(reflexivity) ltac:(reflexivity) ltac:(reflexivity))
    as (H1 & H2 & H3 & _).
  split; [exact H1 |]. split; [exact H2 | exact H3].
Defined.

(** X15. A reset request changes at most the password hash of one row,
    never an id, an email or a [verified] flag, and does anything at all
    (a row update, a key deletion, the answer [{ok: true}]) only when the
    submitted code, trimmed, is the one the store returns for
    [reset_<email>]: stored, and not expired. *)
Theorem resetPassword_needs_stored_code :
  forall cr req_body env w tr,
    keyed_by_email (users w) ->
    let out := resetPassword cr req_body env (mkSt w tr) in
    outbox (world (snd out)) = outbox w
    /\ (forall k,
          id <$> rows (users (world (snd out))) !! k = id <$> rows (users w) !! k
          /\ email <$> rows (users (world (snd out))) !! k
             = email <$> rows (users w) !! k
          /\ verified <$> rows (users (world (snd out))) !! k
             = verified <$> rows (users w) !! k)
    /\ (users (world (snd out)) <> users w
        \/ redis (world (snd out)) <> redis w
        \/ fst out = Ret (res_json ok_body) ->
        exists e c,
          field req_body "email" = JStr e
          /\ field req_body "code" = JStr c
          /\ redis_read (now env) (redis w) ("reset_" +:+ normalize e)
             = Some (JsString.trim c)).
Proof.
  intros cr req_body env w tr Hwf out.
  destruct (resetPassword_frame cr req_body env w tr Hwf)
    as (Ho & [(Hu & Hr & r & Hres & Hst)
             | (e & c & new & u & He & Hc & Hn & Hm & Hrow & Hcase & Hred)]).
  - fold out in Ho, Hu, Hr, Hres. split; [exact Ho |]. split.
    + intros k. rewrite Hu. repeat split.
    + intros [H | [H | H]]; [congruence | congruence |].
      rewrite Hres in H. injection H as ->. exfalso. apply Hst. reflexivity.
  - fold out in Ho, Hcase, Hred. split; [exact Ho |]. split.
    + intros k. destruct Hcase as [[_ Hu] | [_ Hu]]; rewrite Hu; [repeat split |].
      cbn [rows]. destruct (decide (normalize e = k)) as [<- | Hne].
      * rewrite lookup_insert_eq, Hrow. cbn. rewrite (Hwf _ _ Hrow). repeat split.
      * rewrite lookup_insert_ne by exact Hne. repeat split.
    + intros _. exists e, c. repeat split; assumption.
Qed.

Lemma resetPassword_needs_stored_code_witness :
  let out := Demo.run (resetPassword Demo.cr
                         (<["email" := JStr "a@b.com"]>
                            (Demo.body2 "code" (JStr "550000")
                               "newPassword" (JStr "guessed1"))))
               Demo.env0 Demo.w_verified in
  outbox (world (snd out)) = outbox Demo.w_verified
  /\ verified <$> rows (users (world (snd out))) !! "a@b.com" = Some true.
Proof.
  destruct (resetPassword_needs_stored_code Demo.cr
              (<["email" := JStr "a@b.com"]>
                 (Demo.body2 "code" (JStr "550000") "newPassword" (JStr "guessed1")))
              Demo.env0 Demo.w_verified [] demo_keyed) as (H1 & H2 & _).
  split; [exact H1 |].
  destruct (H2 "a@b.com") as (_ & _ & H3).
  etransitivity; [exact H3 | reflexivity].
Defined.

(** ** Password change *)

Lemma changePasswordHandler_frame cr p req_body env w tr :
  keyed_by_email (users w) ->
  let out := changePasswordHandler cr p req_body env (mkSt w tr) in
  redis (world (snd out)) = redis w
  /\ outbox (world (snd out)) = outbox w
  /\ ((users (world (snd out)) = users w
       /\ exists r, fst out = Ret r /\ status r <> 200)
      \/ (exists k u old new,
            rows (users w) !! k = Some u /\ id u = sub p
            /\ field req_body "oldPassword" = JStr old
            /\ field req_body "newPassword" = JStr new
            /\ bcrypt_compare_fn cr old (password_hash u) = true
            /\ users (world (snd out))
               = mkTable (<[k := mkUser (id u) k (bcrypt_hash_fn cr new 12 (salt env))
                                  (verified u)]> (rows (users w)))
                   (next_id (users w))
            /\ fst out = Ret (res_json ok_body))).
Proof.
  intros Hwf. cbv zeta. unfold changePasswordHandler, User_findByPk. mred.
  repeat mmatch.
  all: split; [reflexivity |]; split; [reflexivity |].
  all: try (left; split; [reflexivity |]; eexists; split; [reflexivity |];
            cbn [status errorResponse]; discriminate).
  all: match goal with
       | Hf : find_by_id _ _ = Some ?u |- _ =>
           apply find_by_id_Some in Hf as (k & Hk & Hid);
           pose proof (Hwf _ _ Hk) as Hem; cbn [email] in *; rewrite Hem in *
       end.
  - right. exists k, u. eexists _, _. repeat split; try reflexivity; assumption.
  - congruence.
Qed.

Lemma changePassword_guarded cfg cr auth req_body env w tr :
  exists tr',
    (exists r, authMiddleware cfg cr auth env (mkSt w tr) = (Ret (Respond r), mkSt w tr')
               /\ status r <> 200
               /\ changePassword cfg cr auth req_body env (mkSt w tr)
                  = (Ret r, mkSt w tr'))
    \/ (exists p, authMiddleware cfg cr auth env (mkSt w tr) = (Ret (Next p), mkSt w tr')
                  /\ changePassword cfg cr auth req_body env (mkSt w tr)
                     = changePasswordHandler cr p req_body env (mkSt w tr')).
Proof.
  destruct (authMiddleware_total cfg cr auth env w tr) as (g & tr' & Hg & Hs).
  exists tr'. unfold changePassword, bind. rewrite Hg.
  destruct g as [r | p]; [left | right]; eexists.
  - split; [reflexivity |]. split; [apply Hs; reflexivity | reflexivity].
  - split; reflexivity.
Qed.

Lemma changePasswordHandler_run cr p req_body env w tr k u old new :
  keyed_by_email (users w) ->
  unique_ids (users w) ->
  rows (users w) !! k = Some u ->
  id u = sub p ->
  field req_body "oldPassword" = JStr old ->
  field req_body "newPassword" = JStr new ->
  old <> "" ->
  6 <= JsString.len new ->
  old <> new ->
  bcrypt_compare_fn cr old (password_hash u) = true ->
  findOne_fails (faults env) = false ->
  transaction_fails (faults env) = false ->
  save_fails (faults env) = false ->
  commit_fails (faults env) = false ->
  changePasswordHandler cr p req_body env (mkSt w tr)
  = (Ret (res_json ok_body),
     mkSt (mkWorld
             (mkTable (<[k := mkUser (id u) k (bcrypt_hash_fn cr new 12 (salt env))
                              (verified u)]> (rows (users w)))
                (next_id (users w)))
             None (redis w) (outbox w) (transporterVerified w))
       (tr ++ [EvBcryptCompare; EvTransaction; EvBcryptHash; EvSave k; EvCommit])).
Proof.
  intros Hwf Huniq Hk Hid Hold Hnew Hne Hlen Hdiff Hcmp Hfind Htx Hsave Hcommit.
  unfold changePasswordHandler, User_findByPk.
  rewrite Hold, Hnew, (truthy_str _ Hne),
    (truthy_str _ (len_nonempty new ltac:(lia))), isValidPassword_str.
  destruct (Z.leb_spec 6 (JsString.len new)); [| lia].
  cbn [js_strict_eq]. rewrite (proj2 (String.eqb_neq old new) Hdiff).
  mred. rewrite Hfind. mred. rewrite <- Hid, (find_by_id_unique _ _ _ Huniq Hk).
  mred. rewrite Hcmp. mred. rewrite Htx. mred. rewrite Hsave. mred.
  cbn [email]. rewrite (Hwf _ _ Hk), Hk. mred. rewrite Hcommit. mred.
  rewrite <- !app_assoc. reflexivity.
Qed.

(** X16. [PUT /password] with a valid token, the right old password and a
    new one replaces the hash of the token's user; a login afterwards is
    decided by [bcrypt.compare] against the new hash. *)
Theorem changePassword_then_login :
  forall cfg cr req_body env w tr token p j k u old new,
    token <> "" ->
    jwt_decode cr (jwtSecret cfg) token = Some p ->
    (forall e, exp p = Some e -> now env < e) ->
    jti p = Some j ->
    j <> "" ->
    redis w !! ("black_" +:+ j) = None ->
    keyed_by_email (users w) ->
    unique_ids (users w) ->
    rows (users w) !! k = Some u ->
    id u = sub p ->
    field req_body "oldPassword" = JStr old ->
    field req_body "newPassword" = JStr new ->
    old <> "" ->
    6 <= JsString.len new ->
    old <> new ->
    bcrypt_compare_fn cr old (password_hash u) = true ->
    get_fails (faults env) = false ->
    findOne_fails (faults env) = false ->
    transaction_fails (faults env) = false ->
    save_fails (faults env) = false ->
    commit_fails (faults env) = false ->
    let h := bcrypt_hash_fn cr new 12 (salt env) in
    let out := changePassword cfg cr (Some ("Bearer " +:+ token)) req_body env
                 (mkSt w tr) in
    fst out = Ret (res_json ok_body)
    /\ world (snd out)
       = mkWorld (mkTable (<[k := mkUser (id u) k h (verified u)]> (rows (users w)))
                    (next_id (users w)))
           None (redis w) (outbox w) (transporterVerified w)
    /\ forall body2 env2 tr2 e pw,
        field body2 "email" = JStr e ->
        normalize e = k ->
        isValidEmail (JStr k) = true ->
        field body2 "password" = JStr pw ->
        pw <> "" ->
        findOne_fails (faults env2) = false ->
        verified u = true ->
        let out2 := login cfg cr body2 env2 (mkSt (world (snd out)) tr2) in
        (bcrypt_compare_fn cr pw h = true ->
         exists t, fst out2 = Ret (res_json (JObj [("token", JStr t)])))
        /\ (bcrypt_compare_fn cr pw h = false ->
            fst out2 = Ret (errorResponse 400 "invalid credentials")).
Proof.
  intros cfg cr req_body env w tr token p j k u old new Htok Hdec Hexp Hjti Hj
    Hnone Hwf Huniq Hk Hid Hold Hnew Hne Hlen Hdiff Hcmp Hget Hfind Htx Hsave
    Hcommit h out. subst out h.
  unfold changePassword, bind.
  rewrite (authMiddleware_verified_token cfg cr env w tr token p j) by assumption.
  rewrite Hget, (redis_read_None _ _ _ Hnone). cbn [falsy_str negb].
  rewrite (changePasswordHandler_run cr p req_body env w _ k u old new)
    by assumption.
  cbn [fst snd world]. split; [reflexivity |]. split; [reflexivity |].
  intros body2 env2 tr2 e pw He Hn Hv Hpw Hpne Hf2 Hver.
  rewrite <- Hn in Hv.
  match goal with |- context [login _ _ _ _ (mkSt ?w1 _)] => set (w' := w1) end.
  set (u' := mkUser (id u) k (bcrypt_hash_fn cr new 12 (salt env)) (verified u)).
  assert (Hu' : rows (users w') !! normalize e = Some u').
  { subst w'. cbn [users rows]. rewrite Hn. apply lookup_insert_eq. }
  split; intros Hc.
  - eexists.
    rewrite (login_success cfg cr body2 env2 w' tr2 e pw u' He Hpw Hpne Hv Hf2 Hu'
               Hver Hc).
    reflexivity.
  - rewrite (login_wrong_password cfg cr body2 env2 w' tr2 e pw u' He Hpw Hpne Hv
               Hf2 Hu' Hver Hc).
    reflexivity.
Qed.

Lemma changePassword_then_login_witness :
  let out := Demo.run (changePassword Demo.cfg Demo.cr
                         (Some "Bearer change_this_secret.jti-1")
                         (Demo.body2 "oldPassword" (JStr "secret1")
                            "newPassword" (JStr "secret2")))
               Demo.env0 Demo.w_verified in
  fst out = Ret (res_json ok_body)
  /\ fst (login Demo.cfg Demo.cr
            (Demo.body2 "email" (JStr "a@b.com") "password" (JStr "secret1"))
            Demo.env0 (mkSt (world (snd out)) []))
     = Ret (errorResponse 400 "invalid credentials").
Proof.
  destruct (changePassword_then_login Demo.cfg Demo.cr
              (Demo.body2 "oldPassword" (JStr "secret1") "newPassword" (JStr "secret2"))
              Demo.env0 Demo.w_verified [] "change_this_secret.jti-1"
              Demo.alice_claims "jti-1" "a@b.com" (Demo.alice true)
              "secret1" "secret2"
              ltac:(discriminate) ltac:(reflexivity)
              ltac:(intros e [= <-]; simpl; lia)
              ltac:(reflexivity) ltac:(discriminate) ltac:(reflexivity)
              demo_keyed demo_unique
              ltac:(reflexivity) ltac:(reflexivity) ltac:(reflexivity)
              ltac:(reflexivity) ltac:(discriminate) ltac:(vm_compute; discriminate)
              ltac:(discriminate) ltac:(reflexivity) ltac:(reflexivity)
              ltac:(reflexivity) ltac:(reflexivity) ltac:(reflexivity)
              ltac:(reflexivity)) as (H1 & _ & H3).
  split; [exact H1 |].
  destruct (H3 (Demo.body2 "email" (JStr "a@b.com") "password" (JStr "secret1"))
              Demo.env0 [] "a@b.com" "secret1"
              ltac:(reflexivity) ltac:(reflexivity) ltac:(reflexivity)
              ltac:(reflexivity) ltac:(discriminate) ltac:(reflexivity)
              ltac:(reflexivity)) as (_ & H5).
  exact (H5 ltac:(reflexivity)).
Defined.

(** X17. [PUT /password] never touches the key-value store or the outbox,
    and changes a row only when the guard let the token through and the old
    password matches: then exactly the password hash of the row whose id is
    the token's [sub] is replaced. *)
Theorem changePassword_changes_only_own_hash :
  forall cfg cr auth req_body env w tr,
    keyed_by_email (users w) ->
    let out := changePassword cfg cr auth req_body env (mkSt w tr) in
    redis (world (snd out)) = redis w
    /\ outbox (world (snd out)) = outbox w
    /\ ((users (world (snd out)) = users w
         /\ exists r, fst out = Ret r /\ status r <> 200)
        \/ (exists p k u old new,
              fst (authMiddleware cfg cr auth env (mkSt w tr)) = Ret (Next p)
              /\ rows (users w) !! k = Some u /\ id u = sub p
              /\ field req_body "oldPassword" = JStr old
              /\ field req_body "newPassword" = JStr new
              /\ bcrypt_compare_fn cr old (password_hash u) = true
              /\ users (world (snd out))
                 = mkTable (<[k := mkUser (id u) k (bcrypt_hash_fn cr new 12 (salt env))
                                    (verified u)]> (rows (users w)))
                     (next_id (users w))
              /\ fst out = Ret (res_json ok_body))).
Proof.
  intros cfg cr auth req_body env w tr Hwf out. subst out.
  destruct (changePassword_guarded cfg cr auth req_body env w tr)
    as (tr' & [(r & Hg & Hs & ->) | (p & Hg & ->)]).
  - cbn [fst snd world]. repeat split. left. split; [reflexivity | eauto].
  - destruct (changePasswordHandler_frame cr p req_body env w tr' Hwf)
      as (Hr & Ho & [Hsame | (k & u & old & new & H)]).
    + split; [exact Hr |]. split; [exact Ho |]. left. exact Hsame.
    + split; [exact Hr |]. split; [exact Ho |]. right.
      exists p, k, u, old, new. rewrite Hg. split; [reflexivity | exact H].
Qed.

Lemma changePassword_changes_only_own_hash_witness :
  let out := Demo.run (changePassword Demo.cfg Demo.cr
                         (Some "Bearer change_this_secret.jti-1")
                         (Demo.body2 "oldPassword" (JStr "wrong-one")
                            "newPassword" (JStr "secret2")))
               Demo.env0 Demo.w_verified in
  redis (world (snd out)) = redis Demo.w_verified
  /\ outbox (world (snd out)) = outbox Demo.w_verified.
Proof.
  destruct (changePassword_changes_only_own_hash Demo.cfg Demo.cr
              (Some "Bearer change_this_secret.jti-1")
              (Demo.body2 "oldPassword" (JStr "wrong-one") "newPassword" (JStr "secret2"))
              Demo.env0 Demo.w_verified [] demo_keyed) as (H1 & H2 & _).
  split; [exact H1 | exact H2].
Defined.

(** X18. After a logout whose marker write succeeded, [PUT /password]
    with the same token.  When the guard's lookup of the marker succeeds,
    and while neither the token nor the marker has expired, the answer is
    401 "Token revoked" and nothing changes.  The marker of a token that
    carries an expiry lasts as long as the token: with a clock that does not
    run backwards the answer is then always a 401, "Token revoked" before
    the expiry and "Token expired" from it on.  When the lookup throws, the
    guard lets the revoked token through while it has not expired. *)
Theorem logout_then_changePassword_rejected :
  forall cfg cr env1 env2 w tr token p j req_body,
    token <> "" ->
    jwt_decode cr (jwtSecret cfg) token = Some p ->
    jti p = Some j ->
    j <> "" ->
    setEx_fails (faults env1) = false ->
    let bearer := Some ("Bearer " +:+ token) in
    let st1 := snd (logout cfg cr bearer env1 (mkSt w tr)) in
    let out := changePassword cfg cr bearer req_body env2 st1 in
    (get_fails (faults env2) = false ->
     (forall e, exp p = Some e -> now env2 < e) ->
     now env2 < now env1 + blacklist_ttl cfg p (now env1) ->
     fst out = Ret (errorResponse 401 "Token revoked")
     /\ world (snd out) = world st1
     /\ users (world (snd out)) = users w)
    /\ (get_fails (faults env2) = false ->
        forall e,
          exp p = Some e ->
          0 <= now env1 ->
          now env1 <= now env2 ->
          (if (now env2 <? e)%Z
           then fst out = Ret (errorResponse 401 "Token revoked")
           else fst out = Ret (errorResponse 401 "Token expired"))
          /\ world (snd out) = world st1
          /\ users (world (snd out)) = users w)
    /\ (get_fails (faults env2) = true ->
        (forall e, exp p = Some e -> now env2 < e) ->
        fst (authMiddleware cfg cr bearer env2 st1) = Ret (Next p)).
Proof.
  intros cfg cr env1 env2 w tr token p j req_body Htok Hdec Hjti Hj Hs
    bearer st1 out.
  assert (Hst1 : users (world st1) = users w).
  { subst st1 bearer.
    rewrite (logout_verified_token cfg cr env1 w tr token p j) by assumption.
    rewrite Hs. reflexivity. }
  assert (Hrevoked :
            get_fails (faults env2) = false ->
            (forall e, exp p = Some e -> now env2 < e) ->
            now env2 < now env1 + blacklist_ttl cfg p (now env1) ->
            fst out = Ret (errorResponse 401 "Token revoked")
            /\ world (snd out) = world st1
            /\ users (world (snd out)) = users w).
  { intros Hget Hexp Hlive. subst out. unfold changePassword, bind.
    destruct st1 as [w1 tr1] eqn:Est. subst bearer.
    pose proof (logout_then_guard_rejects cfg cr env1 env2 w tr token p j Htok Hdec
                  Hjti Hj Hs Hget Hexp Hlive) as Hg.
    cbv zeta in Hg. fold st1 in Hg. rewrite Est in Hg. rewrite Hg.
    cbn [fst snd world trace]. cbn [world] in Hst1. repeat split. exact Hst1. }
  split; [exact Hrevoked |]. split.
  - intros Hget e He H0 H12.
    destruct (Z.ltb_spec (now env2) e) as [Hlt | Hge].
    + apply Hrevoked; [exact Hget | |].
      * intros e0 He0. rewrite He in He0. injection He0 as <-. exact Hlt.
      * exact (blacklist_covers_token cfg p e _ _ He H0 H12 Hlt).
    + subst out. unfold changePassword, bind. destruct st1 as [w1 tr1]. subst bearer.
      rewrite (authMiddleware_expired cfg cr env2 w1 tr1 token p e Htok Hdec He Hge).
      cbn [fst snd world]. cbn [world] in Hst1. repeat split. exact Hst1.
  - intros Hget Hexp. destruct st1 as [w1 tr1]. subst bearer.
    rewrite (authMiddleware_verified_token cfg cr env2 w1 tr1 token p j)
      by assumption.
    rewrite Hget. reflexivity.
Qed.

Lemma logout_then_changePassword_rejected_witness :
  let bearer := Some "Bearer change_this_secret.jti-1" in
  let st1 := snd (Demo.run (logout Demo.cfg Demo.cr bearer) Demo.env0 Demo.w_verified) in
  let body := Demo.body2 "oldPassword" (JStr "secret1") "newPassword" (JStr "secret2") in
  fst (changePassword Demo.cfg Demo.cr bearer body
         (mkEnv no_faults 87399 (1 # 2) "jti-2" "saltsalt") st1)
  = Ret (errorResponse 401 "Token revoked")
  /\ fst (changePassword Demo.cfg Demo.cr bearer body
            (mkEnv no_faults 87400 (1 # 2) "jti-2" "saltsalt") st1)
     = Ret (errorResponse 401 "Token expired")
  /\ fst (authMiddleware Demo.cfg Demo.cr bearer
            (mkEnv Demo.get_down 2000 (1 # 2) "jti-2" "saltsalt") st1)
     = Ret (Next Demo.alice_claims).
Proof.
  pose (body := Demo.body2 "oldPassword" (JStr "secret1") "newPassword" (JStr "secret2")).
  assert (H : forall env2,
             let st1 := snd (Demo.run (logout Demo.cfg Demo.cr
                                         (Some "Bearer change_this_secret.jti-1"))
                               Demo.env0 Demo.w_verified) in
             let out := changePassword Demo.cfg Demo.cr
                          (Some "Bearer change_this_secret.jti-1") body env2 st1 in
             (get_fails (faults env2) = false ->
              forall e,
                exp Demo.alice_claims = Some e ->
                0 <= now Demo.env0 ->
                now Demo.env0 <= now env2 ->
                (if (now env2 <? e)%Z
                 then fst out = Ret (errorResponse 401 "Token revoked")
                 else fst out = Ret (errorResponse 401 "Token expired"))
                /\ world (snd out) = world st1
                /\ users (world (snd out)) = users Demo.w_verified)
             /\ (get_fails (faults env2) = true ->
                 (forall e, exp Demo.alice_claims = Some e -> now env2 < e) ->
                 fst (authMiddleware Demo.cfg Demo.cr
                        (Some "Bearer change_this_secret.jti-1") env2 st1)
                 = Ret (Next Demo.alice_claims))).
  { intros env2.
    exact (proj2 (logout_then_changePassword_rejected Demo.cfg Demo.cr Demo.env0
                    env2 Demo.w_verified [] "change_this_secret.jti-1"
                    Demo.alice_claims "jti-1" body
                    ltac:(discriminate) ltac:(reflexivity) ltac:(reflexivity)
                    ltac:(discriminate) ltac:(reflexivity))). }
  split; [| split].
  - exact (proj1 (proj1 (H (mkEnv no_faults 87399 (1 # 2) "jti-2" "saltsalt"))
                    ltac:(reflexivity) 87400 ltac:(reflexivity)
                    ltac:(simpl; lia) ltac:(simpl; lia))).
  - exact (proj1 (proj1 (H (mkEnv no_faults 87400 (1 # 2) "jti-2" "saltsalt"))
                    ltac:(reflexivity) 87400 ltac:(reflexivity)
                    ltac:(simpl; lia) ltac:(simpl; lia))).
  - exact (proj2 (H (mkEnv Demo.get_down 2000 (1 # 2) "jti-2" "saltsalt"))
             ltac:(reflexivity) ltac:(intros e [= <-]; simpl; lia)).
Defined.

(** ** An email that is not a string *)

(** X8. An email that is truthy but not a string throws at
    [email.trim()] in every POST handler that reads one: 500 "internal
    server error", one log entry, no store call. *)
Theorem email_not_a_string_is_500 :
  forall cfg cr req_body env w tr,
    truthy (field req_body "email") = true ->
    is_string (field req_body "email") = false ->
    let answer msg :=
      (Ret (errorResponse 500 "internal server error"),
       mkSt w (tr ++ [EvConsoleError msg])) in
    forgotPassword cfg req_body env (mkSt w tr) = answer "Forgot password error:"
    /\ (truthy (field req_body "password") = true ->
        registerRequest cfg cr req_body env (mkSt w tr)
        = answer "Register request error:"
        /\ login cfg cr req_body env (mkSt w tr) = answer "Login error:")
    /\ (truthy (field req_body "code") = true ->
        registerVerify req_body env (mkSt w tr) = answer "Register verify error:"
        /\ (truthy (field req_body "newPassword") = true ->
            resetPassword cr req_body env (mkSt w tr)
            = answer "Reset password error:")).
Proof.
  intros cfg cr req_body env w tr Ht Hs answer. subst answer.
  pose proof (js_trim_nonstring _ Hs) as Htrim. unfold js_trim in Htrim.
  split; [| split].
  - unfold forgotPassword. rewrite Ht. mred. rewrite Htrim. reflexivity.
  - intros Hp. split.
    + unfold registerRequest. rewrite Ht, Hp. mred. rewrite Htrim. mred.
      name_test. reflexivity.
    + unfold login. rewrite Ht, Hp. mred. rewrite Htrim. reflexivity.
  - intros Hc. split.
    + unfold registerVerify. rewrite Ht, Hc. mred. rewrite Htrim. reflexivity.
    + intros Hn. unfold resetPassword. rewrite Ht, Hc, Hn. mred. rewrite Htrim.
      reflexivity.
Qed.

Lemma email_not_a_string_is_500_witness :
  fst (Demo.run (login Demo.cfg Demo.cr
                   (Demo.body2 "email" (JArr [JStr "a@b.com"]) "password" (JStr "secret1")))
         Demo.env0 Demo.w_verified)
  = Ret (errorResponse 500 "internal server error").
Proof.
  destruct (email_not_a_string_is_500 Demo.cfg Demo.cr
              (Demo.body2 "email" (JArr [JStr "a@b.com"]) "password" (JStr "secret1"))
              Demo.env0 Demo.w_verified [] ltac:(reflexivity) ltac:(reflexivity))
    as (_ & H & _).
  exact (f_equal fst (proj2 (H ltac:(reflexivity)))).
Defined.

(** ** All routes *)

(** X19. No exception escapes a handler or the guard: every request to
    one of the seven routes is answered, whatever fails. *)
Theorem every_request_is_answered :
  forall cfg cr rq env st, exists r, fst (api_route cfg cr rq env st) = Ret r.
Proof.
  intros cfg cr rq env [w tr].
  destruct rq as [[b | b | b | a | b | b] | a b]; cbn [api_route route].
  - unfold registerRequest. mred. repeat mmatch; eauto.
  - unfold registerVerify. mred. repeat mmatch; eauto.
  - unfold login. mred. repeat mmatch; eauto.
  - unfold logout. mred. repeat mmatch; eauto.
  - unfold forgotPassword. mred. repeat mmatch; eauto.
  - unfold resetPassword. mred. repeat mmatch; eauto.
  - destruct (changePassword_guarded cfg cr a b env w tr)
      as (tr' & [(r & _ & _ & ->) | (p & _ & ->)]); [eauto |].
    unfold changePasswordHandler, User_findByPk. mred. repeat mmatch; eauto.
Qed.

Lemma accounts_ok_keyed t : accounts_ok t -> keyed_by_email t.
Proof. intros [H _] k u Hl. apply (H k u Hl). Qed.

Lemma accounts_ok_update t k u u' :
  accounts_ok t ->
  rows t !! k = Some u ->
  id u' = id u ->
  email u' = k ->
  accounts_ok (mkTable (<[k := u']> (rows t)) (next_id t)).
Proof.
  intros [Hrow Huniq] Hk Hid Hem. split.
  - intros k0 u0 Hl. cbn [rows next_id] in *.
    destruct (decide (k = k0)) as [<- | Hne].
    + rewrite lookup_insert_eq in Hl. injection Hl as <-.
      destruct (Hrow k u Hk) as (_ & Hn & Hv & Hlt).
      repeat split; try assumption. lia.
    + rewrite lookup_insert_ne in Hl by exact Hne. apply Hrow. exact Hl.
  - intros k1 k2 u1 u2 H1 H2 E. cbn [rows] in *.
    destruct (decide (k = k1)) as [<- | D1]; destruct (decide (k = k2)) as [<- | D2];
      rewrite ?lookup_insert_eq in *;
      rewrite ?(lookup_insert_ne _ k k1), ?(lookup_insert_ne _ k k2) in * by assumption.
    + reflexivity.
    + injection H1 as <-. apply (Huniq k k2 u u2); [assumption | assumption | lia].
    + injection H2 as <-. apply (Huniq k1 k u1 u); [assumption | assumption | lia].
    + apply (Huniq k1 k2 u1 u2); assumption.
Qed.

Lemma accounts_ok_create t k h :
  accounts_ok t ->
  rows t !! k = None ->
  normalize k = k ->
  isValidEmail (JStr k) = true ->
  accounts_ok (mkTable (<[k := mkUser (next_id t) k h false]> (rows t))
                 (next_id t + 1)).
Proof.
  intros [Hrow Huniq] Hk Hn Hv. split.
  - intros k0 u0 Hl. cbn [rows next_id] in *.
    destruct (decide (k = k0)) as [<- | Hne].
    + rewrite lookup_insert_eq in Hl. injection Hl as <-.
      cbn [email id]. repeat split; try assumption. lia.
    + rewrite lookup_insert_ne in Hl by exact Hne.
      destruct (Hrow k0 u0 Hl) as (? & ? & ? & ?). repeat split; try assumption. lia.
  - intros k1 k2 u1 u2 H1 H2 E. cbn [rows] in *.
    destruct (decide (k = k1)) as [<- | D1]; destruct (decide (k = k2)) as [<- | D2];
      rewrite ?lookup_insert_eq in *;
      rewrite ?(lookup_insert_ne _ k k1), ?(lookup_insert_ne _ k k2) in * by assumption.
    + reflexivity.
    + injection H1 as <-. cbn [id] in E.
      destruct (Hrow k2 u2 H2) as (_ & _ & _ & Hlt). lia.
    + injection H2 as <-. cbn [id] in E.
      destruct (Hrow k1 u1 H1) as (_ & _ & _ & Hlt). lia.
    + apply (Huniq k1 k2 u1 u2); assumption.
Qed.

Lemma users_login cfg cr body env w tr :
  users (world (snd (login cfg cr body env (mkSt w tr)))) = users w.
Proof. unfold login. mred. repeat mmatch; reflexivity. Qed.

Lemma users_logout cfg cr auth env w tr :
  users (world (snd (logout cfg cr auth env (mkSt w tr)))) = users w.
Proof. unfold logout. mred. repeat mmatch; reflexivity. Qed.

Lemma users_forgot cfg body env w tr :
  users (world (snd (forgotPassword cfg body env (mkSt w tr)))) = users w.
Proof. unfold forgotPassword. mred. repeat mmatch; reflexivity. Qed.

Lemma accounts_ok_route cfg cr rq env w tr :
  accounts_ok (users w) ->
  accounts_ok (users (world (snd (api_route cfg cr rq env (mkSt w tr))))).
Proof.
  intros Hok. pose proof (accounts_ok_keyed _ Hok) as Hwf.
  destruct rq as [[b | b | b | a | b | b] | a b]; cbn [api_route route].
  - destruct (registerRequest_frame cfg cr b env w tr)
      as [(-> & _) | (e & pw & _ & _ & Hv & Hnone & [-> | ->])]; try exact Hok.
    apply accounts_ok_create; try assumption. apply normalize_idem.
  - destruct (registerVerify_frame b env w tr Hwf) as [-> | (e & u & _ & Hu & ->)];
      [exact Hok |].
    apply (accounts_ok_update _ _ u); try assumption; reflexivity.
  - rewrite users_login. exact Hok.
  - rewrite users_logout. exact Hok.
  - rewrite users_forgot. exact Hok.
  - destruct (resetPassword_frame cr b env w tr Hwf)
      as (_ & [(-> & _) | (e & c & new & u & _ & _ & _ & _ & Hu & Hcase & _)]);
      [exact Hok |].
    destruct Hcase as [[_ ->] | [_ ->]]; [exact Hok |].
    apply (accounts_ok_update _ _ u); try assumption; reflexivity.
  - destruct (changePassword_guarded cfg cr a b env w tr)
      as (tr' & [(r & _ & _ & ->) | (p & _ & ->)]); [exact Hok |].
    destruct (changePasswordHandler_frame cr p b env w tr' Hwf)
      as (_ & _ & [(-> & _) | (k & u & old & new & Hu & _ & _ & _ & _ & -> & _)]);
      [exact Hok |].
    apply (accounts_ok_update _ _ u); try assumption; reflexivity.
Qed.

(** X20. Serving requests keeps the committed table well formed: rows
    under their own emails, which are valid and in normal form, and ids that
    are distinct and below the next id. *)
Theorem accounts_stay_well_formed :
  forall cfg cr reqs st,
    accounts_ok (users (world st)) ->
    accounts_ok (users (world (api_serve cfg cr reqs st))).
Proof.
  intros cfg cr reqs. induction reqs as [| [rq env] rest IH]; intros [w tr] Hok;
    cbn [api_serve world].
  - exact Hok.
  - apply IH. apply accounts_ok_route. exact Hok.
Qed.

Lemma accounts_stay_well_formed_witness :
  accounts_ok
    (users (world (api_serve Demo.cfg Demo.cr
                     [(Post (PostRegisterRequest
                               (Demo.body2 "email" (JStr " A@b.com")
                                  "password" (JStr "secret1"))), Demo.env0)]
                     (mkSt Demo.w0 [])))).
Proof.
  apply accounts_stay_well_formed. split.
  - intros k u Hl. cbn in Hl. rewrite lookup_empty in Hl. discriminate Hl.
  - intros k1 k2 u1 u2 Hl. cbn in Hl. rewrite lookup_empty in Hl. discriminate Hl.
Defined.

(** ** Configuration *)

Lemma string_app_assoc (a b c : string) : (a +:+ b) +:+ c = a +:+ (b +:+ c).
Proof.
  induction a as [| x a IH]; [reflexivity |].
  change (String x ((a +:+ b) +:+ c) = String x (a +:+ (b +:+ c))). rewrite IH.
  reflexivity.
Qed.

Lemma digit_facts c :
  JsString.is_digit c = true ->
  JsString.is_ws c = false /\ Ascii.eqb c "-" = false /\ Ascii.eqb c "+" = false.
Proof.
  destruct c as [[] [] [] [] [] [] [] []]; intros H; try discriminate H;
    repeat split; reflexivity.
Qed.

(** The digits [JsNumber.digits] puts in front of [acc]: a non-empty run of
    digits that reads back as [n]. *)
Lemma digits_spec f :
  forall n acc,
    0 <= n < 2 ^ (Z.of_nat f + 1) ->
    exists ds,
      JsNumber.digits f n acc = ds +:+ acc
      /\ ds <> "" /\ all_chars JsString.is_digit ds = true
      /\ forall rest a,
          JsNumber.parse_digits (ds +:+ rest) a
          = JsNumber.parse_digits rest (a * 10 ^ Z.of_nat (String.length ds) + n).
Proof.
  induction f as [| f IH]; intros n acc Hn.
  - assert (Hd : 0 <= n < 10) by (change (2 ^ (Z.of_nat 0 + 1)) with 2 in Hn; lia).
    exists (String (JsNumber.digit_char (n mod 10)) "").
    cbn [JsNumber.digits]. split; [reflexivity |]. split; [discriminate |].
    assert (Hm : n mod 10 = n) by (apply Z.mod_small; exact Hd).
    cbn [all_chars]. rewrite Hm, (digit_is_digit n Hd). split; [reflexivity |].
    intros rest a.
    change (String (JsNumber.digit_char n) "" +:+ rest)
      with (String (JsNumber.digit_char n) rest).
    cbn [JsNumber.parse_digits String.length].
    rewrite (digit_is_digit n Hd), (digit_val_char n Hd). f_equal. lia.
  - cbn [JsNumber.digits].
    assert (Hmod : 0 <= n mod 10 < 10) by (apply Z.mod_pos_bound; lia).
    destruct (Z.eqb_spec (n / 10) 0) as [Hq | Hq].
    + exists (String (JsNumber.digit_char (n mod 10)) "").
      split; [reflexivity |]. split; [discriminate |].
      cbn [all_chars]. rewrite (digit_is_digit _ Hmod). split; [reflexivity |].
      intros rest a.
      change (String (JsNumber.digit_char (n mod 10)) "" +:+ rest)
        with (String (JsNumber.digit_char (n mod 10)) rest).
      cbn [JsNumber.parse_digits String.length].
      rewrite (digit_is_digit _ Hmod), (digit_val_char _ Hmod). f_equal.
      pose proof (Z.div_mod n 10 ltac:(lia)). lia.
    + assert (Hn' : 0 <= n / 10 < 2 ^ (Z.of_nat f + 1)).
      { split; [apply Z.div_pos; lia |].
        apply Z.div_lt_upper_bound; [lia |].
        replace (Z.of_nat (S f) + 1) with (Z.succ (Z.of_nat f + 1)) in Hn by lia.
        rewrite Z.pow_succ_r in Hn by lia. lia. }
      destruct (IH (n / 10) (String (JsNumber.digit_char (n mod 10)) acc) Hn')
        as (ds & Hds & Hne & Hall & Hparse).
      exists (ds +:+ String (JsNumber.digit_char (n mod 10)) "").
      rewrite Hds, string_app_assoc. split; [reflexivity |].
      split; [destruct ds; [congruence | discriminate] |].
      split.
      * clear - Hall Hmod. induction ds as [| c ds IHd].
        -- change ("" +:+ String (JsNumber.digit_char (n mod 10)) "")
             with (String (JsNumber.digit_char (n mod 10)) "").
           cbn [all_chars]. rewrite (digit_is_digit _ Hmod). reflexivity.
        -- change (String c ds +:+ String (JsNumber.digit_char (n mod 10)) "")
             with (String c (ds +:+ String (JsNumber.digit_char (n mod 10)) "")).
           cbn [all_chars] in *. apply andb_true_iff in Hall as [Hc Hr].
           rewrite Hc, (IHd Hr). reflexivity.
      * intros rest a. rewrite string_app_assoc, Hparse.
        change (String (JsNumber.digit_char (n mod 10)) "" +:+ rest)
          with (String (JsNumber.digit_char (n mod 10)) rest).
        cbn [JsNumber.parse_digits].
        rewrite (digit_is_digit _ Hmod), (digit_val_char _ Hmod). f_equal.
        assert (Hlen : String.length (ds +:+ String (JsNumber.digit_char (n mod 10)) "")
                       = S (String.length ds)).
        { clear. induction ds as [| c ds IHd]; [reflexivity |].
          change (String c ds +:+ ?x) with (String c (ds +:+ x)).
          cbn [String.length]. rewrite IHd. reflexivity. }
        rewrite Hlen, Nat2Z.inj_succ, Z.pow_succ_r by lia.
        pose proof (Z.div_mod n 10 ltac:(lia)). lia.
Qed.

Lemma toString_nonneg n :
  0 <= n ->
  exists ds,
    JsNumber.toString n = ds
    /\ ds <> "" /\ all_chars JsString.is_digit ds = true
    /\ forall rest, JsNumber.parse_digits (ds +:+ rest) 0 = JsNumber.parse_digits rest n.
Proof.
  intros Hn. unfold JsNumber.toString. destruct (Z.ltb_spec n 0); [lia |].
  destruct (digits_spec (Z.to_nat (Z.log2 n)) n "") as (ds & Hds & Hne & Hall & Hp).
  - rewrite Z2Nat.id by apply Z.log2_nonneg.
    destruct (Z.eq_dec n 0) as [-> | Hz]; [cbn; lia |].
    split; [lia |]. replace (Z.log2 n + 1) with (Z.succ (Z.log2 n)) by lia.
    apply Z.log2_spec. lia.
  - exists ds. rewrite Hds.
    assert (E : ds +:+ "" = ds).
    { clear. induction ds as [| c ds IH]; [reflexivity |].
      change (String c ds +:+ "") with (String c (ds +:+ "")). rewrite IH.
      reflexivity. }
    rewrite E. split; [reflexivity |]. split; [exact Hne |]. split; [exact Hall |].
    intros rest. rewrite Hp. f_equal.
Qed.

Lemma take_digits_app ds junk :
  all_chars JsString.is_digit ds = true ->
  no_digit_ahead junk ->
  take_digits (ds +:+ junk) = ds.
Proof.
  intros Hall Hj. induction ds as [| c ds IH].
  - change ("" +:+ junk) with junk. destruct junk as [| c r]; [reflexivity |].
    cbn [take_digits]. cbn in Hj. rewrite Hj. reflexivity.
  - change (String c ds +:+ junk) with (String c (ds +:+ junk)).
    cbn [all_chars] in Hall. apply andb_true_iff in Hall as [Hc Hr].
    cbn [take_digits]. rewrite Hc, (IH Hr). reflexivity.
Qed.

Lemma parseInt10_digits ds junk n :
  ds <> "" ->
  all_chars JsString.is_digit ds = true ->
  (forall rest, JsNumber.parse_digits (ds +:+ rest) 0 = JsNumber.parse_digits rest n) ->
  no_digit_ahead junk ->
  parseInt10 (ds +:+ junk) = Some n
  /\ parseInt10 ("-" +:+ ds +:+ junk) = Some (- n).
Proof.
  intros Hne Hall Hp Hj.
  assert (Hval : JsNumber.parse_digits ds 0 = Some n).
  { specialize (Hp ""). 
    assert (E : ds +:+ "" = ds).
    { clear. induction ds as [| c ds IH]; [reflexivity |].
      change (String c ds +:+ "") with (String c (ds +:+ "")). rewrite IH.
      reflexivity. }
    rewrite E in Hp. exact Hp. }
  pose proof (take_digits_app ds junk Hall Hj) as Htake.
  destruct ds as [| c ds]; [congruence |].
  pose proof Hall as Hall'. cbn [all_chars] in Hall'.
  apply andb_true_iff in Hall' as [Hc _].
  destruct (digit_facts c Hc) as (Hws & Hminus & Hplus).
  split.
  - unfold parseInt10.
    change (String c ds +:+ junk) with (String c (ds +:+ junk)) in *.
    cbn [JsString.trimStart]. rewrite Hws, Hminus, Hplus, Htake, Hval.
    cbn [fmap option_fmap option_map]. f_equal; lia.
  - unfold parseInt10.
    change ("-" +:+ String c ds +:+ junk) with (String "-" (String c ds +:+ junk)).
    cbn [JsString.trimStart].
    change (JsString.is_ws "-") with false. cbn iota.
    change (Ascii.eqb "-" "-") with true. cbn iota.
    rewrite Htake, Hval. cbn [fmap option_fmap option_map]. f_equal; lia.
Qed.

Lemma parseInt10_toString n junk :
  no_digit_ahead junk -> parseInt10 (JsNumber.toString n +:+ junk) = Some n.
Proof.
  intros Hj. destruct (Z.ltb_spec n 0) as [Hneg | Hpos].
  - destruct (toString_nonneg (- n) ltac:(lia)) as (ds & Hds & Hne & Hall & Hp).
    assert (E : JsNumber.toString n = "-" +:+ ds).
    { unfold JsNumber.toString in *. destruct (Z.ltb_spec n 0); [| lia].
      destruct (Z.ltb_spec (- n) 0); [lia |]. rewrite Hds. reflexivity. }
    rewrite E.
    change (("-" +:+ ds) +:+ junk) with ("-" +:+ ds +:+ junk).
    destruct (parseInt10_digits ds junk (- n) Hne Hall Hp Hj) as [_ H].
    rewrite H. f_equal. lia.
  - destruct (toString_nonneg n Hpos) as (ds & Hds & Hne & Hall & Hp).
    rewrite Hds. apply (parseInt10_digits ds junk n Hne Hall Hp Hj).
Qed.

Lemma filter_nil_iff {A} (f : A -> bool) (l : list A) :
  List.filter f l = [] <-> forall x, In x l -> f x = false.
Proof.
  induction l as [| a l IH]; cbn [List.filter In].
  - split; [intros _ x [] | reflexivity].
  - destruct (f a) eqn:Ha.
    + split; [discriminate |]. intros H. rewrite (H a (or_introl eq_refl)) in Ha.
      discriminate Ha.
    + rewrite IH. split.
      * intros H x [<- | Hx]; [exact Ha | apply H; exact Hx].
      * intros H x Hx. apply H. right. exact Hx.
Qed.

Lemma unset_false env k :
  ConfigJs.unset env k = false <-> exists v, env !! k = Some v /\ v <> "".
Proof.
  unfold ConfigJs.unset. destruct (env !! k) as [s |].
  - rewrite String.eqb_neq. split; [eauto |]. intros (v & [= <-] & H). exact H.
  - split; [discriminate |]. intros (v & H & _). discriminate H.
Qed.

Lemma equals_true env k v :
  ConfigJs.equals env k v = true <-> env !! k = Some v.
Proof.
  unfold ConfigJs.equals. destruct (env !! k) as [s |].
  - rewrite String.eqb_eq. split; congruence.
  - split; discriminate.
Qed.

Lemma validateConfig_None env :
  ConfigJs.validateConfig env = None
  <-> (forall k, In k ConfigJs.required -> exists v, env !! k = Some v /\ v <> "")
      /\ (env !! "NODE_ENV" = Some "production" ->
          exists s, env !! "JWT_SECRET" = Some s /\ s <> ""
                    /\ s <> "change_this_secret").
Proof.
  unfold ConfigJs.validateConfig.
  set (missing := List.filter (ConfigJs.unset env) ConfigJs.required).
  assert (Hm : (Z.of_nat (length missing) >? 0) = false <-> missing = []).
  { destruct missing; cbn [length]; [split; reflexivity |].
    split; [| discriminate]. destruct (Z.gtb_spec (Z.of_nat (S (length missing))) 0);
      [discriminate | lia]. }
  destruct (Z.of_nat (length missing) >? 0) eqn:Hlen.
  - split; [discriminate |]. intros [Hreq _]. exfalso.
    assert (E : missing = []).
    { apply filter_nil_iff. intros k Hk. apply unset_false. apply Hreq. exact Hk. }
    apply Hm in E. discriminate E.
  - assert (Hreq : forall k, In k ConfigJs.required ->
                             exists v, env !! k = Some v /\ v <> "").
    { intros k Hk. apply unset_false.
      apply (proj1 (filter_nil_iff _ _) (proj1 Hm eq_refl) k Hk). }
    destruct (ConfigJs.equals env "NODE_ENV" "production") eqn:Hprod; cbn [andb].
    + apply equals_true in Hprod.
      destruct (ConfigJs.unset env "JWT_SECRET") eqn:Hun; cbn [orb].
      * split; [discriminate |]. intros [_ H]. destruct (H Hprod) as (s & Hs & Hne & _).
        assert (ConfigJs.unset env "JWT_SECRET" = false)
          by (apply unset_false; eauto). congruence.
      * destruct (ConfigJs.equals env "JWT_SECRET" "change_this_secret") eqn:Hdef.
        -- split; [discriminate |]. intros [_ H]. destruct (H Hprod) as (s & Hs & _ & Hd).
           apply equals_true in Hdef. congruence.
        -- split; [| reflexivity]. intros _. split; [exact Hreq |]. intros _.
           apply unset_false in Hun as (s & Hs & Hne). exists s.
           split; [exact Hs |]. split; [exact Hne |]. intros ->.
           apply equals_true in Hs. congruence.
    + split; [| reflexivity]. intros _. split; [exact Hreq |]. intros Hp.
      apply equals_true in Hp. congruence.
Qed.

Lemma get_or_set env k d v :
  env !! k = Some v -> v <> "" -> ConfigJs.get_or env k d = v.
Proof.
  intros Hk Hv. unfold ConfigJs.get_or, ConfigJs.unset. rewrite Hk.
  rewrite (proj2 (String.eqb_neq v "") Hv). reflexivity.
Qed.

(** X21. [validateConfig] accepts exactly the environments in which the
    eight required variables are set and non-empty and, in production, the
    secret is set, non-empty and not the default one.  When it throws, the
    message lists exactly the required variables that are missing, or, none
    being missing, is the one about the secret in production. *)
Theorem validateConfig_accepts_iff :
  forall env,
    (ConfigJs.validateConfig env = None
     <-> (forall k, In k ConfigJs.required -> exists v, env !! k = Some v /\ v <> "")
         /\ (env !! "NODE_ENV" = Some "production" ->
             exists s, env !! "JWT_SECRET" = Some s /\ s <> ""
                       /\ s <> "change_this_secret"))
    /\ forall msg,
        ConfigJs.validateConfig env = Some msg ->
        (exists missing,
            missing <> []
            /\ (forall k, In k missing
                          <-> In k ConfigJs.required /\ ConfigJs.unset env k = true)
            /\ msg = "Missing required environment variables: "
                     +:+ ConfigJs.join ", " missing)
        \/ ((forall k, In k ConfigJs.required -> ConfigJs.unset env k = false)
            /\ env !! "NODE_ENV" = Some "production"
            /\ msg = "JWT_SECRET must be set in production environment").
Proof.
  intros env. split; [apply validateConfig_None |].
  intros msg. unfold ConfigJs.validateConfig.
  set (missing := List.filter (ConfigJs.unset env) ConfigJs.required).
  destruct (Z.gtb_spec (Z.of_nat (length missing)) 0) as [Hpos | Hzero].
  - intros [= <-]. left. exists missing. split; [| split; [| reflexivity]].
    + intros E. rewrite E in Hpos. cbn in Hpos. lia.
    + intros k. subst missing. apply filter_In.
  - assert (E : missing = []) by (destruct missing; [reflexivity | cbn in Hzero; lia]).
    destruct (ConfigJs.equals env "NODE_ENV" "production") eqn:Hprod; cbn [andb];
      [| discriminate].
    destruct (ConfigJs.unset env "JWT_SECRET"
              || ConfigJs.equals env "JWT_SECRET" "change_this_secret");
      [| discriminate].
    intros [= <-]. right. split; [| split; [| reflexivity]].
    + apply filter_nil_iff. exact E.
    + apply equals_true. exact Hprod.
Qed.

(** X22. A configuration that loads in production carries the secret of
    the environment, which is not the default; outside production an unset
    secret falls back to ["change_this_secret"]. *)
Theorem load_production_secret :
  forall env c,
    ConfigJs.load env = inr c ->
    c = ConfigJs.exports env
    /\ (env !! "NODE_ENV" <> Some "test" ->
        forall k, In k ConfigJs.required -> exists v, env !! k = Some v /\ v <> "")
    /\ (env !! "NODE_ENV" = Some "production" ->
        env !! "JWT_SECRET" = Some (ConfigJs.jwtSecret c)
        /\ ConfigJs.jwtSecret c <> ""
        /\ ConfigJs.jwtSecret c <> "change_this_secret")
    /\ (ConfigJs.unset env "JWT_SECRET" = true ->
        ConfigJs.jwtSecret c = "change_this_secret"
        /\ env !! "NODE_ENV" <> Some "production").
Proof.
  intros env c Hload. unfold ConfigJs.load in Hload.
  assert (Hc : c = ConfigJs.exports env).
  { destruct (negb _); [destruct (ConfigJs.validateConfig env) |]; congruence. }
  assert (Hval : env !! "NODE_ENV" <> Some "test" ->
                 ConfigJs.validateConfig env = None).
  { intros Hnt. destruct (ConfigJs.equals env "NODE_ENV" "test") eqn:Ht.
    - apply equals_true in Ht. congruence.
    - cbn [negb] in Hload. destruct (ConfigJs.validateConfig env);
        [discriminate Hload | reflexivity]. }
  split; [exact Hc |]. split; [| split].
  - intros Hnt. apply validateConfig_None. exact (Hval Hnt).
  - intros Hp.
    assert (Hnt : env !! "NODE_ENV" <> Some "test") by (rewrite Hp; discriminate).
    destruct (proj1 (validateConfig_None env) (Hval Hnt)) as [_ H].
    destruct (H Hp) as (s & Hs & Hne & Hd).
    subst c. cbn [ConfigJs.exports ConfigJs.jwtSecret].
    rewrite (get_or_set env _ _ s Hs Hne). repeat split; assumption.
  - intros Hun. subst c. cbn [ConfigJs.exports ConfigJs.jwtSecret].
    unfold ConfigJs.get_or. rewrite Hun. split; [reflexivity |]. intros Hp.
    assert (Hnt : env !! "NODE_ENV" <> Some "test") by (rewrite Hp; discriminate).
    destruct (proj1 (validateConfig_None env) (Hval Hnt)) as [_ H].
    destruct (H Hp) as (s & Hs & Hne & _).
    assert (ConfigJs.unset env "JWT_SECRET" = false) by (apply unset_false; eauto).
    congruence.
Qed.

Lemma load_production_secret_witness :
  ConfigJs.load demo_process_env = inr (ConfigJs.exports demo_process_env)
  /\ ConfigJs.jwtSecret (ConfigJs.exports demo_process_env) <> "change_this_secret".
Proof.
  assert (H : ConfigJs.load demo_process_env = inr (ConfigJs.exports demo_process_env))
    by reflexivity.
  split; [exact H |].
  destruct (load_production_secret _ _ H) as (_ & _ & H3 & _).
  exact (proj2 (proj2 (H3 ltac:(reflexivity)))).
Defined.

(** X23. The numeric settings are read by [parseInt(s, 10)]: the decimal
    text of [n] gives [n], also with a unit or other text behind it; an
    unset or empty variable gives the default; a text without leading
    digits gives [NaN]. *)
Theorem config_numbers_read_by_parseInt :
  forall env n junk,
    Z.abs n < 2 ^ 53 ->
    no_digit_ahead junk ->
    parseInt10 (JsNumber.toString n +:+ junk) = Some n
    /\ (env !! "VERIFICATION_CODE_TTL_SECONDS" = Some (JsNumber.toString n +:+ junk) ->
        ConfigJs.verifTtl (ConfigJs.exports env) = Some n)
    /\ (ConfigJs.unset env "VERIFICATION_CODE_TTL_SECONDS" = true ->
        ConfigJs.verifTtl (ConfigJs.exports env) = Some 600)
    /\ (forall c r,
          JsString.is_digit c = false -> JsString.is_ws c = false ->
          c <> "-"%char -> c <> "+"%char ->
          parseInt10 (String c r) = None
          /\ (env !! "VERIFICATION_CODE_TTL_SECONDS" = Some (String c r) ->
              ConfigJs.verifTtl (ConfigJs.exports env) = None)).
Proof.
  intros env n junk _ Hj.
  pose proof (parseInt10_toString n junk Hj) as Hp.
  split; [exact Hp |]. split; [| split].
  - intros Hv. cbn [ConfigJs.exports ConfigJs.verifTtl].
    rewrite (get_or_set env _ _ _ Hv); [exact Hp |].
    intros E. rewrite E in Hp. discriminate Hp.
  - intros Hun. cbn [ConfigJs.exports ConfigJs.verifTtl].
    unfold ConfigJs.get_or. rewrite Hun. reflexivity.
  - intros c r Hd Hws Hm Hpl.
    assert (Hnan : parseInt10 (String c r) = None).
    { unfold parseInt10. cbn [JsString.trimStart]. rewrite Hws.
      rewrite (proj2 (Ascii.eqb_neq c "-") Hm), (proj2 (Ascii.eqb_neq c "+") Hpl).
      cbn [take_digits]. rewrite Hd. reflexivity. }
    split; [exact Hnan |]. intros Hv. cbn [ConfigJs.exports ConfigJs.verifTtl].
    rewrite (get_or_set env _ _ _ Hv); [exact Hnan | discriminate].
Qed.

Lemma config_numbers_read_by_parseInt_witness :
  parseInt10 "600s" = Some 600.
Proof.
  exact (proj1 (config_numbers_read_by_parseInt ∅ 600 "s"
                  ltac:(vm_compute; reflexivity) ltac:(reflexivity))).
Defined.

(** ** Reconnection and CORS *)

(** X24. The delay between reconnection attempts is [retries * 100] ms,
    at most one second (the cap of three seconds is never reached), and the
    eleventh retry gives up. *)
Theorem reconnectStrategy_delay :
  forall retries,
    (retries <= 10 ->
     RedisJs.reconnectStrategy retries = inr (retries * 100)
     /\ retries * 100 <= 1000)
    /\ (10 < retries ->
        RedisJs.reconnectStrategy retries = inl "Max reconnection attempts reached").
Proof.
  intros retries. unfold RedisJs.reconnectStrategy. split; intros H.
  - destruct (Z.gtb_spec retries 10); [lia |]. split; [f_equal; lia | lia].
  - destruct (Z.gtb_spec retries 10); [reflexivity | lia].
Qed.

Lemma includes_In x l : App.includes x l = true <-> In x l.
Proof.
  unfold App.includes. rewrite existsb_exists. split.
  - intros (y & Hy & E). apply String.eqb_eq in E. subst y. exact Hy.
  - intros H. exists x. split; [exact H | apply String.eqb_refl].
Qed.

(** X25. The CORS middleware allows credentials only for an origin of the
    allowed list and then names that origin; an origin that is not listed
    gets no CORS header; no request is stopped, [OPTIONS] is answered 200. *)
Theorem cors_credentials_only_for_listed_origin :
  forall env origin method,
    let headers := fst (App.cors env origin method) in
    (forall v, In ("Access-Control-Allow-Credentials", v) headers ->
       exists o, origin = Some o /\ o <> ""
                 /\ In o (App.allowedOrigins env)
                 /\ forall a, In ("Access-Control-Allow-Origin", a) headers -> a = o)
    /\ (forall o, origin = Some o -> o <> "" -> ~ In o (App.allowedOrigins env) ->
          headers = [])
    /\ snd (App.cors env origin method)
       = (if String.eqb method "OPTIONS" then App.SendStatus 200 else App.CallNext).
Proof.
  intros env origin method headers. subst headers. unfold App.cors. cbn [fst snd].
  split; [| split; [| reflexivity]].
  - intros v Hin. destruct origin as [o |];
      cbn [default from_option Datatypes.id negb andb] in *.
    + destruct (String.eqb o "") eqn:Ho; cbn [negb andb] in *.
      * cbn [In app App.methods_headers] in Hin. exfalso. intuition discriminate.
      * destruct (App.includes o (App.allowedOrigins env)) eqn:Hinc.
        -- exists o. split; [reflexivity |].
           split; [apply String.eqb_neq; exact Ho |].
           split; [apply includes_In; exact Hinc |].
           intros a Ha. cbn [In app App.methods_headers] in Ha.
           destruct Ha as [Ha | Ha]; [congruence |].
           exfalso. intuition discriminate.
        -- cbn [andb negb In] in Hin. destruct Hin.
    + cbn [In app App.methods_headers] in Hin. exfalso. intuition discriminate.
  - intros o -> Hne Hnot. cbn [default from_option Datatypes.id].
    rewrite (proj2 (String.eqb_neq o "") Hne). cbn [negb andb].
    destruct (App.includes o (App.allowedOrigins env)) eqn:Hinc; [| reflexivity].
    apply includes_In in Hinc. contradiction.
Qed.
